(** * Microstock metadata validator: [validateMetadata]

    A shallow embedding of [services/validatorService.ts] and of the
    interfaces of [types.ts] it uses, followed by the properties of the
    validator that the specification states.

    Conventions of the embedding.

    - A JavaScript string is the list of its UTF-16 code units
      ([jsstring]); [s.length] is the length of that list.
    - A JavaScript number is a rational [Q] where the source computes with
      halves ([score]) and an integer [Z] where it only counts.  Every value
      the validator computes is a multiple of 0.5 far below 2^53, so the
      double-precision arithmetic of the source is exact and agrees with
      the arithmetic on [Q].
    - The three locals [issues], [recommendations] and [score] that the
      function mutates are threaded explicitly through the blocks of its
      body ([Locals], [Block]).
    - [String.prototype.toLowerCase] is the host's Unicode case mapping.  It
      is not code of this repository; the validator is parameterised by
      it, and [toLowerCase_ascii] is its restriction to ASCII, used for
      concrete inputs. *)

From Stdlib Require Import ZArith NArith QArith Qround Qminmax Bool Lia Lqa.
From Stdlib Require Import Ascii String DecimalString List Sorted.
Import ListNotations.
Local Close Scope string_scope.
Local Open Scope Z_scope.

(* ===================================================================== *)
(** ** JavaScript strings and the built-ins the validator calls          *)
(* ===================================================================== *)

Definition jsstring : Type := list N.

(** A source literal, written as a Rocq string of ASCII characters. *)
Definition js (s : string) : jsstring :=
  map N_of_ascii (list_ascii_of_string s).

(** The character U+0022, which the source writes inside a template. *)
Definition dquote : jsstring := [34%N].

(** [xs.length], as a number. *)
Definition len {A : Type} (xs : list A) : Z := Z.of_nat (length xs).

(** The regular expression class [\s] and the characters removed by
    [trim()]: ECMAScript WhiteSpace and LineTerminator. *)
Definition isWhiteSpace (c : N) : bool :=
  ((9 <=? c) && (c <=? 13) || (c =? 32) || (c =? 160) || (c =? 5760)
   || (8192 <=? c) && (c <=? 8202) || (c =? 8232) || (c =? 8233)
   || (c =? 8239) || (c =? 8287) || (c =? 12288) || (c =? 65279))%N.

Fixpoint trimStart (s : jsstring) : jsstring :=
  match s with
  | c :: s' => if isWhiteSpace c then trimStart s' else s
  | [] => []
  end.

(** [s.trim()] *)
Definition trim (s : jsstring) : jsstring :=
  rev (trimStart (rev (trimStart s))).

(** [s.split(/\s+/)]: the pieces between maximal runs of white space.
    [cur] is the piece being read, reversed; [inRun] says that the
    previous code unit belonged to a separator.  A string that starts
    (ends) with white space yields a leading (trailing) empty piece, and
    the empty string yields one empty piece. *)
Fixpoint split_from (cur : jsstring) (inRun : bool) (s : jsstring)
  : list jsstring :=
  match s with
  | [] => [rev cur]
  | c :: s' =>
      if isWhiteSpace c
      then if inRun then split_from cur true s'
           else rev cur :: split_from [] true s'
      else split_from (c :: cur) false s'
  end.

Definition split_ws (s : jsstring) : list jsstring := split_from [] false s.

Fixpoint startsWith (s t : jsstring) {struct t} : bool :=
  match t, s with
  | [], _ => true
  | _ :: _, [] => false
  | b :: t', a :: s' => (a =? b)%N && startsWith s' t'
  end.

(** [s.includes(t)] *)
Fixpoint includes (s t : jsstring) : bool :=
  startsWith s t ||
  match s with
  | [] => false
  | _ :: s' => includes s' t
  end.

(** [xs.join(sep)] on an array of strings. *)
Fixpoint join (sep : jsstring) (xs : list jsstring) : jsstring :=
  match xs with
  | [] => []
  | [x] => x
  | x :: xs' => x ++ sep ++ join sep xs'
  end.

(** Equality of strings, as [Set] compares its members. *)
Fixpoint jsstring_eqb (s t : jsstring) : bool :=
  match s, t with
  | [], [] => true
  | a :: s', b :: t' => (a =? b)%N && jsstring_eqb s' t'
  | _, _ => false
  end.

(** [new Set(xs)]: the members in insertion order, each kept once. *)
Definition Set_add (members : list jsstring) (x : jsstring) : list jsstring :=
  if existsb (jsstring_eqb x) members then members else members ++ [x].

Definition new_Set (xs : list jsstring) : list jsstring :=
  fold_left Set_add xs [].

(** [`${n}`] for an integer [n] (the validator only prints counts). *)
Definition Number_toString (n : Z) : jsstring :=
  js (NilEmpty.string_of_int (Z.to_int n)).

(** [xs[0]] inside a template: a missing element prints as "undefined". *)
Definition first_or_undefined (xs : list jsstring) : jsstring :=
  match xs with
  | x :: _ => x
  | [] => js "undefined"
  end.

(** [Math.round] on an exact multiple of 0.5: the nearest integer, a tie
    going up. *)
Definition Math_round (x : Q) : Q := inject_Z (Qfloor (x + (1 # 2))).

Definition Math_min (x y : Q) : Q := Qmin x y.
Definition Math_max (x y : Q) : Q := Qmax x y.

(** The ASCII part of [toLowerCase]: A-Z to a-z, every other code unit
    unchanged.  On strings of code units below 128 this is what the host
    computes. *)
Definition toLowerCase_ascii (s : jsstring) : jsstring :=
  map (fun c => if ((65 <=? c) && (c <=? 90))%N then (c + 32)%N else c) s.

(* ===================================================================== *)
(** ** The interfaces of [types.ts]                                      *)
(* ===================================================================== *)

Record KeywordAnalysis : Type := {
  broad : list jsstring;
  medium : list jsstring;
  niche : list jsstring;
  trending : list jsstring
}.

Inductive ContentType : Type :=
| Photography | Illustration | Render3D | Vector.

Record ImageMetadata : Type := {
  title : jsstring;
  description : jsstring;
  keywords : list jsstring;
  category : jsstring;
  contentType : ContentType;
  isAI : bool;
  author : jsstring;
  keywordAnalysis : option KeywordAnalysis
}.

(** [keyof ImageMetadata] *)
Inductive MetadataKey : Type :=
| key_title | key_description | key_keywords | key_category
| key_contentType | key_isAI | key_author | key_keywordAnalysis.

Inductive IssueType : Type := error | warning | info.

Record ValidationIssue : Type := {
  type : IssueType;
  message : jsstring;
  field : option MetadataKey
}.

Record ValidationResult : Type := {
  score : Q;
  issues : list ValidationIssue;
  recommendations : list jsstring
}.

(* ===================================================================== *)
(** ** [validatorService.ts]                                             *)
(* ===================================================================== *)

Definition BANNED_KEYWORDS : list jsstring :=
  map js
  [ (* Tech *)
    "iphone"; "ipad"; "apple"; "macbook"; "ios"; "airpods";
    "android"; "google"; "pixel"; "samsung"; "galaxy"; "windows"; "microsoft";
    "facebook"; "instagram"; "twitter"; "tiktok"; "whatsapp"; "youtube"; "linkedin";
    "adobe"; "photoshop"; "illustrator"; "zoom"; "skype";
    (* Auto *)
    "bmw"; "mercedes"; "audi"; "tesla"; "ferrari"; "porsche"; "lamborghini";
    "toyota"; "honda"; "ford"; "jeep";
    (* Fashion/Retail *)
    "nike"; "adidas"; "puma"; "reebok"; "gucci"; "prada"; "louis vuitton";
    "chanel"; "zara"; "h&m";
    (* Entertainment/Toys *)
    "disney"; "marvel"; "dc comics"; "star wars"; "lego"; "barbie";
    "hot wheels"; "nerf"; "mickey mouse";
    (* Food/Drink *)
    "coca-cola"; "pepsi"; "coke"; "mcdonalds"; "starbucks"; "kfc"; "burger king";
    (* Camera Gear *)
    "canon"; "nikon"; "sony"; "fujifilm"; "leica"; "gopro"
  ]%string.

(** The locals of [validateMetadata]. *)
Record Locals : Type := {
  cur_issues : list ValidationIssue;
  cur_recommendations : list jsstring;
  cur_score : Q
}.

(** [const issues = []; const recommendations = []; let score = 100;] *)
Definition entry : Locals :=
  {| cur_issues := []; cur_recommendations := []; cur_score := 100 |}.

(** A statement of the body, as a transformer of the locals. *)
Definition Block : Type := Locals -> Locals.

Definition skip : Block := fun st => st.

Definition seq (a b : Block) : Block := fun st => b (a st).

Notation "a ;; b" := (seq a b) (at level 61, left associativity).

(** [issues.push(i)] *)
Definition issues_push (i : ValidationIssue) : Block := fun st =>
  {| cur_issues := cur_issues st ++ [i];
     cur_recommendations := cur_recommendations st;
     cur_score := cur_score st |}.

(** [recommendations.push(r)] *)
Definition recommendations_push (r : jsstring) : Block := fun st =>
  {| cur_issues := cur_issues st;
     cur_recommendations := cur_recommendations st ++ [r];
     cur_score := cur_score st |}.

(** [score -= p] *)
Definition score_minus (p : Q) : Block := fun st =>
  {| cur_issues := cur_issues st;
     cur_recommendations := cur_recommendations st;
     cur_score := (cur_score st - p)%Q |}.

Definition issue (t : IssueType) (msg : jsstring) (f : MetadataKey)
  : ValidationIssue :=
  {| type := t; message := msg; field := Some f |}.

Section Validator.

(** [String.prototype.toLowerCase] of the host. *)
Variable toLowerCase : jsstring -> jsstring.

(** --- 1. Title Validation --- *)
Definition title_length_check (metadata : ImageMetadata) : Block :=
  let titleLen := len (title metadata) in
  if titleLen >? 70 then
    issues_push (issue error
      (js "Title is too long (" ++ Number_toString titleLen
       ++ js "/70 chars). It will be truncated on Adobe Stock.") key_title) ;;
    score_minus 15
  else if titleLen <? 20 then
    issues_push (issue warning
      (js "Title is too short. Use descriptive phrases for better SEO.")
      key_title) ;;
    score_minus 5
  else skip.

Definition title_words_check (metadata : ImageMetadata) : Block :=
  let titleWords := len (split_ws (title metadata)) in
  if titleWords <? 5 then
    issues_push (issue warning
      (js "Title word count is low (< 5 words).") key_title) ;;
    score_minus 5
  else skip.

(** --- 2. Description Validation --- *)
Definition description_check (metadata : ImageMetadata) : Block :=
  let descWords := len (split_ws (description metadata)) in
  if descWords <? 10 then
    issues_push (issue warning
      (js "Description is very sparse. Aim for 2-3 complete sentences.")
      key_description) ;;
    score_minus 10
  else skip.

(** --- 3. Keyword Validation --- *)
Definition keyword_count_check (metadata : ImageMetadata) : Block :=
  let keywordCount := len (keywords metadata) in
  if keywordCount <? 30 then
    let missing := 30 - keywordCount in
    issues_push (issue error
      (js "Found only " ++ Number_toString keywordCount
       ++ js " keywords. Minimum 30 required for optimal visibility.")
      key_keywords) ;;
    score_minus (inject_Z missing * 1.5) ;;
    recommendations_push
      (js "Add " ++ Number_toString missing
       ++ js " more keywords to reach the minimum of 30.")
  else if keywordCount >? 50 then
    let extra := keywordCount - 50 in
    issues_push (issue error
      (js "Found " ++ Number_toString keywordCount
       ++ js " keywords. Max 50 allowed on most platforms.")
      key_keywords) ;;
    score_minus (inject_Z extra * 2) ;;
    recommendations_push
      (js "Remove " ++ Number_toString extra
       ++ js " least relevant keywords.")
  else skip.

(** [new Set(metadata.keywords.map(k => k.toLowerCase().trim()))] *)
Definition uniqueKeywords (metadata : ImageMetadata) : list jsstring :=
  new_Set (map (fun k => trim (toLowerCase k)) (keywords metadata)).

(** Check for duplicates (case-insensitive) *)
Definition duplicate_check (metadata : ImageMetadata) : Block :=
  if negb (len (uniqueKeywords metadata) =? len (keywords metadata)) then
    let diff := len (keywords metadata) - len (uniqueKeywords metadata) in
    issues_push (issue warning
      (js "Found " ++ Number_toString diff ++ js " duplicate keywords.")
      key_keywords) ;;
    score_minus (inject_Z diff * 3) ;;
    recommendations_push
      (js "Remove duplicate keywords to save space for unique terms.")
  else skip.

Definition tooShortKeywords (metadata : ImageMetadata) : list jsstring :=
  filter (fun k => len k <? 3) (keywords metadata).

(** Check for single-word keywords that are too generic (basic heuristic) *)
Definition short_keywords_check (metadata : ImageMetadata) : Block :=
  if len (tooShortKeywords metadata) >? 3 then
    issues_push (issue info
      (Number_toString (len (tooShortKeywords metadata))
       ++ js " keywords are very short/generic (e.g. " ++ dquote
       ++ first_or_undefined (tooShortKeywords metadata) ++ dquote
       ++ js ").") key_keywords) ;;
    recommendations_push
      (js "Replace short 2-letter keywords with more specific terms.")
  else skip.

(** --- 4. Risk / Content Compliance --- *)
Definition foundBanned (metadata : ImageMetadata) : list jsstring :=
  let lowerTitle := toLowerCase (title metadata) in
  let lowerDesc := toLowerCase (description metadata) in
  let lowerKeywords := map toLowerCase (keywords metadata) in
  filter (fun banned =>
            existsb (fun k => includes k banned) lowerKeywords
            || includes lowerTitle banned
            || includes lowerDesc banned)
         BANNED_KEYWORDS.

Definition compliance_check (metadata : ImageMetadata) : Block :=
  if len (foundBanned metadata) >? 0 then
    issues_push (issue error
      (js "Potential Trademark/Brand Violation: "
       ++ join (js ", ") (foundBanned metadata)
       ++ js ". Commercial stock must be free of brands.") key_keywords) ;;
    score_minus (25 * inject_Z (len (foundBanned metadata))) ;;
    recommendations_push
      (js "Remove all instances of: "
       ++ join (js ", ") (foundBanned metadata) ++ js ".")
  else skip.

(** --- 5. Technical / Format Checks --- *)
Definition ai_check (metadata : ImageMetadata) : Block :=
  if negb (isAI metadata) then
    issues_push (issue warning
      (js "isAI flag is false. Most platforms now require marking AI content explicitly.")
      key_isAI) ;;
    score_minus 10
  else skip.

Definition author_check (metadata : ImageMetadata) : Block :=
  if negb (includes (author metadata) (js "{{author}}")) then
    issues_push (issue info
      (js "Author field does not contain dynamic placeholder.") key_author)
  else skip.

(** The blocks of the body, in program order. *)
Definition checks (metadata : ImageMetadata) : list Block :=
  [ title_length_check metadata; title_words_check metadata;
    description_check metadata;
    keyword_count_check metadata; duplicate_check metadata;
    short_keywords_check metadata;
    compliance_check metadata;
    ai_check metadata; author_check metadata ].

Definition run (bs : list Block) (st : Locals) : Locals :=
  fold_left (fun st b => b st) bs st.

(** The locals when control reaches [// Clamp score]. *)
Definition body (metadata : ImageMetadata) : Locals :=
  run (checks metadata) entry.

Definition validateMetadata (metadata : ImageMetadata) : ValidationResult :=
  let st := body metadata in
  (* Clamp score *)
  let score := Math_max 0 (Math_min 100 (Math_round (cur_score st))) in
  {| score := score;
     issues := cur_issues st;
     recommendations := cur_recommendations st |}.

End Validator.

(* ===================================================================== *)
(** ** What one block contributes                                        *)
(* ===================================================================== *)

(** The issues, the recommendations and the score penalty of a block are
    read off its run from the entry state. *)
Definition emitted (b : Block) : list ValidationIssue := cur_issues (b entry).

Definition advised (b : Block) : list jsstring := cur_recommendations (b entry).

Definition penalty (b : Block) : Q := (100 - cur_score (b entry))%Q.

Definition total_penalty (bs : list Block) : Q :=
  fold_right (fun b acc => (penalty b + acc)%Q) 0%Q bs.

(** A block is uniform when it only appends to the two arrays and only
    lowers the score, by amounts that do not depend on the state it
    starts from. *)
Definition uniform (b : Block) : Prop :=
  forall st,
    cur_issues (b st) = cur_issues st ++ emitted b /\
    cur_recommendations (b st) = cur_recommendations st ++ advised b /\
    (cur_score (b st) == cur_score st - penalty b)%Q.

(** The result of [validateMetadata] is assembled from the contributions
    of the nine checks, in program order, and the score is rounded and
    clamped once, after all penalties are subtracted. *)
Definition assembled (toLowerCase : jsstring -> jsstring)
  (metadata : ImageMetadata) : Prop :=
  let r := validateMetadata toLowerCase metadata in
  let bs := checks toLowerCase metadata in
  issues r = flat_map emitted bs /\
  recommendations r = flat_map advised bs /\
  score r = Math_max 0 (Math_min 100 (Math_round (100 - total_penalty bs))).

(* ===================================================================== *)
(** ** Vocabulary of the specification                                   *)
(* ===================================================================== *)

(** [t] occurs in [s] as a substring. *)
Definition occurs_in (t s : jsstring) : Prop :=
  exists pre post, s = pre ++ t ++ post.

(** A keyword as compared for duplicates: lower-cased, then trimmed. *)
Definition normalized (toLowerCase : jsstring -> jsstring) (k : jsstring)
  : jsstring := trim (toLowerCase k).

(** The denylist term [t] is found in the metadata. *)
Definition found_in (toLowerCase : jsstring -> jsstring)
  (metadata : ImageMetadata) (t : jsstring) : Prop :=
  occurs_in t (toLowerCase (title metadata)) \/
  occurs_in t (toLowerCase (description metadata)) \/
  exists k, In k (keywords metadata) /\ occurs_in t (toLowerCase k).

Definition denylist_free (toLowerCase : jsstring -> jsstring)
  (metadata : ImageMetadata) : Prop :=
  forall t, In t BANNED_KEYWORDS -> ~ found_in toLowerCase metadata t.

(** The premises of the "perfect metadata" property of the specification. *)
Definition compliant (toLowerCase : jsstring -> jsstring)
  (metadata : ImageMetadata) : Prop :=
  20 <= len (title metadata) <= 70 /\
  5 <= len (split_ws (title metadata)) /\
  10 <= len (split_ws (description metadata)) /\
  30 <= len (keywords metadata) <= 50 /\
  NoDup (map (normalized toLowerCase) (keywords metadata)) /\
  denylist_free toLowerCase metadata /\
  isAI metadata = true /\
  occurs_in (js "{{author}}") (author metadata).

(** Two records that agree on every field the validator reads. *)
Definition same_inputs (m1 m2 : ImageMetadata) : Prop :=
  title m1 = title m2 /\ description m1 = description m2 /\
  keywords m1 = keywords m2 /\ isAI m1 = isAI m2 /\ author m1 = author m2.

(** The decimal numeral of [n] appears in [msg]. *)
Definition cites (n : Z) (msg : jsstring) : bool :=
  includes msg (Number_toString n).

(** The keywords counted by the specification's degenerate-keyword rule:
    those whose trimmed length is below 3. *)
Definition short_after_trim (metadata : ImageMetadata) : list jsstring :=
  filter (fun k => len (trim k) <? 3) (keywords metadata).

(** The messages of the three title issues. *)
Definition title_too_long (titleLen : Z) : ValidationIssue :=
  issue error
    (js "Title is too long (" ++ Number_toString titleLen
     ++ js "/70 chars). It will be truncated on Adobe Stock.") key_title.

Definition title_too_short : ValidationIssue :=
  issue warning
    (js "Title is too short. Use descriptive phrases for better SEO.")
    key_title.

Definition title_few_words : ValidationIssue :=
  issue warning (js "Title word count is low (< 5 words).") key_title.

(* ===================================================================== *)
(** ** Sample records                                                    *)
(* ===================================================================== *)

Definition with_title (t : jsstring) (m : ImageMetadata) : ImageMetadata :=
  {| title := t; description := description m; keywords := keywords m;
     category := category m; contentType := contentType m; isAI := isAI m;
     author := author m; keywordAnalysis := keywordAnalysis m |}.

Definition with_keywords (ks : list jsstring) (m : ImageMetadata)
  : ImageMetadata :=
  {| title := title m; description := description m; keywords := ks;
     category := category m; contentType := contentType m; isAI := isAI m;
     author := author m; keywordAnalysis := keywordAnalysis m |}.

Definition with_category (c : jsstring) (ct : ContentType)
  (m : ImageMetadata) : ImageMetadata :=
  {| title := title m; description := description m; keywords := keywords m;
     category := c; contentType := ct; isAI := isAI m;
     author := author m; keywordAnalysis := keywordAnalysis m |}.

Definition thirty_keywords : list jsstring :=
  map js
  [ "sunrise"; "mountain"; "lake"; "water"; "reflection"; "nature";
    "landscape"; "morning"; "dawn"; "sky"; "clouds"; "forest"; "trees";
    "scenic"; "outdoors"; "wilderness"; "peaceful"; "calm"; "tranquil";
    "travel"; "hiking"; "adventure"; "alpine"; "panorama"; "horizon";
    "golden"; "light"; "mist"; "fog"; "serene" ]%string.

(** A record that passes every check. *)
Definition clean : ImageMetadata :=
  {| title := js "Golden sunrise over a calm mountain lake";
     description :=
       js "A calm alpine lake mirrors the golden light of an early summer sunrise.";
     keywords := thirty_keywords;
     category := js "Nature";
     contentType := Photography;
     isAI := true;
     author := js "{{author}}";
     keywordAnalysis := None |}.

(** [clean] with four of its keywords replaced by two-letter ones. *)
Definition four_short_keywords : ImageMetadata :=
  with_keywords
    (map js ["am"; "up"; "hi"; "ok"]%string ++ skipn 4 thirty_keywords) clean.

(** [clean] with 29 and with 51 keywords. *)
Definition keywords_29 : ImageMetadata :=
  with_keywords (firstn 29 thirty_keywords) clean.

Definition keywords_51 : ImageMetadata :=
  with_keywords
    (thirty_keywords ++
     map js [ "river"; "valley"; "meadow"; "glacier"; "summit"; "ridge";
              "stream"; "pine"; "rock"; "shore"; "bay"; "cliff"; "hill";
              "path"; "trail"; "cabin"; "boat"; "pier"; "dusk"; "haze";
              "snow" ]%string) clean.





(** Four keywords of three code units each, two letters and a space. *)
Definition padded_short_keywords : ImageMetadata :=
  with_keywords
    (map js ["am "; "up "; "hi "; "ok "]%string ++ skipn 4 thirty_keywords)
    clean.

Definition iphone_title : ImageMetadata :=
  with_title (js "Amazing iPhone photo") clean.

Definition two_brands_title : ImageMetadata :=
  with_title (js "Nike and Adidas running shoes on a track") clean.

Definition cat_cat_dog : ImageMetadata :=
  with_keywords [js "cat"; js "Cat "; js "dog"] clean.

(** The scenario of the specification: a title of 80 code units and 8
    words, a description of 12 words, 25 distinct keywords, no AI
    disclosure and an author without the placeholder. *)
Definition scenario : ImageMetadata :=
  {| title :=
       js "Breathtaking panoramic landscape photograph showing snowcapped mountains sunrise";
     description :=
       js "Snowcapped mountains rise above a quiet lake under a clear morning sky.";
     keywords := firstn 25 thirty_keywords;
     category := js "Nature";
     contentType := Photography;
     isAI := false;
     author := js "Studio";
     keywordAnalysis := None |}.

(** A record built to drive the raw score far below zero. *)
Definition hostile : ImageMetadata :=
  {| title := js "iPhone Samsung Nike Adidas Disney Lego Canon Nikon Sony Tesla";
     description := js "Pepsi";
     keywords := [];
     category := [];
     contentType := Vector;
     isAI := false;
     author := [];
     keywordAnalysis := None |}.

(* ===================================================================== *)
(** ** [types.ts] and [constants.ts]: generation parameters              *)
(* ===================================================================== *)

Inductive AspectRatio : Type :=
| SQUARE | PORTRAIT_3_4 | LANDSCAPE_4_3 | PORTRAIT_9_16 | LANDSCAPE_16_9.

Inductive ImageQuality : Type := ONE_K | TWO_K | FOUR_K.

Inductive StylePreset : Type :=
| NONE | PHOTREALISTIC | CINEMATIC | THREE_D_RENDER | FLAT_LAY | ANIME
| DIGITAL_ART | ISO_METRIC.

(** The string each member of the enum stands for. *)
Definition StylePreset_value (s : StylePreset) : jsstring :=
  match s with
  | NONE => js "None"
  | PHOTREALISTIC => js "Photorealistic"
  | CINEMATIC => js "Cinematic"
  | THREE_D_RENDER => js "3D Render"
  | FLAT_LAY => js "Flat Lay"
  | ANIME => js "Anime"
  | DIGITAL_ART => js "Digital Art"
  | ISO_METRIC => js "Isometric"
  end.

Record GenerationParams : Type := {
  prompt : jsstring;
  aspectRatio : AspectRatio;
  quality : ImageQuality;
  style : StylePreset;
  optimizeForMicrostock : bool
}.

Definition MICROSTOCK_ENHANCERS : jsstring :=
  js "professional stock photography, high resolution, sharp focus, perfect lighting, commercial quality, royalty free style, clean composition".

(** A string in a condition: the empty string is falsy. *)
Definition truthy (s : jsstring) : bool :=
  match s with
  | [] => false
  | _ :: _ => true
  end.

(** [x || y] on strings that may be missing. *)
Definition or_else (x : option jsstring) (y : jsstring) : jsstring :=
  match x with
  | Some s => if truthy s then s else y
  | None => y
  end.

(** [s.split(sep)] for a separator of one code unit. *)
Fixpoint split_at (sep : N) (cur : jsstring) (s : jsstring)
  : list jsstring :=
  match s with
  | [] => [rev cur]
  | c :: s' =>
      if (c =? sep)%N then rev cur :: split_at sep [] s'
      else split_at sep (c :: cur) s'
  end.

Definition split_comma (s : jsstring) : list jsstring := split_at 44%N [] s.

(** The data URL that both versions of [generateImage] return for the
    base64 payload [b64]: [`data:image/png;base64,${b64}`]. *)
Definition dataUrl (b64 : jsstring) : jsstring :=
  js "data:image/png;base64," ++ b64.

(* ===================================================================== *)
(** ** [services/geminiService.ts]                                       *)
(* ===================================================================== *)

Module GeminiService.

Definition buildEnhancedPrompt (params : GenerationParams) : jsstring :=
  let finalPrompt := prompt params in
  let finalPrompt :=
    if negb (jsstring_eqb (StylePreset_value (style params))
                          (StylePreset_value NONE))
    then finalPrompt ++ js ", " ++ StylePreset_value (style params)
         ++ js " style"
    else finalPrompt in
  let finalPrompt :=
    if optimizeForMicrostock params
    then finalPrompt ++ js ", " ++ MICROSTOCK_ENHANCERS
    else finalPrompt in
  finalPrompt.

(** [imageBase64.split(',')[1] || imageBase64], in [generateMetadata] and
    in [assessImageQuality]. *)
Definition base64Data (imageBase64 : jsstring) : jsstring :=
  or_else (nth_error (split_comma imageBase64) 1) imageBase64.

End GeminiService.

(* ===================================================================== *)
(** ** [services/genai.client.ts]                                        *)
(* ===================================================================== *)

Module GenaiClient.

Definition buildEnhancedPrompt (params : GenerationParams) : jsstring :=
  (* (params.prompt || "").trim() *)
  let finalPrompt := trim (or_else (Some (prompt params)) []) in
  let finalPrompt :=
    if truthy (StylePreset_value (style params))
       && negb (jsstring_eqb (StylePreset_value (style params))
                             (StylePreset_value NONE))
    then finalPrompt ++ js ", " ++ StylePreset_value (style params)
         ++ js " style"
    else finalPrompt in
  (* MICROSTOCK_ENHANCERS is a string, so [enh] is the constant itself *)
  let finalPrompt :=
    if optimizeForMicrostock params
    then finalPrompt ++ js ", " ++ MICROSTOCK_ENHANCERS
    else finalPrompt in
  finalPrompt.

(** The class [[a-zA-Z]]. *)
Definition isLetter (c : N) : bool :=
  ((65 <=? c) && (c <=? 90) || (97 <=? c) && (c <=? 122))%N.

Fixpoint skipLetters (s : jsstring) : jsstring :=
  match s with
  | c :: s' => if isLetter c then skipLetters s' else s
  | [] => []
  end.

(** What is left of [s] after the literal [p], when [s] starts with it. *)
Definition after (p s : jsstring) : option jsstring :=
  if startsWith s p then Some (skipn (length p) s) else None.

(** [imageBase64.replace(/^data:image\/[a-zA-Z]+;base64,/, "")], in
    [generateMetadata] and in [assessImageQuality].  The letters are
    matched greedily; giving one back never helps, since the code unit
    that follows must be the semicolon of [";base64,"]. *)
Definition base64Data (imageBase64 : jsstring) : jsstring :=
  match after (js "data:image/") imageBase64 with
  | Some rest =>
      let rest' := skipLetters rest in
      if len rest' <? len rest then
        match after (js ";base64,") rest' with
        | Some payload => payload
        | None => imageBase64
        end
      else imageBase64
  | None => imageBase64
  end.

(** The parsed response is untyped in the source.  The model covers the
    responses whose fields, where present, have the JSON types of the
    schema, with the shapes that the sanitization of [generateMetadata]
    tells apart: [keywords] is an array of strings, a string, or neither;
    [isAI] is a boolean, a string, or neither; a string field is present
    or missing; [keywordAnalysis] is missing or has its four arrays.
    [category] and [contentType] are passed through untouched. *)
Inductive KeywordsValue : Type :=
| keywords_array (ks : list jsstring)
| keywords_string (s : jsstring)
| keywords_other.

Inductive IsAIValue : Type :=
| isAI_boolean (b : bool)
| isAI_string (s : jsstring)
| isAI_other.

Record Parsed : Type := {
  parsed_title : option jsstring;
  parsed_description : option jsstring;
  parsed_keywords : KeywordsValue;
  parsed_keywordAnalysis : option KeywordAnalysis;
  parsed_category : jsstring;
  parsed_contentType : ContentType;
  parsed_author : option jsstring;
  parsed_isAI : IsAIValue
}.

(** The statements of [generateMetadata] from "Minimal sanitization" to
    [return parsed]; [params_author] is [params.author]. *)
Definition sanitize (parsed : Parsed) (params_author : option jsstring)
  : ImageMetadata :=
  (* if (!Array.isArray(parsed.keywords)) parsed.keywords = ... *)
  let keywords1 :=
    match parsed_keywords parsed with
    | keywords_array ks => ks
    | other =>
        match parsed_keywordAnalysis parsed with
        | Some ka => broad ka ++ medium ka ++ niche ka
        | None =>
            match other with
            | keywords_string s => map trim (split_comma s)
            | _ => []
            end
        end
    end in
  (* dedupe *)
  let keywords2 := firstn 50 (new_Set keywords1) in
  (* fill defaults *)
  {| title := firstn 140 (or_else (parsed_title parsed) []);
     description := or_else (parsed_description parsed) [];
     keywords := keywords2;
     category := parsed_category parsed;
     contentType := parsed_contentType parsed;
     isAI :=
       match parsed_isAI parsed with
       | isAI_boolean b => b
       | isAI_string s => jsstring_eqb s (js "true")
       | isAI_other => false
       end;
     author :=
       or_else (parsed_author parsed)
         (or_else params_author (js "{{author}}"));
     keywordAnalysis := parsed_keywordAnalysis parsed |}.

End GenaiClient.

(* ===================================================================== *)
(** ** [components/MetadataPanel.tsx]                                    *)
(* ===================================================================== *)

Module MetadataPanel.

Section Panel.

Variable toLowerCase : jsstring -> jsstring.

(** [useMemo(() => { if (!metadata) return null;
                     return validateMetadata(metadata); })] *)
Definition validation (metadata : option ImageMetadata)
  : option ValidationResult :=
  match metadata with
  | None => None
  | Some m => Some (validateMetadata toLowerCase m)
  end.

Definition formatKeywords (keywords : list jsstring) : jsstring :=
  join (js ", ") keywords.

(** Determine score color *)
Definition scoreColor (validation : ValidationResult) : jsstring :=
  if Qle_bool 90 (score validation)
  then js "text-green-400 border-green-500/30 bg-green-500/10"
  else if Qle_bool 70 (score validation)
  then js "text-yellow-400 border-yellow-500/30 bg-yellow-500/10"
  else js "text-red-400 border-red-500/30 bg-red-500/10".

(** [validation.issues.slice(0, 3)]: the issues that are rendered. *)
Definition shownIssues (validation : ValidationResult)
  : list ValidationIssue :=
  firstn 3 (issues validation).

(** [iss.field === 'keywords'] *)
Definition onKeywords (iss : ValidationIssue) : bool :=
  match field iss with
  | Some key_keywords => true
  | _ => false
  end.

(** Whether the keyword [kw] is rendered in red. *)
Definition isWarning (validation : ValidationResult) (kw : jsstring) : bool :=
  existsb (fun iss =>
             onKeywords iss
             && includes (toLowerCase (message iss)) (toLowerCase kw))
          (issues validation).

End Panel.

End MetadataPanel.

(* ===================================================================== *)
(** ** [App.tsx]: the history of generated images                        *)
(* ===================================================================== *)

Module App.

(** [QualityAssessment] and [GeneratedImage] of [types.ts]. *)
Module Assessment.

Record QualityAssessment : Type := {
  score : Q;
  issues : list jsstring;
  explanation : jsstring;
  microstock_pass : bool;
  timestamp : Z
}.

End Assessment.

Definition QualityAssessment : Type := Assessment.QualityAssessment.

Record GeneratedImage : Type := {
  id : jsstring;
  url : jsstring;
  params : GenerationParams;
  timestamp : Z;
  metadata : option ImageMetadata;
  qualityAssessment : option QualityAssessment
}.

(** The two pieces of state that the handlers below update. *)
Record State : Type := {
  history : list GeneratedImage;
  currentImage : option GeneratedImage
}.

(** [{ ...img, metadata }] *)
Definition with_metadata (img : GeneratedImage) (m : ImageMetadata)
  : GeneratedImage :=
  {| id := id img; url := url img; params := params img;
     timestamp := timestamp img; metadata := Some m;
     qualityAssessment := qualityAssessment img |}.

(** [{ ...img, qualityAssessment }] *)
Definition with_assessment (img : GeneratedImage) (a : QualityAssessment)
  : GeneratedImage :=
  {| id := id img; url := url img; params := params img;
     timestamp := timestamp img; metadata := metadata img;
     qualityAssessment := Some a |}.

(** The state updates of [handleGenerate] once [generateImage] has
    returned; the identifier and the time stamp come with [newImage]. *)
Definition handleGenerate (newImage : GeneratedImage) (st : State) : State :=
  {| history := newImage :: history st;
     currentImage := Some newImage |}.

(** [onSelect={setCurrentImage}] of the gallery. *)
Definition select (img : GeneratedImage) (st : State) : State :=
  {| history := history st; currentImage := Some img |}.

Definition updateImageMetadata (id0 : jsstring) (m : ImageMetadata)
  (st : State) : State :=
  {| history :=
       map (fun img => if jsstring_eqb (id img) id0
                       then with_metadata img m else img) (history st);
     currentImage :=
       match currentImage st with
       | Some prev =>
           if jsstring_eqb (id prev) id0 then Some (with_metadata prev m)
           else Some prev
       | None => None
       end |}.

Definition updateImageAssessment (id0 : jsstring) (a : QualityAssessment)
  (st : State) : State :=
  {| history :=
       map (fun img => if jsstring_eqb (id img) id0
                       then with_assessment img a else img) (history st);
     currentImage :=
       match currentImage st with
       | Some prev =>
           if jsstring_eqb (id prev) id0 then Some (with_assessment prev a)
           else Some prev
       | None => None
       end |}.

Definition handleDelete (id0 : jsstring) (st : State) : State :=
  {| history :=
       filter (fun img => negb (jsstring_eqb (id img) id0)) (history st);
     currentImage :=
       match currentImage st with
       | Some cur => if jsstring_eqb (id cur) id0 then None else Some cur
       | None => None
       end |}.

End App.

(* ===================================================================== *)
(** ** Vocabulary for the properties beyond the specification            *)
(* ===================================================================== *)

(** An issue that costs points: an error or a warning. *)
Definition costly (i : ValidationIssue) : bool :=
  match type i with
  | info => false
  | _ => true
  end.

(** The number of words of a string: its maximal runs of code units that
    are not white space.  [afterSpace] says that the previous code unit
    was white space, or that there is none. *)
Fixpoint count_words (afterSpace : bool) (s : jsstring) : Z :=
  match s with
  | [] => 0
  | c :: s' =>
      if isWhiteSpace c then count_words true s'
      else (if afterSpace then 1 else 0) + count_words false s'
  end.

Definition b2z (b : bool) : Z := if b then 1 else 0.

Definition starts_with_space (s : jsstring) : bool :=
  match s with
  | c :: _ => isWhiteSpace c
  | [] => false
  end.

Definition ends_with_space (s : jsstring) : bool :=
  starts_with_space (rev s).

(** The sum of the penalties, written in terms of the measures of the
    record: title length L, title words W, description words, keyword
    count K, distinct normalized keywords, found denylist terms. *)
Definition penalty_formula (toLowerCase : jsstring -> jsstring)
  (m : ImageMetadata) : Q :=
  let L := len (title m) in
  let K := len (keywords m) in
  ((if L >? 70 then 15 else if L <? 20 then 5 else 0)
   + (if len (split_ws (title m)) <? 5 then 5 else 0)
   + (if len (split_ws (description m)) <? 10 then 10 else 0)
   + (1.5 * inject_Z (Z.max 0 (30 - K)) + 2 * inject_Z (Z.max 0 (K - 50)))
   + 3 * inject_Z (K - len (uniqueKeywords toLowerCase m))
   + 25 * inject_Z (len (foundBanned toLowerCase m))
   + (if isAI m then 0 else 10))%Q.

(** The position of a field in the order in which the checks run. *)
Definition rank (f : option MetadataKey) : Z :=
  match f with
  | Some key_title => 0
  | Some key_description => 1
  | Some key_keywords => 2
  | Some key_isAI => 3
  | Some key_author => 4
  | _ => 5
  end.

(** A response with every field of the schema, built from a record. *)
Definition response_of (m : ImageMetadata) : GenaiClient.Parsed :=
  {| GenaiClient.parsed_title := Some (title m);
     GenaiClient.parsed_description := Some (description m);
     GenaiClient.parsed_keywords := GenaiClient.keywords_array (keywords m);
     GenaiClient.parsed_keywordAnalysis := keywordAnalysis m;
     GenaiClient.parsed_category := category m;
     GenaiClient.parsed_contentType := contentType m;
     GenaiClient.parsed_author := Some (author m);
     GenaiClient.parsed_isAI := GenaiClient.isAI_boolean (isAI m) |}.

(** Issues on the keywords field, told apart by their severity and by
    the text their message starts with. *)
Definition keywords_issue (t : IssueType) (start : jsstring)
  (i : ValidationIssue) : bool :=
  match type i, t with
  | error, error | warning, warning | info, info =>
      match field i with
      | Some key_keywords => startsWith (message i) start
      | _ => false
      end
  | _, _ => false
  end.

Definition is_keyword_count_error : ValidationIssue -> bool :=
  keywords_issue error (js "Found ").

Definition is_compliance_error : ValidationIssue -> bool :=
  keywords_issue error (js "Potential Trademark/Brand Violation: ").

Definition is_duplicate_warning : ValidationIssue -> bool :=
  keywords_issue warning [].

Definition is_short_keywords_info : ValidationIssue -> bool :=
  keywords_issue info [].

(** The list [l] holds the issue [i], which is of the kind [P], and no
    other issue of that kind. *)
Definition exactly_one (P : ValidationIssue -> bool) (i : ValidationIssue)
  (l : list ValidationIssue) : Prop :=
  P i = true /\
  exists pre post,
    l = pre ++ i :: post /\
    Forall (fun x => P x = false) pre /\
    Forall (fun x => P x = false) post.

(** The sum of the penalties of the nine checks of the body. *)
Definition block_penalties (toLowerCase : jsstring -> jsstring)
  (m : ImageMetadata) : Q :=
  (penalty (title_length_check m) + penalty (title_words_check m)
   + penalty (description_check m) + penalty (keyword_count_check m)
   + penalty (duplicate_check toLowerCase m)
   + penalty (short_keywords_check m)
   + penalty (compliance_check toLowerCase m)
   + penalty (ai_check m) + penalty (author_check m))%Q.

(** The result of [validateMetadata], written out check by check: its
    issues and recommendations are those of the nine checks in program
    order, and its score is 100 minus their penalties, rounded and
    clamped. *)
Definition from_blocks (toLowerCase : jsstring -> jsstring)
  (m : ImageMetadata) : Prop :=
  let r := validateMetadata toLowerCase m in
  issues r =
    emitted (title_length_check m) ++ emitted (title_words_check m)
    ++ emitted (description_check m) ++ emitted (keyword_count_check m)
    ++ emitted (duplicate_check toLowerCase m)
    ++ emitted (short_keywords_check m)
    ++ emitted (compliance_check toLowerCase m)
    ++ emitted (ai_check m) ++ emitted (author_check m) /\
  recommendations r =
    advised (keyword_count_check m)
    ++ advised (duplicate_check toLowerCase m)
    ++ advised (short_keywords_check m)
    ++ advised (compliance_check toLowerCase m) /\
  (cur_score (body toLowerCase m)
   == 100 - block_penalties toLowerCase m)%Q /\
  score r =
    Math_max 0 (Math_min 100
      (Math_round (100 - block_penalties toLowerCase m))).

(** The scenario with four of its keywords replaced by two-letter ones,
    and the scenario with a title of 80 code units and 8 words that
    contains "ford". *)
Definition scenario_short_keywords : ImageMetadata :=
  with_keywords
    (map js ["am"; "up"; "hi"; "ok"]%string
     ++ skipn 4 (firstn 25 thirty_keywords)) scenario.

Definition scenario_brand_title : ImageMetadata :=
  with_title
    (js "Affordable panoramic landscape photographs showing snowcapped mountains sunrises")
    scenario.

(** The conditions that the scenario of the specification lists. *)
Definition scenario_as_stated (toLowerCase : jsstring -> jsstring)
  (m : ImageMetadata) : Prop :=
  len (title m) = 80 /\
  len (split_ws (title m)) = 8 /\
  len (split_ws (description m)) = 12 /\
  len (keywords m) = 25 /\
  NoDup (map (normalized toLowerCase) (keywords m)) /\
  Forall (fun k =>
            Forall (fun t => ~ occurs_in t (toLowerCase k)) BANNED_KEYWORDS)
         (keywords m) /\
  isAI m = false /\
  author m = js "Studio".

(** Every code unit of [s] is ASCII. *)
Definition is_ascii (s : jsstring) : Prop :=
  Forall (fun c => (c < 128)%N) s.

(** The image on display, when there is one, is an entry of the
    history. *)
Definition consistent (st : App.State) : Prop :=
  match App.currentImage st with
  | Some cur => In cur (App.history st)
  | None => True
  end.

(** [params] with its prompt trimmed. *)
Definition with_trimmed_prompt (params : GenerationParams)
  : GenerationParams :=
  {| prompt := trim (prompt params); aspectRatio := aspectRatio params;
     quality := quality params; style := style params;
     optimizeForMicrostock := optimizeForMicrostock params |}.

Definition sample_image (i : jsstring) : App.GeneratedImage :=
  {| App.id := i; App.url := dataUrl (js "QUJD");
     App.params :=
       {| prompt := js " a calm lake "; aspectRatio := SQUARE;
          quality := TWO_K; style := CINEMATIC;
          optimizeForMicrostock := true |};
     App.timestamp := 0; App.metadata := None;
     App.qualityAssessment := None |}.

(* ===================================================================== *)
(** ** Strings: substring test, trimming, splitting                      *)
(* ===================================================================== *)

Lemma startsWith_spec (s t : jsstring) :
  startsWith s t = true <-> exists post, s = t ++ post.
Proof.
  revert s; induction t as [|b t IH]; intros s; simpl.
  - split; [intros _; now exists s | reflexivity].
  - destruct s as [|a s].
    + split; [discriminate | intros [post H]; discriminate].
    + rewrite andb_true_iff, N.eqb_eq, IH. split.
      * intros [-> [post ->]]. now exists post.
      * intros [post H]. injection H as -> ->. split; [reflexivity | now exists post].
Qed.

Lemma includes_spec (s t : jsstring) :
  includes s t = true <-> occurs_in t s.
Proof.
  unfold occurs_in. induction s as [|a s IH].
  - simpl. rewrite orb_false_r, startsWith_spec. split.
    + intros [post H]. now exists [], post.
    + intros [pre [post H]]. destruct pre; [now exists post | discriminate].
  - cbn [includes]. rewrite orb_true_iff, startsWith_spec, IH. split.
    + intros [[post H] | [pre [post H]]].
      * now exists [], post.
      * exists (a :: pre), post. now rewrite H.
    + intros [[|c pre] [post H]].
      * left. now exists post.
      * right. injection H as -> ->. now exists pre, post.
Qed.

Lemma occurs_in_join (sep t : jsstring) (xs : list jsstring) :
  In t xs -> occurs_in t (join sep xs).
Proof.
  induction xs as [|x xs IH]; intros Hin; [contradiction|].
  destruct Hin as [-> | Hin].
  - destruct xs as [|y xs]; simpl.
    + exists [], []. now rewrite app_nil_r.
    + now exists [], (sep ++ join sep (y :: xs)).
  - destruct (IH Hin) as [pre [post H]].
    destruct xs as [|y xs]; [contradiction|].
    change (join sep (x :: y :: xs)) with (x ++ sep ++ join sep (y :: xs)).
    rewrite H. exists (x ++ sep ++ pre), post.
    now rewrite <- !app_assoc.
Qed.

Lemma occurs_in_app (t pre s post : jsstring) :
  occurs_in t s -> occurs_in t (pre ++ s ++ post).
Proof.
  intros [a [b ->]]. exists (pre ++ a), (b ++ post).
  now rewrite <- !app_assoc.
Qed.

Lemma trimStart_length (s : jsstring) : len (trimStart s) <= len s.
Proof.
  unfold len. induction s as [|c s IH]; simpl; [lia|].
  destruct (isWhiteSpace c); simpl in *; lia.
Qed.

Lemma trim_length (s : jsstring) : len (trim s) <= len s.
Proof.
  unfold trim.
  assert (H1 := trimStart_length s).
  assert (H2 := trimStart_length (rev (trimStart s))).
  unfold len in *. rewrite length_rev in *. lia.
Qed.

(** A test that implies another keeps fewer elements. *)
Lemma filter_length_le {A : Type} (f g : A -> bool) (xs : list A) :
  (forall x, f x = true -> g x = true) ->
  len (filter f xs) <= len (filter g xs).
Proof.
  intros Hfg. unfold len. induction xs as [|x xs IH]; simpl; [lia|].
  destruct (f x) eqn:E.
  - rewrite (Hfg x E). simpl. lia.
  - destruct (g x); simpl; lia.
Qed.

(* ===================================================================== *)
(** ** [Set]: members are kept once                                      *)
(* ===================================================================== *)

Lemma jsstring_eqb_eq (s t : jsstring) : jsstring_eqb s t = true <-> s = t.
Proof.
  revert t; induction s as [|a s IH]; intros [|b t]; simpl;
    try (split; [discriminate | congruence]); [tauto|].
  rewrite andb_true_iff, N.eqb_eq, IH. split.
  - now intros [-> ->].
  - intros H. now injection H.
Qed.

Lemma existsb_eqb_In (x : jsstring) (xs : list jsstring) :
  existsb (jsstring_eqb x) xs = true <-> In x xs.
Proof.
  rewrite existsb_exists. split.
  - intros [y [Hy Heq]]. apply jsstring_eqb_eq in Heq. now subst.
  - intros H. exists x. split; [assumption | now apply jsstring_eqb_eq].
Qed.

Lemma Set_add_In (members : list jsstring) (x y : jsstring) :
  In y (Set_add members x) <-> In y members \/ y = x.
Proof.
  unfold Set_add. destruct (existsb (jsstring_eqb x) members) eqn:E.
  - apply existsb_eqb_In in E. split; [tauto|]. intros [H | ->]; assumption.
  - rewrite in_app_iff. simpl. intuition congruence.
Qed.

Lemma Set_add_NoDup (members : list jsstring) (x : jsstring) :
  NoDup members -> NoDup (Set_add members x).
Proof.
  intros H. unfold Set_add.
  destruct (existsb (jsstring_eqb x) members) eqn:E; [assumption|].
  assert (Hx : ~ In x members).
  { intros Hin. apply existsb_eqb_In in Hin. congruence. }
  clear E. induction H as [|y l Hy Hl IH]; simpl.
  - constructor; [intros [] | constructor].
  - constructor.
    + rewrite in_app_iff. simpl in *. intuition congruence.
    + apply IH. simpl in Hx. tauto.
Qed.

Lemma fold_Set_add_spec (xs acc : list jsstring) :
  NoDup acc ->
  NoDup (fold_left Set_add xs acc) /\
  (forall y, In y (fold_left Set_add xs acc) <-> In y acc \/ In y xs) /\
  (length (fold_left Set_add xs acc) <= length acc + length xs)%nat /\
  ((length (fold_left Set_add xs acc) = length acc + length xs)%nat <->
   NoDup xs /\ forall y, In y xs -> ~ In y acc).
Proof.
  revert acc. induction xs as [|x xs IH]; intros acc Hacc; simpl.
  - split; [assumption|]. split; [intros y; tauto|]. split; [lia|].
    split; [intros _; split; [constructor | intros y []] | intros _; lia].
  - destruct (IH (Set_add acc x) (Set_add_NoDup acc x Hacc))
      as [Hnd [Hin [Hle Heq]]].
    assert (Hlen : (length (Set_add acc x) <= S (length acc))%nat /\
                   ((length (Set_add acc x) = S (length acc))%nat <->
                    ~ In x acc)).
    { unfold Set_add. destruct (existsb (jsstring_eqb x) acc) eqn:E.
      - apply existsb_eqb_In in E. split; [lia|]. split; [lia | tauto].
      - rewrite length_app. simpl. split; [lia|]. split; [|lia].
        intros _ Hx. apply existsb_eqb_In in Hx. congruence. }
    destruct Hlen as [Hl1 Hl2].
    split; [assumption|]. split; [|split].
    + intros y. rewrite Hin, Set_add_In. intuition.
    + lia.
    + split.
      * intros H.
        assert (Hfull : (length (Set_add acc x) = S (length acc))%nat) by lia.
        assert (Hx : ~ In x acc) by now apply Hl2.
        assert (H' : (length (fold_left Set_add xs (Set_add acc x))
                      = length (Set_add acc x) + length xs)%nat) by lia.
        apply Heq in H'. destruct H' as [Hxs Hdisj]. split.
        -- constructor; [|assumption].
           intros Hxin. apply (Hdisj x Hxin). apply Set_add_In. now right.
        -- intros y [-> | Hy]; [assumption|].
           intros Hyacc. apply (Hdisj y Hy). apply Set_add_In. now left.
      * intros [Hxs Hdisj]. inversion Hxs as [|x' xs' Hnx Hxs']; subst.
        assert (Hx : ~ In x acc) by (apply Hdisj; now left).
        apply Hl2 in Hx.
        assert (H' : (length (fold_left Set_add xs (Set_add acc x))
                      = length (Set_add acc x) + length xs)%nat).
        { apply Heq. split; [assumption|].
          intros y Hy Hin'. apply Set_add_In in Hin'.
          destruct Hin' as [Hin' | ->]; [|contradiction].
          apply (Hdisj y); [now right | assumption]. }
        lia.
Qed.

(** [new Set(xs)] has no repeated member, has exactly the members of
    [xs], and has as many members as [xs] exactly when [xs] has no
    repetition. *)
Lemma new_Set_spec (xs : list jsstring) :
  NoDup (new_Set xs) /\
  (forall y, In y (new_Set xs) <-> In y xs) /\
  len (new_Set xs) <= len xs /\
  (len (new_Set xs) = len xs <-> NoDup xs).
Proof.
  destruct (fold_Set_add_spec xs [] (NoDup_nil _)) as [H1 [H2 [H3 H4]]].
  unfold new_Set, len. simpl in *. split; [assumption|]. split; [|split].
  - intros y. rewrite H2. tauto.
  - lia.
  - rewrite Nat2Z.inj_iff, H4. split; [tauto|]. intros H. split; [assumption|].
    intros y _ [].
Qed.

(* ===================================================================== *)
(** ** Blocks act uniformly on the locals                                *)
(* ===================================================================== *)

Create HintDb blocks.

Lemma uniform_skip : uniform skip.
Proof.
  intros st. unfold emitted, advised, penalty, skip. simpl.
  rewrite !app_nil_r. repeat split. ring.
Qed.

Lemma uniform_issues_push (i : ValidationIssue) : uniform (issues_push i).
Proof.
  intros st. unfold emitted, advised, penalty, issues_push. simpl.
  rewrite app_nil_r. repeat split. ring.
Qed.

Lemma uniform_recommendations_push (r : jsstring) :
  uniform (recommendations_push r).
Proof.
  intros st. unfold emitted, advised, penalty, recommendations_push. simpl.
  rewrite app_nil_r. repeat split. ring.
Qed.

Lemma uniform_score_minus (p : Q) : uniform (score_minus p).
Proof.
  intros st. unfold emitted, advised, penalty, score_minus. simpl.
  rewrite !app_nil_r. repeat split. ring.
Qed.

(** The contributions of a sequence are those of its parts, in order. *)
Lemma seq_contribution (a b : Block) :
  uniform a -> uniform b ->
  emitted (a ;; b) = emitted a ++ emitted b /\
  advised (a ;; b) = advised a ++ advised b /\
  (penalty (a ;; b) == penalty a + penalty b)%Q.
Proof.
  intros Ha Hb. destruct (Hb (a entry)) as [Hi [Hr Hs]].
  unfold emitted, advised, penalty, seq in *.
  rewrite Hi, Hr, Hs. repeat split. ring.
Qed.

Lemma uniform_seq (a b : Block) : uniform a -> uniform b -> uniform (a ;; b).
Proof.
  intros Ha Hb st.
  destruct (seq_contribution a b Ha Hb) as [Ei [Er Es]].
  rewrite Ei, Er, Es.
  destruct (Ha st) as [Ai [Ar As']]. destruct (Hb (a st)) as [Bi [Br Bs]].
  unfold seq. rewrite Bi, Br, Bs, Ai, Ar, As', !app_assoc.
  repeat split. ring.
Qed.

#[local] Hint Resolve uniform_skip uniform_issues_push
  uniform_recommendations_push uniform_score_minus uniform_seq : blocks.

(** Every check is a conditional over sequences of pushes and one
    subtraction. *)
Ltac check_uniform :=
  repeat match goal with
         | |- uniform (if ?c then _ else _) => destruct c
         | |- uniform (let _ := _ in _) => cbv zeta
         end;
  auto 10 with blocks.

Section Uniformity.

Variable toLowerCase : jsstring -> jsstring.
Variable metadata : ImageMetadata.

Lemma title_length_check_uniform : uniform (title_length_check metadata).
Proof. unfold title_length_check. check_uniform. Qed.

Lemma title_words_check_uniform : uniform (title_words_check metadata).
Proof. unfold title_words_check. check_uniform. Qed.

Lemma description_check_uniform : uniform (description_check metadata).
Proof. unfold description_check. check_uniform. Qed.

Lemma keyword_count_check_uniform : uniform (keyword_count_check metadata).
Proof. unfold keyword_count_check. check_uniform. Qed.

Lemma duplicate_check_uniform :
  uniform (duplicate_check toLowerCase metadata).
Proof. unfold duplicate_check. check_uniform. Qed.

Lemma short_keywords_check_uniform : uniform (short_keywords_check metadata).
Proof. unfold short_keywords_check. check_uniform. Qed.

Lemma compliance_check_uniform :
  uniform (compliance_check toLowerCase metadata).
Proof. unfold compliance_check. check_uniform. Qed.

Lemma ai_check_uniform : uniform (ai_check metadata).
Proof. unfold ai_check. check_uniform. Qed.

Lemma author_check_uniform : uniform (author_check metadata).
Proof. unfold author_check. check_uniform. Qed.

Lemma checks_uniform : Forall uniform (checks toLowerCase metadata).
Proof.
  unfold checks.
  repeat apply Forall_cons; try apply Forall_nil;
    auto using title_length_check_uniform, title_words_check_uniform,
      description_check_uniform, keyword_count_check_uniform,
      duplicate_check_uniform, short_keywords_check_uniform,
      compliance_check_uniform, ai_check_uniform, author_check_uniform.
Qed.

End Uniformity.

Lemma run_uniform (bs : list Block) :
  Forall uniform bs ->
  forall st,
    cur_issues (run bs st) = cur_issues st ++ flat_map emitted bs /\
    cur_recommendations (run bs st)
      = cur_recommendations st ++ flat_map advised bs /\
    (cur_score (run bs st) == cur_score st - total_penalty bs)%Q.
Proof.
  induction 1 as [|b bs Hb Hbs IH]; intros st; simpl.
  - rewrite !app_nil_r. repeat split. ring.
  - destruct (IH (b st)) as [Hi [Hr Hs]]. destruct (Hb st) as [Bi [Br Bs]].
    change (run (b :: bs) st) with (run bs (b st)).
    rewrite Hi, Hr, Hs, Bi, Br, Bs, !app_assoc. repeat split. ring.
Qed.

Lemma Math_round_compat (x y : Q) : (x == y)%Q -> Math_round x = Math_round y.
Proof.
  intros H. unfold Math_round. f_equal. apply Qfloor_comp. now rewrite H.
Qed.

(** The raw score at the clamp is 100 minus the sum of the penalties. *)
Lemma body_score (toLowerCase : jsstring -> jsstring) (m : ImageMetadata) :
  (cur_score (body toLowerCase m)
   == 100 - total_penalty (checks toLowerCase m))%Q.
Proof.
  destruct (run_uniform _ (checks_uniform toLowerCase m) entry) as [_ [_ H]].
  exact H.
Qed.

Lemma validate_assembled (toLowerCase : jsstring -> jsstring)
  (m : ImageMetadata) : assembled toLowerCase m.
Proof.
  destruct (run_uniform _ (checks_uniform toLowerCase m) entry)
    as [Hi [Hr Hs]].
  unfold assembled, validateMetadata, body. cbn [score issues recommendations].
  rewrite Hi, Hr. repeat split.
  now rewrite (Math_round_compat _ _ Hs).
Qed.

(** Rounding gives an integer, and the clamp keeps it or replaces it by a
    bound. *)
Lemma clamp_range (x : Q) :
  exists z : Z,
    Math_max 0 (Math_min 100 (Math_round x)) = inject_Z z /\ 0 <= z <= 100.
Proof.
  unfold Math_round. set (r := Qfloor (x + (1 # 2))).
  assert (Hcmp : forall a b : Z,
             (inject_Z a ?= inject_Z b)%Q = (a ?= b)%Z).
  { intros a b. unfold Qcompare. simpl. now rewrite !Z.mul_1_r. }
  unfold Math_max, Math_min, Qmax, Qmin, GenericMinMax.gmax,
    GenericMinMax.gmin.
  change 100%Q with (inject_Z 100). change 0%Q with (inject_Z 0).
  rewrite Hcmp. destruct (Z.compare_spec 100 r) as [E | L | G].
  - rewrite Hcmp. simpl. exists 100. split; [reflexivity | lia].
  - rewrite Hcmp. simpl. exists 100. split; [reflexivity | lia].
  - rewrite Hcmp. destruct (Z.compare_spec 0 r) as [E' | L' | G'].
    + exists 0. split; [reflexivity | lia].
    + exists r. split; [reflexivity | lia].
    + exists 0. split; [reflexivity | lia].
Qed.

(* ===================================================================== *)
(** ** The score                                                         *)
(* ===================================================================== *)

(** C1. For every metadata record the score that [validateMetadata]
    returns is an integer between 0 and 100, however far below zero the
    subtraction of penalties has driven the raw score. *)
Theorem validate_score_range (toLowerCase : jsstring -> jsstring)
  (m : ImageMetadata) :
  exists z : Z,
    score (validateMetadata toLowerCase m) = inject_Z z /\ 0 <= z <= 100.
Proof.
  unfold validateMetadata. cbn [score]. apply clamp_range.
Qed.

(** A record with eleven denylisted terms, no keyword and a one-word
    description: the raw score is -240 and the score returned is 0. *)
Example hostile_is_clamped :
  (cur_score (body toLowerCase_ascii hostile) == -240)%Q /\
  score (validateMetadata toLowerCase_ascii hostile) = 0%Q.
Proof. split; vm_compute; reflexivity. Qed.

(* ===================================================================== *)
(** ** Keyword count                                                     *)
(* ===================================================================== *)

(** Turns the integer tests of a check into arithmetic facts and removes
    the branches that contradict the hypotheses. *)
Ltac split_tests :=
  repeat match goal with
         | |- context [(?a >? ?b)] => rewrite (Z.gtb_ltb a b)
         | |- context [(?a <? ?b)] => destruct (Z.ltb_spec a b); try lia
         | |- context [(?a =? ?b)] => destruct (Z.eqb_spec a b); try lia
         end.

(** Reads the contribution of a sequence of pushes and subtractions. *)
Ltac contribution :=
  unfold emitted, advised, penalty, seq, skip, issues_push,
    recommendations_push, score_minus, entry;
  cbn [cur_issues cur_recommendations cur_score app negb];
  try reflexivity; try ring.

(** At 29 keywords the validator reports one issue, the keyword-count
    error, and its message does not contain the numeral of the shortfall,
    1: it reads "Found only 29 keywords. Minimum 30 required for optimal
    visibility." *)
Lemma keyword_error_omits_shortfall :
  len (keywords keywords_29) = 29 /\
  exists i,
    issues (validateMetadata toLowerCase_ascii keywords_29) = [i] /\
    type i = error /\ field i = Some key_keywords /\
    cites (30 - 29) (message i) = false.
Proof.
  split; [reflexivity|].
  eexists. split; [vm_compute; reflexivity|].
  repeat split; vm_compute; reflexivity.
Qed.

(* ===================================================================== *)
(** ** When a check stays silent                                         *)
(* ===================================================================== *)

Section Quiet.

Variable toLowerCase : jsstring -> jsstring.
Variable m : ImageMetadata.

Lemma title_length_quiet :
  20 <= len (title m) <= 70 -> title_length_check m = skip.
Proof. intros H. unfold title_length_check. now split_tests. Qed.

Lemma title_words_quiet :
  5 <= len (split_ws (title m)) -> title_words_check m = skip.
Proof. intros H. unfold title_words_check. now split_tests. Qed.

Lemma description_quiet :
  10 <= len (split_ws (description m)) -> description_check m = skip.
Proof. intros H. unfold description_check. now split_tests. Qed.

Lemma keyword_count_quiet :
  30 <= len (keywords m) <= 50 -> keyword_count_check m = skip.
Proof. intros H. unfold keyword_count_check. now split_tests. Qed.

Lemma uniqueKeywords_spec :
  NoDup (uniqueKeywords toLowerCase m) /\
  (forall k, In k (uniqueKeywords toLowerCase m) <->
             In k (map (normalized toLowerCase) (keywords m))) /\
  len (uniqueKeywords toLowerCase m) <= len (keywords m) /\
  (len (uniqueKeywords toLowerCase m) = len (keywords m) <->
   NoDup (map (normalized toLowerCase) (keywords m))).
Proof.
  unfold uniqueKeywords.
  change (fun k => trim (toLowerCase k)) with (normalized toLowerCase).
  destruct (new_Set_spec (map (normalized toLowerCase) (keywords m)))
    as [H1 [H2 [H3 H4]]].
  unfold len in *. rewrite length_map in *. tauto.
Qed.

Lemma duplicate_quiet :
  NoDup (map (normalized toLowerCase) (keywords m)) ->
  duplicate_check toLowerCase m = skip.
Proof.
  intros H. apply uniqueKeywords_spec in H.
  unfold duplicate_check. rewrite H, Z.eqb_refl. reflexivity.
Qed.

Lemma short_keywords_quiet :
  len (tooShortKeywords m) <= 3 -> short_keywords_check m = skip.
Proof. intros H. unfold short_keywords_check. now split_tests. Qed.

(** The filter over the denylist keeps exactly the terms that occur in
    the lower-cased title, description or some lower-cased keyword. *)
Lemma foundBanned_spec (t : jsstring) :
  In t (foundBanned toLowerCase m) <->
  In t BANNED_KEYWORDS /\ found_in toLowerCase m t.
Proof.
  unfold foundBanned, found_in. rewrite filter_In, !orb_true_iff,
    !includes_spec, existsb_exists.
  split; intros [Hin H]; (split; [assumption|]).
  - destruct H as [[[k [Hk Hi]] | H] | H]; [|tauto|tauto].
    apply in_map_iff in Hk. destruct Hk as [k0 [<- Hk0]].
    apply includes_spec in Hi. right. right. now exists k0.
  - destruct H as [H | [H | [k [Hk Hi]]]]; [tauto|tauto|].
    left. left. exists (toLowerCase k). split.
    + now apply in_map.
    + now apply includes_spec.
Qed.

Lemma denylist_free_iff :
  denylist_free toLowerCase m <-> foundBanned toLowerCase m = [].
Proof.
  unfold denylist_free. split.
  - intros H. destruct (foundBanned toLowerCase m) as [|t l] eqn:E;
      [reflexivity|].
    assert (Hin : In t (foundBanned toLowerCase m)) by (rewrite E; now left).
    apply foundBanned_spec in Hin. destruct Hin as [Hb Hf].
    now destruct (H t Hb).
  - intros E t Hb Hf.
    assert (Hin : In t (foundBanned toLowerCase m))
      by (apply foundBanned_spec; tauto).
    rewrite E in Hin. destruct Hin.
Qed.

Lemma compliance_quiet :
  denylist_free toLowerCase m -> compliance_check toLowerCase m = skip.
Proof.
  intros H. apply denylist_free_iff in H.
  unfold compliance_check. rewrite H. reflexivity.
Qed.

Lemma ai_quiet : isAI m = true -> ai_check m = skip.
Proof. intros H. unfold ai_check. now rewrite H. Qed.

Lemma author_quiet :
  occurs_in (js "{{author}}") (author m) -> author_check m = skip.
Proof.
  intros H. apply includes_spec in H. unfold author_check. now rewrite H.
Qed.

End Quiet.

(** Evaluates the lengths that occur in a goal about a sample record. *)
Ltac eval_len :=
  repeat match goal with
         | |- context [len ?l] =>
             let v := eval vm_compute in (len l) in
             change (len l) with v
         end.

Lemma sample_compliant (m : ImageMetadata) :
  20 <= len (title m) <= 70 ->
  5 <= len (split_ws (title m)) ->
  10 <= len (split_ws (description m)) ->
  30 <= len (keywords m) <= 50 ->
  len (uniqueKeywords toLowerCase_ascii m) = len (keywords m) ->
  foundBanned toLowerCase_ascii m = [] ->
  isAI m = true ->
  includes (author m) (js "{{author}}") = true ->
  compliant toLowerCase_ascii m.
Proof.
  intros H1 H2 H3 H4 H5 H6 H7 H8. repeat split; try tauto.
  - now apply uniqueKeywords_spec.
  - now apply denylist_free_iff.
  - now apply includes_spec.
Qed.

Lemma clean_compliant : compliant toLowerCase_ascii clean.
Proof.
  apply sample_compliant; eval_len; try lia; vm_compute; reflexivity.
Qed.

Lemma four_short_keywords_compliant :
  compliant toLowerCase_ascii four_short_keywords.
Proof.
  apply sample_compliant; eval_len; try lia; vm_compute; reflexivity.
Qed.

(* ===================================================================== *)
(** ** Metadata that passes every check                                  *)
(* ===================================================================== *)

(** C2 (amended). Metadata that satisfies the premises of the
    specification (title of 20 to 70 code units and at least 5 words,
    description of at least 10 words, 30 to 50 keywords without
    case-insensitive, trimmed duplicates, no denylisted term, AI
    disclosure, author with the placeholder) and that has at most three
    keywords shorter than 3 code units scores 100 with no issue. *)
Theorem compliant_metadata_scores_100 (toLowerCase : jsstring -> jsstring)
  (m : ImageMetadata) :
  compliant toLowerCase m ->
  len (tooShortKeywords m) <= 3 ->
  score (validateMetadata toLowerCase m) = 100%Q /\
  issues (validateMetadata toLowerCase m) = [].
Proof.
  intros (Ht & Hw & Hd & Hk & Hu & Hb & Ha & Hp) Hs.
  unfold validateMetadata, body, checks.
  rewrite title_length_quiet, title_words_quiet, description_quiet,
    keyword_count_quiet, (duplicate_quiet _ _ Hu), short_keywords_quiet,
    (compliance_quiet _ _ Hb), ai_quiet, author_quiet by assumption.
  split; reflexivity.
Qed.

Lemma compliant_metadata_scores_100_witness :
  compliant toLowerCase_ascii clean /\
  len (tooShortKeywords clean) <= 3 /\
  score (validateMetadata toLowerCase_ascii clean) = 100%Q /\
  issues (validateMetadata toLowerCase_ascii clean) = [].
Proof.
  split; [exact clean_compliant|].
  split; [vm_compute; discriminate|].
  apply (compliant_metadata_scores_100 toLowerCase_ascii clean).
  - exact clean_compliant.
  - vm_compute; discriminate.
Defined.

(** The premises of the specification alone do not exclude an issue:
    [four_short_keywords] satisfies them, and the validator reports the
    info issue of the short-keyword check. *)
Lemma compliant_yet_one_issue :
  compliant toLowerCase_ascii four_short_keywords /\
  issues (validateMetadata toLowerCase_ascii four_short_keywords)
  = [issue info
       (js "4 keywords are very short/generic (e.g. " ++ dquote ++ js "am"
        ++ dquote ++ js ").") key_keywords] /\
  issues (validateMetadata toLowerCase_ascii four_short_keywords) <> [].
Proof.
  split; [exact four_short_keywords_compliant|].
  split; [vm_compute; reflexivity|].
  vm_compute. discriminate.
Qed.

(* ===================================================================== *)
(** ** The fields that are read                                          *)
(* ===================================================================== *)

(** The body reads nothing but [title], [description], [keywords],
    [isAI] and [author]: two records that agree on these five fields get
    the same score, the same issues and the same recommendations. *)
Lemma validate_reads_five_fields (toLowerCase : jsstring -> jsstring)
  (m1 m2 : ImageMetadata) :
  same_inputs m1 m2 ->
  score (validateMetadata toLowerCase m1)
  = score (validateMetadata toLowerCase m2) /\
  issues (validateMetadata toLowerCase m1)
  = issues (validateMetadata toLowerCase m2) /\
  recommendations (validateMetadata toLowerCase m1)
  = recommendations (validateMetadata toLowerCase m2).
Proof.
  intros (Ht & Hd & Hk & Ha & Hu).
  assert (E : validateMetadata toLowerCase m1
              = validateMetadata toLowerCase m2).
  { unfold validateMetadata, body, checks, title_length_check,
      title_words_check, description_check, keyword_count_check,
      duplicate_check, uniqueKeywords, short_keywords_check,
      tooShortKeywords, compliance_check, foundBanned, ai_check,
      author_check.
    now rewrite Ht, Hd, Hk, Ha, Hu. }
  now rewrite E.
Qed.

(* ===================================================================== *)
(** ** Brand and trademark compliance                                    *)
(* ===================================================================== *)

Lemma BANNED_KEYWORDS_NoDup : NoDup BANNED_KEYWORDS.
Proof. apply new_Set_spec. vm_compute. reflexivity. Qed.

Lemma foundBanned_NoDup (toLowerCase : jsstring -> jsstring)
  (m : ImageMetadata) : NoDup (foundBanned toLowerCase m).
Proof. unfold foundBanned. apply NoDup_filter, BANNED_KEYWORDS_NoDup. Qed.

Lemma len_pos_iff {A : Type} (xs : list A) : 0 < len xs <-> xs <> [].
Proof.
  unfold len. destruct xs; simpl; split; try lia; try congruence.
Qed.

(* ===================================================================== *)
(** ** Duplicate keywords                                                *)
(* ===================================================================== *)

(* ===================================================================== *)
(** ** Title                                                             *)
(* ===================================================================== *)

(** The title-length check emits the too-long error, the too-short
    warning or nothing, according to the length of the title as given. *)
Lemma title_length_emits (m : ImageMetadata) :
  (len (title m) > 70 /\
   emitted (title_length_check m) = [title_too_long (len (title m))] /\
   (penalty (title_length_check m) == 15)%Q) \/
  (len (title m) < 20 /\
   emitted (title_length_check m) = [title_too_short] /\
   (penalty (title_length_check m) == 5)%Q) \/
  (20 <= len (title m) <= 70 /\
   emitted (title_length_check m) = [] /\
   (penalty (title_length_check m) == 0)%Q).
Proof.
  unfold title_length_check. cbv zeta.
  rewrite Z.gtb_ltb.
  destruct (Z.ltb_spec 70 (len (title m)));
    [|destruct (Z.ltb_spec (len (title m)) 20)].
  - left. repeat split; try lia; contribution.
  - right. left. repeat split; try lia; contribution.
  - right. right. repeat split; try lia; contribution.
Qed.

Lemma title_words_emits (m : ImageMetadata) :
  (len (split_ws (title m)) < 5 /\
   emitted (title_words_check m) = [title_few_words] /\
   (penalty (title_words_check m) == 5)%Q) \/
  (5 <= len (split_ws (title m)) /\
   emitted (title_words_check m) = [] /\
   (penalty (title_words_check m) == 0)%Q).
Proof.
  unfold title_words_check. cbv zeta.
  destruct (Z.ltb_spec (len (split_ws (title m))) 5).
  - left. repeat split; try lia; contribution.
  - right. repeat split; try lia; contribution.
Qed.

(** The checks after the title checks, in program order. *)
Lemma validate_issues_split (toLowerCase : jsstring -> jsstring)
  (m : ImageMetadata) :
  issues (validateMetadata toLowerCase m) =
  emitted (title_length_check m) ++ emitted (title_words_check m) ++
  flat_map emitted
    [ description_check m; keyword_count_check m;
      duplicate_check toLowerCase m; short_keywords_check m;
      compliance_check toLowerCase m; ai_check m; author_check m ].
Proof.
  destruct (validate_assembled toLowerCase m) as [H _]. exact H.
Qed.

(** Decides every test of a check and reads what each branch emits. *)
Ltac emitted_fields :=
  cbv zeta;
  repeat match goal with
         | |- context [if ?c then _ else _] => destruct c
         end;
  contribution; repeat constructor; discriminate.

Lemma later_checks_off_title (toLowerCase : jsstring -> jsstring)
  (m : ImageMetadata) :
  Forall (fun i => field i <> Some key_title)
    (flat_map emitted
       [ description_check m; keyword_count_check m;
         duplicate_check toLowerCase m; short_keywords_check m;
         compliance_check toLowerCase m; ai_check m; author_check m ]).
Proof.
  cbn [flat_map].
  apply Forall_app; split; [unfold description_check; emitted_fields|].
  apply Forall_app; split; [unfold keyword_count_check; emitted_fields|].
  apply Forall_app; split; [unfold duplicate_check; emitted_fields|].
  apply Forall_app; split; [unfold short_keywords_check; emitted_fields|].
  apply Forall_app; split; [unfold compliance_check; emitted_fields|].
  apply Forall_app; split; [unfold ai_check; emitted_fields|].
  apply Forall_app; split; [unfold author_check; emitted_fields|].
  apply Forall_nil.
Qed.

(** An issue of the result that concerns the title comes from one of the
    two title checks. *)
Lemma title_issue_origin (toLowerCase : jsstring -> jsstring)
  (m : ImageMetadata) (i : ValidationIssue) :
  In i (issues (validateMetadata toLowerCase m)) ->
  field i = Some key_title ->
  In i (emitted (title_length_check m)) \/
  In i (emitted (title_words_check m)).
Proof.
  rewrite validate_issues_split, !in_app_iff.
  intros [H | [H | H]] Hf; [tauto | tauto |].
  assert (Hall := later_checks_off_title toLowerCase m).
  rewrite Forall_forall in Hall. now destruct (Hall i H).
Qed.







(* ===================================================================== *)
(** ** Short keywords                                                    *)
(* ===================================================================== *)

(** The head of a filtered list is the first element, in input order,
    that passes the test. *)
Lemma filter_head {A : Type} (f : A -> bool) (xs : list A) (x : A)
  (rest : list A) :
  filter f xs = x :: rest ->
  exists pre post,
    xs = pre ++ x :: post /\ f x = true /\ Forall (fun y => f y = false) pre.
Proof.
  induction xs as [|y xs IH]; simpl; [discriminate|].
  destruct (f y) eqn:E.
  - intros H. injection H as -> _. exists [], xs. repeat split; auto.
  - intros H. destruct (IH H) as (pre & post & -> & Hx & Hpre).
    exists (y :: pre), post. repeat split; auto.
Qed.

(** Four keywords of two letters and a trailing space have a trimmed
    length of 2, so the rule of the specification counts 4 of them; the
    validator compares the untrimmed length 3 and reports nothing. *)
Lemma padded_keywords_not_counted :
  len (short_after_trim padded_short_keywords) = 4 /\
  len (short_after_trim padded_short_keywords) > 3 /\
  len (tooShortKeywords padded_short_keywords) = 0 /\
  emitted (short_keywords_check padded_short_keywords) = [] /\
  issues (validateMetadata toLowerCase_ascii padded_short_keywords) = [].
Proof. repeat split; vm_compute; reflexivity. Qed.

(* ===================================================================== *)
(** ** The scenario of the specification                                 *)
(* ===================================================================== *)

(** C8 (amended). A record with a title of 80 code units and 8 words, a
    description of 12 words, 25 distinct keywords, no denylisted term in
    title, description or keywords, at most three keywords shorter than 3
    code units, no AI disclosure and the author "Studio" yields exactly
    four issues: the too-long title error (15), the keyword shortfall
    error for 5 missing keywords (7.5), the AI-disclosure warning (10) and
    the author-placeholder info (0).  The raw score is
    100 - 15 - 7.5 - 10 = 67.5; it is rounded once, at the end, to 68. *)
Theorem scenario_scores_68 (toLowerCase : jsstring -> jsstring)
  (m : ImageMetadata) :
  len (title m) = 80 ->
  len (split_ws (title m)) = 8 ->
  len (split_ws (description m)) = 12 ->
  len (keywords m) = 25 ->
  NoDup (map (normalized toLowerCase) (keywords m)) ->
  denylist_free toLowerCase m ->
  len (tooShortKeywords m) <= 3 ->
  isAI m = false ->
  author m = js "Studio" ->
  issues (validateMetadata toLowerCase m) =
    [ title_too_long 80;
      issue error
        (js "Found only 25 keywords. Minimum 30 required for optimal visibility.")
        key_keywords;
      issue warning
        (js "isAI flag is false. Most platforms now require marking AI content explicitly.")
        key_isAI;
      issue info (js "Author field does not contain dynamic placeholder.")
        key_author ] /\
  recommendations (validateMetadata toLowerCase m) =
    [js "Add 5 more keywords to reach the minimum of 30."] /\
  (penalty (title_length_check m) == 15)%Q /\
  (penalty (keyword_count_check m) == 7.5)%Q /\
  (penalty (ai_check m) == 10)%Q /\
  (penalty (author_check m) == 0)%Q /\
  (cur_score (body toLowerCase m) == 100 - 15 - 7.5 - 10)%Q /\
  (cur_score (body toLowerCase m) == 67.5)%Q /\
  score (validateMetadata toLowerCase m)
  = Math_max 0 (Math_min 100 (Math_round (cur_score (body toLowerCase m)))) /\
  score (validateMetadata toLowerCase m) = 68%Q.
Proof.
  intros Ht Hw Hd Hk Hu Hb Hs Ha Hp.
  unfold validateMetadata, body, checks.
  rewrite title_words_quiet, description_quiet, (duplicate_quiet _ _ Hu),
    short_keywords_quiet, (compliance_quiet _ _ Hb) by (assumption || lia).
  unfold title_length_check, keyword_count_check, ai_check, author_check.
  rewrite Ht, Hk, Ha, Hp.
  repeat split; vm_compute; reflexivity.
Qed.

Lemma scenario_scores_68_witness :
  len (title scenario) = 80 /\
  len (split_ws (title scenario)) = 8 /\
  len (split_ws (description scenario)) = 12 /\
  len (keywords scenario) = 25 /\
  (cur_score (body toLowerCase_ascii scenario) == 67.5)%Q /\
  score (validateMetadata toLowerCase_ascii scenario) = 68%Q.
Proof.
  assert (Hu : NoDup (map (normalized toLowerCase_ascii) (keywords scenario))).
  { apply (uniqueKeywords_spec toLowerCase_ascii scenario).
    vm_compute. reflexivity. }
  assert (Hb : denylist_free toLowerCase_ascii scenario).
  { apply denylist_free_iff. vm_compute. reflexivity. }
  assert (Hs : len (tooShortKeywords scenario) <= 3).
  { vm_compute. discriminate. }
  destruct (scenario_scores_68 toLowerCase_ascii scenario
              eq_refl eq_refl eq_refl eq_refl Hu Hb Hs eq_refl eq_refl)
    as (_ & _ & _ & _ & _ & _ & _ & Hraw & _ & Hscore).
  repeat split; assumption.
Defined.

(* ===================================================================== *)
(** ** The score as a function of the penalties                          *)
(* ===================================================================== *)

Lemma clamp_Z (r : Z) :
  Math_max 0 (Math_min 100 (inject_Z r)) = inject_Z (Z.max 0 (Z.min 100 r)).
Proof.
  assert (Hcmp : forall a b : Z,
             (inject_Z a ?= inject_Z b)%Q = (a ?= b)%Z).
  { intros a b. unfold Qcompare. simpl. now rewrite !Z.mul_1_r. }
  unfold Math_max, Math_min, Qmax, Qmin, GenericMinMax.gmax,
    GenericMinMax.gmin.
  change 100%Q with (inject_Z 100). change 0%Q with (inject_Z 0).
  rewrite Hcmp. destruct (Z.compare_spec 100 r) as [E | L | G];
    rewrite Hcmp.
  - subst r. reflexivity.
  - simpl. f_equal. lia.
  - destruct (Z.compare_spec 0 r) as [E' | L' | G']; f_equal; lia.
Qed.

Lemma validate_score_Z (toLowerCase : jsstring -> jsstring)
  (m : ImageMetadata) :
  score (validateMetadata toLowerCase m) =
  inject_Z (Z.max 0 (Z.min 100
    (Qfloor (100 - total_penalty (checks toLowerCase m) + (1 # 2))))).
Proof.
  destruct (validate_assembled toLowerCase m) as (_ & _ & H).
  rewrite H. unfold Math_round. apply clamp_Z.
Qed.

(** The floor of a number that is at most n + 1/2 is at most n. *)
Lemma Qfloor_half_le (x : Q) (n : Z) :
  (x <= inject_Z n + (1 # 2))%Q -> Qfloor x <= n.
Proof.
  intros H. assert (Hf := Qfloor_le x).
  assert (Hlt : (inject_Z (Qfloor x) < inject_Z (n + 1))%Q).
  { rewrite inject_Z_plus. change (inject_Z 1) with 1%Q. lra. }
  rewrite <- Zlt_Qlt in Hlt. lia.
Qed.

(** The floor of a number that is at least n is at least n. *)
Lemma Qfloor_ge (x : Q) (n : Z) : (inject_Z n <= x)%Q -> n <= Qfloor x.
Proof.
  intros H. assert (Hf := Qlt_floor x).
  assert (Hlt : (inject_Z n < inject_Z (Qfloor x + 1))%Q) by lra.
  rewrite <- Zlt_Qlt in Hlt. lia.
Qed.

Lemma score_upper (toLowerCase : jsstring -> jsstring) (m : ImageMetadata)
  (p : Z) :
  (inject_Z p <= total_penalty (checks toLowerCase m))%Q ->
  0 <= p <= 100 ->
  (score (validateMetadata toLowerCase m) <= inject_Z (100 - p))%Q.
Proof.
  intros Hp Hr. rewrite validate_score_Z. rewrite <- Zle_Qle.
  assert (Hf : Qfloor (100 - total_penalty (checks toLowerCase m) + (1 # 2))
               <= 100 - p).
  { apply Qfloor_half_le. unfold Zminus. rewrite inject_Z_plus, inject_Z_opp.
    change (inject_Z 100) with 100%Q. lra. }
  lia.
Qed.

Lemma score_lower (toLowerCase : jsstring -> jsstring) (m : ImageMetadata)
  (p : Z) :
  (total_penalty (checks toLowerCase m) <= inject_Z p + (1 # 2))%Q ->
  0 <= p <= 100 ->
  (inject_Z (100 - p) <= score (validateMetadata toLowerCase m))%Q.
Proof.
  intros Hp Hr. rewrite validate_score_Z. rewrite <- Zle_Qle.
  assert (Hf : 100 - p
               <= Qfloor (100 - total_penalty (checks toLowerCase m)
                          + (1 # 2))).
  { apply Qfloor_ge. unfold Zminus. rewrite inject_Z_plus, inject_Z_opp.
    change (inject_Z 100) with 100%Q. lra. }
  lia.
Qed.

(** *** What each check contributes, by cases *)

Lemma description_emits (m : ImageMetadata) :
  (len (split_ws (description m)) < 10 /\
   emitted (description_check m) =
     [issue warning
        (js "Description is very sparse. Aim for 2-3 complete sentences.")
        key_description] /\
   advised (description_check m) = [] /\
   (penalty (description_check m) == 10)%Q) \/
  (10 <= len (split_ws (description m)) /\
   emitted (description_check m) = [] /\
   advised (description_check m) = [] /\
   (penalty (description_check m) == 0)%Q).
Proof.
  unfold description_check. cbv zeta.
  destruct (Z.ltb_spec (len (split_ws (description m))) 10).
  - left. repeat split; try lia; contribution.
  - right. repeat split; try lia; contribution.
Qed.

Lemma keyword_count_emits (m : ImageMetadata) :
  let K := len (keywords m) in
  (K < 30 /\
   emitted (keyword_count_check m) =
     [issue error
        (js "Found only " ++ Number_toString K
         ++ js " keywords. Minimum 30 required for optimal visibility.")
        key_keywords] /\
   length (advised (keyword_count_check m)) = 1%nat /\
   (penalty (keyword_count_check m) == inject_Z (30 - K) * 1.5)%Q) \/
  (K > 50 /\
   emitted (keyword_count_check m) =
     [issue error
        (js "Found " ++ Number_toString K
         ++ js " keywords. Max 50 allowed on most platforms.")
        key_keywords] /\
   length (advised (keyword_count_check m)) = 1%nat /\
   (penalty (keyword_count_check m) == inject_Z (K - 50) * 2)%Q) \/
  (30 <= K <= 50 /\
   emitted (keyword_count_check m) = [] /\
   length (advised (keyword_count_check m)) = 0%nat /\
   (penalty (keyword_count_check m) == 0)%Q).
Proof.
  intros K. unfold keyword_count_check. fold K. cbv zeta.
  rewrite Z.gtb_ltb.
  destruct (Z.ltb_spec K 30); [|destruct (Z.ltb_spec 50 K)].
  - left. repeat split; try lia; contribution.
  - right. left. repeat split; try lia; contribution.
  - right. right. repeat split; try lia; contribution.
Qed.

Lemma duplicate_emits (toLowerCase : jsstring -> jsstring)
  (m : ImageMetadata) :
  let D := len (keywords m) - len (uniqueKeywords toLowerCase m) in
  (0 < D /\
   emitted (duplicate_check toLowerCase m) =
     [issue warning
        (js "Found " ++ Number_toString D ++ js " duplicate keywords.")
        key_keywords] /\
   length (advised (duplicate_check toLowerCase m)) = 1%nat /\
   (penalty (duplicate_check toLowerCase m) == inject_Z D * 3)%Q) \/
  (D = 0 /\
   emitted (duplicate_check toLowerCase m) = [] /\
   length (advised (duplicate_check toLowerCase m)) = 0%nat /\
   (penalty (duplicate_check toLowerCase m) == 0)%Q).
Proof.
  intros D. subst D.
  destruct (uniqueKeywords_spec toLowerCase m) as (_ & _ & Hle & _).
  unfold duplicate_check.
  destruct (Z.eqb_spec (len (uniqueKeywords toLowerCase m))
              (len (keywords m))) as [E | N].
  - right. repeat split; try lia; contribution.
  - left. repeat split; try lia; contribution.
Qed.

Lemma short_keywords_emits (m : ImageMetadata) :
  (3 < len (tooShortKeywords m) /\
   (exists i, emitted (short_keywords_check m) = [i] /\
              type i = info /\ field i = Some key_keywords) /\
   length (advised (short_keywords_check m)) = 1%nat /\
   (penalty (short_keywords_check m) == 0)%Q) \/
  (len (tooShortKeywords m) <= 3 /\
   emitted (short_keywords_check m) = [] /\
   length (advised (short_keywords_check m)) = 0%nat /\
   (penalty (short_keywords_check m) == 0)%Q).
Proof.
  unfold short_keywords_check. rewrite Z.gtb_ltb.
  destruct (Z.ltb_spec 3 (len (tooShortKeywords m))).
  - left. split; [lia|]. split; [eexists; repeat split; contribution|].
    split; contribution.
  - right. repeat split; try lia; contribution.
Qed.

Lemma compliance_emits (toLowerCase : jsstring -> jsstring)
  (m : ImageMetadata) :
  let found := foundBanned toLowerCase m in
  (0 < len found /\
   emitted (compliance_check toLowerCase m) =
     [issue error
        (js "Potential Trademark/Brand Violation: "
         ++ join (js ", ") found
         ++ js ". Commercial stock must be free of brands.")
        key_keywords] /\
   length (advised (compliance_check toLowerCase m)) = 1%nat /\
   (penalty (compliance_check toLowerCase m) == 25 * inject_Z (len found))%Q)
  \/
  (len found = 0 /\
   emitted (compliance_check toLowerCase m) = [] /\
   length (advised (compliance_check toLowerCase m)) = 0%nat /\
   (penalty (compliance_check toLowerCase m) == 0)%Q).
Proof.
  intros found. unfold compliance_check. fold found. rewrite Z.gtb_ltb.
  assert (Hnn : 0 <= len found) by (unfold len; lia).
  destruct (Z.ltb_spec 0 (len found)).
  - left. repeat split; try lia; contribution.
  - right. repeat split; try lia; contribution.
Qed.

Lemma ai_emits (m : ImageMetadata) :
  (isAI m = false /\
   emitted (ai_check m) =
     [issue warning
        (js "isAI flag is false. Most platforms now require marking AI content explicitly.")
        key_isAI] /\
   advised (ai_check m) = [] /\
   (penalty (ai_check m) == 10)%Q) \/
  (isAI m = true /\
   emitted (ai_check m) = [] /\
   advised (ai_check m) = [] /\
   (penalty (ai_check m) == 0)%Q).
Proof.
  unfold ai_check. destruct (isAI m).
  - right. repeat split; contribution.
  - left. repeat split; contribution.
Qed.

Lemma author_emits (m : ImageMetadata) :
  (includes (author m) (js "{{author}}") = false /\
   emitted (author_check m) =
     [issue info (js "Author field does not contain dynamic placeholder.")
        key_author] /\
   advised (author_check m) = [] /\
   (penalty (author_check m) == 0)%Q) \/
  (includes (author m) (js "{{author}}") = true /\
   emitted (author_check m) = [] /\
   advised (author_check m) = [] /\
   (penalty (author_check m) == 0)%Q).
Proof.
  unfold author_check. destruct (includes (author m) (js "{{author}}")).
  - right. repeat split; contribution.
  - left. repeat split; contribution.
Qed.

Lemma title_length_advises_nothing (m : ImageMetadata) :
  advised (title_length_check m) = [].
Proof.
  unfold title_length_check. cbv zeta.
  destruct (len (title m) >? 70); [|destruct (len (title m) <? 20)];
    contribution.
Qed.

Lemma title_words_advises_nothing (m : ImageMetadata) :
  advised (title_words_check m) = [].
Proof.
  unfold title_words_check. cbv zeta.
  destruct (len (split_ws (title m)) <? 5); contribution.
Qed.

(** The sum of the nine penalties. *)
Lemma total_penalty_checks (toLowerCase : jsstring -> jsstring)
  (m : ImageMetadata) :
  (total_penalty (checks toLowerCase m) ==
   penalty (title_length_check m) + penalty (title_words_check m)
   + penalty (description_check m) + penalty (keyword_count_check m)
   + penalty (duplicate_check toLowerCase m)
   + penalty (short_keywords_check m)
   + penalty (compliance_check toLowerCase m)
   + penalty (ai_check m) + penalty (author_check m))%Q.
Proof. unfold checks, total_penalty. cbn [fold_right]. ring. Qed.

Lemma inject_Z_nonneg (z : Z) : 0 <= z -> (0 <= inject_Z z)%Q.
Proof. intros H. change 0%Q with (inject_Z 0). now rewrite <- Zle_Qle. Qed.

Lemma inject_Z_pos (z : Z) : 1 <= z -> (1 <= inject_Z z)%Q.
Proof. intros H. change 1%Q with (inject_Z 1). now rewrite <- Zle_Qle. Qed.

(** Each check either costs nothing and emits at most an info issue, or
    costs at least 1.5 and emits an error or a warning. *)
Lemma checks_free_or_costly (toLowerCase : jsstring -> jsstring)
  (m : ImageMetadata) :
  Forall (fun b =>
            ((penalty b == 0)%Q /\
             Forall (fun i => type i = info) (emitted b)) \/
            ((3 # 2 <= penalty b)%Q /\
             Exists (fun i => type i <> info) (emitted b)))
         (checks toLowerCase m).
Proof.
  unfold checks. repeat apply Forall_cons; try apply Forall_nil.
  - destruct (title_length_emits m)
      as [(_ & E & P) | [(_ & E & P) | (_ & E & P)]]; rewrite E, P.
    + right. split; [lra | constructor; discriminate].
    + right. split; [lra | constructor; discriminate].
    + left. split; [reflexivity | constructor].
  - destruct (title_words_emits m) as [(_ & E & P) | (_ & E & P)];
      rewrite E, P.
    + right. split; [lra | constructor; discriminate].
    + left. split; [reflexivity | constructor].
  - destruct (description_emits m) as [(_ & E & _ & P) | (_ & E & _ & P)];
      rewrite E, P.
    + right. split; [lra | constructor; discriminate].
    + left. split; [reflexivity | constructor].
  - destruct (keyword_count_emits m)
      as [(H & E & _ & P) | [(H & E & _ & P) | (H & E & _ & P)]];
      rewrite E, P.
    + right. split; [|constructor; discriminate].
      assert (Hq := inject_Z_pos (30 - len (keywords m)) ltac:(lia)). lra.
    + right. split; [|constructor; discriminate].
      assert (Hq := inject_Z_pos (len (keywords m) - 50) ltac:(lia)). lra.
    + left. split; [reflexivity | constructor].
  - destruct (duplicate_emits toLowerCase m)
      as [(H & E & _ & P) | (H & E & _ & P)]; rewrite E, P.
    + right. split; [|constructor; discriminate].
      assert (Hq := inject_Z_pos
                      (len (keywords m) - len (uniqueKeywords toLowerCase m))
                      ltac:(lia)). lra.
    + left. split; [reflexivity | constructor].
  - destruct (short_keywords_emits m)
      as [(_ & (i & E & T & _) & _ & P) | (_ & E & _ & P)]; rewrite E, P.
    + left. split; [reflexivity | repeat constructor; exact T].
    + left. split; [reflexivity | constructor].
  - destruct (compliance_emits toLowerCase m)
      as [(H & E & _ & P) | (H & E & _ & P)]; rewrite E, P.
    + right. split; [|constructor; discriminate].
      assert (Hq := inject_Z_pos (len (foundBanned toLowerCase m))
                      ltac:(lia)). lra.
    + left. split; [reflexivity | constructor].
  - destruct (ai_emits m) as [(_ & E & _ & P) | (_ & E & _ & P)];
      rewrite E, P.
    + right. split; [lra | constructor; discriminate].
    + left. split; [reflexivity | constructor].
  - destruct (author_emits m) as [(_ & E & _ & P) | (_ & E & _ & P)];
      rewrite E, P.
    + left. split; [reflexivity | repeat constructor].
    + left. split; [reflexivity | constructor].
Qed.

Lemma free_or_costly_total (bs : list Block) :
  Forall (fun b =>
            ((penalty b == 0)%Q /\
             Forall (fun i => type i = info) (emitted b)) \/
            ((3 # 2 <= penalty b)%Q /\
             Exists (fun i => type i <> info) (emitted b))) bs ->
  (0 <= total_penalty bs)%Q /\
  (((total_penalty bs == 0)%Q /\
    Forall (fun i => type i = info) (flat_map emitted bs)) \/
   ((3 # 2 <= total_penalty bs)%Q /\
    Exists (fun i => type i <> info) (flat_map emitted bs))).
Proof.
  induction 1 as [|b bs Hb Hbs IH]; cbn [total_penalty fold_right flat_map].
  - split; [lra|]. left. split; [reflexivity | constructor].
  - fold (total_penalty bs). destruct IH as [Hnn IH].
    destruct Hb as [[P F] | [P X]].
    + split; [lra|]. destruct IH as [[P' F'] | [P' X']].
      * left. split; [lra | now apply Forall_app].
      * right. split; [lra | apply Exists_app; now right].
    + split; [lra|]. right. split; [lra | apply Exists_app; now left].
Qed.

Lemma penalties_nonneg (toLowerCase : jsstring -> jsstring)
  (m : ImageMetadata) :
  Forall (fun b => (0 <= penalty b)%Q) (checks toLowerCase m).
Proof.
  assert (H := checks_free_or_costly toLowerCase m).
  revert H. apply Forall_impl. intros b [[P _] | [P _]]; lra.
Qed.

(** The total is at least the penalty of any one of the checks. *)
Lemma total_penalty_ge (bs : list Block) (b : Block) :
  Forall (fun b => (0 <= penalty b)%Q) bs -> In b bs ->
  (penalty b <= total_penalty bs)%Q.
Proof.
  induction 1 as [|c bs Hc Hbs IH]; intros Hin; [destruct Hin|].
  cbn [total_penalty fold_right]. fold (total_penalty bs).
  assert (Hnn : (0 <= total_penalty bs)%Q).
  { clear IH Hin. induction Hbs as [|d bs Hd Hbs IH];
      cbn [total_penalty fold_right]; [lra|].
    fold (total_penalty bs). lra. }
  destruct Hin as [<- | Hin]; [lra|]. specialize (IH Hin). lra.
Qed.

Lemma score_zero (toLowerCase : jsstring -> jsstring) (m : ImageMetadata) :
  (100 <= total_penalty (checks toLowerCase m))%Q ->
  score (validateMetadata toLowerCase m) = 0%Q.
Proof.
  intros H. rewrite validate_score_Z.
  assert (Hf : Qfloor (100 - total_penalty (checks toLowerCase m) + (1 # 2))
               <= 0).
  { apply Qfloor_half_le. change (inject_Z 0) with 0%Q. lra. }
  change 0%Q with (inject_Z 0). f_equal. lia.
Qed.

(** The sum of the nine penalties is the closed formula. *)
Lemma total_penalty_formula (toLowerCase : jsstring -> jsstring)
  (m : ImageMetadata) :
  (total_penalty (checks toLowerCase m) == penalty_formula toLowerCase m)%Q.
Proof.
  rewrite total_penalty_checks. unfold penalty_formula. cbv zeta.
  assert (E1 : (penalty (title_length_check m) ==
                if len (title m) >? 70 then 15
                else if len (title m) <? 20 then 5 else 0)%Q).
  { destruct (title_length_emits m)
      as [(H & _ & P) | [(H & _ & P) | (H & _ & P)]];
      rewrite P; split_tests; reflexivity. }
  assert (E2 : (penalty (title_words_check m) ==
                if len (split_ws (title m)) <? 5 then 5 else 0)%Q).
  { destruct (title_words_emits m) as [(H & _ & P) | (H & _ & P)];
      rewrite P; split_tests; reflexivity. }
  assert (E3 : (penalty (description_check m) ==
                if len (split_ws (description m)) <? 10 then 10 else 0)%Q).
  { destruct (description_emits m) as [(H & _ & _ & P) | (H & _ & _ & P)];
      rewrite P; split_tests; reflexivity. }
  assert (E4 : (penalty (keyword_count_check m) ==
                1.5 * inject_Z (Z.max 0 (30 - len (keywords m)))
                + 2 * inject_Z (Z.max 0 (len (keywords m) - 50)))%Q).
  { destruct (keyword_count_emits m)
      as [(H & _ & _ & P) | [(H & _ & _ & P) | (H & _ & _ & P)]];
      rewrite P.
    - rewrite Z.max_r, Z.max_l by lia. change (inject_Z 0) with 0%Q. ring.
    - rewrite Z.max_l, Z.max_r by lia. change (inject_Z 0) with 0%Q. ring.
    - rewrite !Z.max_l by lia. change (inject_Z 0) with 0%Q. ring. }
  assert (E5 : (penalty (duplicate_check toLowerCase m) ==
                3 * inject_Z (len (keywords m)
                              - len (uniqueKeywords toLowerCase m)))%Q).
  { destruct (duplicate_emits toLowerCase m)
      as [(H & _ & _ & P) | (H & _ & _ & P)]; rewrite P.
    - ring.
    - rewrite H. change (inject_Z 0) with 0%Q. ring. }
  assert (E6 : (penalty (short_keywords_check m) == 0)%Q).
  { destruct (short_keywords_emits m)
      as [(_ & _ & _ & P) | (_ & _ & _ & P)]; exact P. }
  assert (E7 : (penalty (compliance_check toLowerCase m) ==
                25 * inject_Z (len (foundBanned toLowerCase m)))%Q).
  { destruct (compliance_emits toLowerCase m)
      as [(H & _ & _ & P) | (H & _ & _ & P)]; rewrite P.
    - reflexivity.
    - rewrite H. change (inject_Z 0) with 0%Q. ring. }
  assert (E8 : (penalty (ai_check m) == if isAI m then 0 else 10)%Q).
  { destruct (ai_emits m) as [(H & _ & _ & P) | (H & _ & _ & P)];
      rewrite P, H; reflexivity. }
  assert (E9 : (penalty (author_check m) == 0)%Q).
  { destruct (author_emits m) as [(_ & _ & _ & P) | (_ & _ & _ & P)];
      exact P. }
  rewrite E1, E2, E3, E4, E5, E6, E7, E8, E9. ring.
Qed.

(** X1. The raw score is 100 minus a closed formula in the measures of
    the record, and the score is that number rounded and clamped:
    15 or 5 for the title length, 5 for fewer than 5 title words, 10 for
    fewer than 10 description words, 1.5 per missing keyword below 30, 2
    per keyword above 50, 3 per duplicate, 25 per denylisted term and 10
    without AI disclosure. *)
Theorem score_closed_form (toLowerCase : jsstring -> jsstring)
  (m : ImageMetadata) :
  (total_penalty (checks toLowerCase m) == penalty_formula toLowerCase m)%Q /\
  (cur_score (body toLowerCase m) == 100 - penalty_formula toLowerCase m)%Q /\
  score (validateMetadata toLowerCase m) =
    Math_max 0 (Math_min 100
      (Math_round (100 - penalty_formula toLowerCase m))).
Proof.
  assert (E := total_penalty_formula toLowerCase m).
  split; [exact E|]. split.
  - rewrite body_score, E. reflexivity.
  - destruct (validate_assembled toLowerCase m) as (_ & _ & H).
    rewrite H. f_equal. f_equal. apply Math_round_compat. now rewrite E.
Qed.

(** X2. The score is 100 exactly when the validator reports no error and
    no warning: info issues are free, and every error or warning costs at
    least 1.5 points, which rounds to a score of at most 99. *)
Theorem score_100_iff_only_info (toLowerCase : jsstring -> jsstring)
  (m : ImageMetadata) :
  score (validateMetadata toLowerCase m) = 100%Q <->
  Forall (fun i => type i = info) (issues (validateMetadata toLowerCase m)).
Proof.
  destruct (validate_assembled toLowerCase m) as (Hi & _ & _).
  destruct (free_or_costly_total _ (checks_free_or_costly toLowerCase m))
    as [_ [[P F] | [P X]]].
  - split; [intros _; now rewrite Hi|]. intros _.
    rewrite validate_score_Z.
    assert (H1 : 100 <= Qfloor (100 - total_penalty (checks toLowerCase m)
                                + (1 # 2))).
    { apply Qfloor_ge. change (inject_Z 100) with 100%Q. lra. }
    assert (H2 : Qfloor (100 - total_penalty (checks toLowerCase m)
                         + (1 # 2)) <= 100).
    { apply Qfloor_half_le. change (inject_Z 100) with 100%Q. lra. }
    set (f := Qfloor _) in *.
    change 100%Q with (inject_Z 100). f_equal. lia.
  - split.
    + intros H. exfalso. rewrite validate_score_Z in H.
      assert (H2 : Qfloor (100 - total_penalty (checks toLowerCase m)
                           + (1 # 2)) <= 99).
      { apply Qfloor_half_le. change (inject_Z 99) with 99%Q. lra. }
      set (f := Qfloor _) in *.
      change 100%Q with (inject_Z 100) in H. injection H as H. lia.
    + intros H. exfalso. rewrite Hi in H.
      apply Exists_exists in X. destruct X as (i & Hin & Hne).
      rewrite Forall_forall in H. now apply Hne, H.
Qed.

(* ===================================================================== *)
(** ** Bounds on the score                                               *)
(* ===================================================================== *)

Lemma compliance_check_in_checks (toLowerCase : jsstring -> jsstring)
  (m : ImageMetadata) :
  In (compliance_check toLowerCase m) (checks toLowerCase m).
Proof. unfold checks. simpl. tauto. Qed.

Lemma keyword_count_check_in_checks (toLowerCase : jsstring -> jsstring)
  (m : ImageMetadata) :
  In (keyword_count_check m) (checks toLowerCase m).
Proof. unfold checks. simpl. tauto. Qed.

Lemma emitted_in_issues (toLowerCase : jsstring -> jsstring)
  (m : ImageMetadata) (b : Block) (i : ValidationIssue) :
  In b (checks toLowerCase m) -> In i (emitted b) ->
  In i (issues (validateMetadata toLowerCase m)).
Proof.
  intros Hb Hi. destruct (validate_assembled toLowerCase m) as (H & _ & _).
  rewrite H. apply in_flat_map. now exists b.
Qed.

(** X3. A denylisted term that occurs in the lower-cased title,
    description or a keyword puts an error on the keywords field that
    names the term, and caps the score at 75; with F found terms the
    score is at most 100 - 25 F, and with four or more it is 0. *)
Theorem denylist_caps_score (toLowerCase : jsstring -> jsstring)
  (m : ImageMetadata) :
  (forall t, In t BANNED_KEYWORDS -> found_in toLowerCase m t ->
     (score (validateMetadata toLowerCase m) <= 75)%Q /\
     exists i, In i (issues (validateMetadata toLowerCase m)) /\
               type i = error /\ field i = Some key_keywords /\
               occurs_in t (message i)) /\
  (len (foundBanned toLowerCase m) <= 4 ->
   (score (validateMetadata toLowerCase m)
    <= inject_Z (100 - 25 * len (foundBanned toLowerCase m)))%Q) /\
  (4 <= len (foundBanned toLowerCase m) ->
   score (validateMetadata toLowerCase m) = 0%Q).
Proof.
  assert (Hge := total_penalty_ge _ _ (penalties_nonneg toLowerCase m)
                   (compliance_check_in_checks toLowerCase m)).
  assert (Hnn : 0 <= len (foundBanned toLowerCase m)) by (unfold len; lia).
  assert (HP : (penalty (compliance_check toLowerCase m)
                == 25 * inject_Z (len (foundBanned toLowerCase m)))%Q).
  { destruct (compliance_emits toLowerCase m)
      as [(_ & _ & _ & P) | (H & _ & _ & P)]; rewrite P; [reflexivity|].
    rewrite H. reflexivity. }
  assert (Hcap : forall F, 0 <= F <= 4 ->
             F <= len (foundBanned toLowerCase m) ->
             (score (validateMetadata toLowerCase m)
              <= inject_Z (100 - 25 * F))%Q).
  { intros F HF Hle. apply score_upper; [|lia].
    rewrite inject_Z_mult. change (inject_Z 25) with 25%Q.
    rewrite Zle_Qle in Hle. lra. }
  split; [|split].
  - intros t Hb Hf.
    assert (Hin : In t (foundBanned toLowerCase m))
      by (apply foundBanned_spec; tauto).
    assert (Hpos : 1 <= len (foundBanned toLowerCase m)).
    { destruct (foundBanned toLowerCase m); [destruct Hin|].
      unfold len. simpl. lia. }
    split; [exact (Hcap 1 ltac:(lia) Hpos)|].
    destruct (compliance_emits toLowerCase m)
      as [(_ & E & _) | (H & _)]; [|lia].
    eexists. split; [|split; [|split]].
    + apply (emitted_in_issues toLowerCase m _ _
               (compliance_check_in_checks toLowerCase m)).
      rewrite E. now left.
    + reflexivity.
    + reflexivity.
    + cbn [message issue]. now apply occurs_in_app, occurs_in_join.
  - intros H. apply Hcap; lia.
  - intros H. apply score_zero. rewrite Zle_Qle in H.
    change (inject_Z 4) with 4%Q in H. lra.
Qed.

Lemma denylist_caps_score_witness :
  In (js "iphone") BANNED_KEYWORDS /\
  found_in toLowerCase_ascii iphone_title (js "iphone") /\
  (score (validateMetadata toLowerCase_ascii iphone_title) <= 75)%Q.
Proof.
  assert (H : In (js "iphone") (foundBanned toLowerCase_ascii iphone_title))
    by (vm_compute; tauto).
  apply foundBanned_spec in H. destruct H as [Hb Hf].
  split; [exact Hb|]. split; [exact Hf|].
  apply (proj1 (denylist_caps_score toLowerCase_ascii iphone_title)
           (js "iphone") Hb Hf).
Defined.

(** X4. Without any keyword the score is at most 55, and with 100
    keywords or more it is 0, whatever the rest of the record. *)
Theorem keyword_count_extremes (toLowerCase : jsstring -> jsstring)
  (m : ImageMetadata) :
  (keywords m = [] ->
   (score (validateMetadata toLowerCase m) <= 55)%Q) /\
  (100 <= len (keywords m) ->
   score (validateMetadata toLowerCase m) = 0%Q).
Proof.
  assert (Hge := total_penalty_ge _ _ (penalties_nonneg toLowerCase m)
                   (keyword_count_check_in_checks toLowerCase m)).
  split.
  - intros E.
    assert (HK : len (keywords m) = 0) by (now rewrite E).
    change 55%Q with (inject_Z (100 - 45)). apply score_upper; [|lia].
    destruct (keyword_count_emits m)
      as [(_ & _ & _ & P) | [(H & _) | (H & _)]]; try lia.
    rewrite P, HK in Hge. change (inject_Z 45) with 45%Q.
    change (inject_Z (30 - 0)) with 30%Q in Hge. lra.
  - intros HK. apply score_zero.
    destruct (keyword_count_emits m)
      as [(H & _) | [(_ & _ & _ & P) | (H & _)]]; try lia.
    rewrite P in Hge.
    assert (Hq : (50 <= inject_Z (len (keywords m) - 50))%Q).
    { change 50%Q with (inject_Z 50). rewrite <- Zle_Qle. lia. }
    lra.
Qed.

Lemma keyword_count_extremes_witness :
  keywords hostile = [] /\
  (score (validateMetadata toLowerCase_ascii hostile) <= 55)%Q.
Proof.
  split; [reflexivity|].
  apply (proj1 (keyword_count_extremes toLowerCase_ascii hostile)).
  reflexivity.
Defined.

(* ===================================================================== *)
(** ** Shape of the issue list                                           *)
(* ===================================================================== *)

(** What a check adds: nothing, or one issue on its field together with
    at most one recommendation. *)
Lemma check_shape (b : Block) (k : MetadataKey) (advice : nat) :
  (emitted b = [] /\ length (advised b) = 0%nat) \/
  (exists i, emitted b = [i] /\ field i = Some k /\
             length (advised b) = advice) ->
  (map (fun i => rank (field i)) (emitted b) = [] /\
   length (emitted b) = 0%nat /\ length (advised b) = 0%nat) \/
  (map (fun i => rank (field i)) (emitted b) = [rank (Some k)] /\
   length (emitted b) = 1%nat /\ length (advised b) = advice).
Proof.
  intros [[E A] | (i & E & F & A)]; rewrite E.
  - left. now repeat split.
  - right. cbn [map]. rewrite F. now repeat split.
Qed.

(** Decides the tests of a check and exhibits what each branch adds. *)
Ltac shape_premise :=
  cbv zeta;
  repeat match goal with
         | |- context [if ?c then _ else _] => destruct c
         end;
  first [ left; split; reflexivity
        | right; eexists; split; [reflexivity | split; reflexivity] ].

(** X5. The issues come in the order of the checks: first those on the
    title, then description, keywords, isAI and author.  There are at
    most 9 issues and at most 4 recommendations, and never more
    recommendations than issues. *)
Theorem issues_in_check_order (toLowerCase : jsstring -> jsstring)
  (m : ImageMetadata) :
  let r := validateMetadata toLowerCase m in
  Sorted Z.le (map (fun i => rank (field i)) (issues r)) /\
  (length (issues r) <= 9)%nat /\
  (length (recommendations r) <= 4)%nat /\
  (length (recommendations r) <= length (issues r))%nat.
Proof.
  intros r. subst r.
  destruct (validate_assembled toLowerCase m) as (Hi & Hr & _).
  rewrite Hi, Hr. unfold checks. cbn [flat_map].
  rewrite !map_app, !length_app. cbn [map length app].
  assert (S1 := check_shape (title_length_check m) key_title 0
                  ltac:(unfold title_length_check; shape_premise)).
  assert (S2 := check_shape (title_words_check m) key_title 0
                  ltac:(unfold title_words_check; shape_premise)).
  assert (S3 := check_shape (description_check m) key_description 0
                  ltac:(unfold description_check; shape_premise)).
  assert (S4 := check_shape (keyword_count_check m) key_keywords 1
                  ltac:(unfold keyword_count_check; shape_premise)).
  assert (S5 := check_shape (duplicate_check toLowerCase m) key_keywords 1
                  ltac:(unfold duplicate_check; shape_premise)).
  assert (S6 := check_shape (short_keywords_check m) key_keywords 1
                  ltac:(unfold short_keywords_check; shape_premise)).
  assert (S7 := check_shape (compliance_check toLowerCase m) key_keywords 1
                  ltac:(unfold compliance_check; shape_premise)).
  assert (S8 := check_shape (ai_check m) key_isAI 0
                  ltac:(unfold ai_check; shape_premise)).
  assert (S9 := check_shape (author_check m) key_author 0
                  ltac:(unfold author_check; shape_premise)).
  destruct S1 as [(-> & -> & ->) | (-> & -> & ->)];
  destruct S2 as [(-> & -> & ->) | (-> & -> & ->)];
  destruct S3 as [(-> & -> & ->) | (-> & -> & ->)];
  destruct S4 as [(-> & -> & ->) | (-> & -> & ->)];
  destruct S5 as [(-> & -> & ->) | (-> & -> & ->)];
  destruct S6 as [(-> & -> & ->) | (-> & -> & ->)];
  destruct S7 as [(-> & -> & ->) | (-> & -> & ->)];
  destruct S8 as [(-> & -> & ->) | (-> & -> & ->)];
  destruct S9 as [(-> & -> & ->) | (-> & -> & ->)];
  cbn [app rank]; (split; [repeat constructor; lia | cbn; lia]).
Qed.

(* ===================================================================== *)
(** ** What the word count counts                                        *)
(* ===================================================================== *)

Lemma ends_with_space_cons (c : N) (s : jsstring) :
  ends_with_space (c :: s) =
  match s with
  | [] => isWhiteSpace c
  | _ :: _ => ends_with_space s
  end.
Proof.
  unfold ends_with_space. destruct s as [|d s]; [reflexivity|].
  cbn [rev]. destruct (rev s ++ [d]) as [|e l] eqn:E.
  - destruct (rev s); discriminate.
  - reflexivity.
Qed.

(** The number of pieces, by the state of the scan. *)
Lemma split_from_length (s cur : jsstring) :
  len (split_from cur false s)
  = 1 + count_words false s + b2z (ends_with_space s) /\
  len (split_from cur true s)
  = count_words true s
    + match s with [] => 1 | _ :: _ => b2z (ends_with_space s) end.
Proof.
  revert cur. induction s as [|c s IH]; intros cur.
  - split; reflexivity.
  - rewrite ends_with_space_cons. cbn [split_from count_words].
    destruct (isWhiteSpace c) eqn:W.
    + destruct (IH []) as [_ IHt]. destruct (IH cur) as [_ IHt'].
      split.
      * change (len (rev cur :: split_from [] true s))
          with (Z.of_nat (S (length (split_from [] true s)))).
        unfold len in IHt. rewrite Nat2Z.inj_succ, IHt.
        destruct s; cbn [count_words b2z]; lia.
      * rewrite IHt'. destruct s; cbn [count_words b2z]; lia.
    + destruct (IH (c :: cur)) as [IHf _]. rewrite IHf.
      destruct s; cbn [count_words b2z ends_with_space starts_with_space rev];
        split; lia.
Qed.

(** The number of pieces of [split(/\s+/)]: for the empty string 1, and
    otherwise the number of words plus one for white space at the start
    and one for white space at the end. *)
Lemma word_count_counts_padding (s : jsstring) :
  len (split_ws s) =
  match s with
  | [] => 1
  | _ :: _ =>
      count_words true s + b2z (starts_with_space s)
      + b2z (ends_with_space s)
  end /\
  1 <= len (split_ws s) /\
  count_words true s <= len (split_ws s).
Proof.
  assert (E : len (split_ws s) =
              match s with
              | [] => 1
              | _ :: _ =>
                  count_words true s + b2z (starts_with_space s)
                  + b2z (ends_with_space s)
              end).
  { unfold split_ws. destruct (split_from_length s []) as [H _].
    rewrite H. destruct s as [|c s]; [reflexivity|].
    cbn [count_words starts_with_space].
    destruct (isWhiteSpace c); cbn [b2z]; lia. }
  assert (Hnn : forall b t, 0 <= count_words b t).
  { intros b t. revert b. induction t as [|c t IH]; intros b; simpl; [lia|].
    destruct (isWhiteSpace c); [apply IH|].
    specialize (IH false). destruct b; lia. }
  split; [exact E|]. rewrite E. destruct s as [|c s].
  - cbn [count_words]. lia.
  - assert (H1 := Hnn true s). assert (H2 := Hnn false s).
    cbn [count_words starts_with_space].
    destruct (isWhiteSpace c), (ends_with_space (c :: s)); cbn [b2z]; lia.
Qed.

(* ===================================================================== *)
(** ** [MetadataPanel]: badge colour, shown issues, highlighted keywords  *)
(* ===================================================================== *)

(** The score reaches n exactly when the penalties stay below
    100 - n + 1/2. *)
Lemma score_ge_iff (toLowerCase : jsstring -> jsstring) (m : ImageMetadata)
  (n : Z) :
  0 < n <= 100 ->
  (Qle_bool (inject_Z n) (score (validateMetadata toLowerCase m)) = true <->
   (penalty_formula toLowerCase m <= inject_Z (100 - n) + (1 # 2))%Q).
Proof.
  intros Hn. assert (E := total_penalty_formula toLowerCase m).
  rewrite Qle_bool_iff, validate_score_Z, <- Zle_Qle, <- E.
  set (t := total_penalty (checks toLowerCase m)).
  assert (Hsub : (inject_Z (100 - n) == 100 - inject_Z n)%Q).
  { unfold Zminus. rewrite inject_Z_plus, inject_Z_opp.
    change (inject_Z 100) with 100%Q. ring. }
  split.
  - intros H.
    assert (Hf : n <= Qfloor (100 - t + (1 # 2))) by lia.
    assert (Hle := Qfloor_le (100 - t + (1 # 2))).
    rewrite Zle_Qle in Hf. lra.
  - intros H.
    assert (Hf : n <= Qfloor (100 - t + (1 # 2))).
    { apply Qfloor_ge. lra. }
    lia.
Qed.

Lemma scoreColor_cases (toLowerCase : jsstring -> jsstring)
  (m : ImageMetadata) :
  let p := penalty_formula toLowerCase m in
  let colour := MetadataPanel.scoreColor (validateMetadata toLowerCase m) in
  (colour = js "text-green-400 border-green-500/30 bg-green-500/10"
   <-> (p <= 10.5)%Q) /\
  (colour = js "text-yellow-400 border-yellow-500/30 bg-yellow-500/10"
   <-> (10.5 < p)%Q /\ (p <= 30.5)%Q) /\
  (colour = js "text-red-400 border-red-500/30 bg-red-500/10"
   <-> (30.5 < p)%Q).
Proof.
  intros p colour. subst colour. unfold MetadataPanel.scoreColor.
  assert (H90 := score_ge_iff toLowerCase m 90 ltac:(lia)).
  assert (H70 := score_ge_iff toLowerCase m 70 ltac:(lia)).
  fold p in H90, H70.
  change (inject_Z 90) with 90%Q in H90.
  change (inject_Z 70) with 70%Q in H70.
  change (inject_Z (100 - 90)) with 10%Q in H90.
  change (inject_Z (100 - 70)) with 30%Q in H70.
  destruct (Qle_bool 90 (score (validateMetadata toLowerCase m))) eqn:G.
  - assert (Hp : (p <= 10 + (1 # 2))%Q) by now apply H90.
    split; [|split].
    + split; [intros _; lra | reflexivity].
    + split; [intros H; vm_compute in H; discriminate H | intros [H _]; lra].
    + split; [intros H; vm_compute in H; discriminate H | intros H; lra].
  - assert (Hp : ~ (p <= 10 + (1 # 2))%Q).
    { intros H. apply H90 in H. discriminate H. }
    destruct (Qle_bool 70 (score (validateMetadata toLowerCase m))) eqn:Y.
    + assert (Hq : (p <= 30 + (1 # 2))%Q) by now apply H70.
      split; [|split].
      * split; [intros H; vm_compute in H; discriminate H | intros H; lra].
      * split; [intros _; split; lra | reflexivity].
      * split; [intros H; vm_compute in H; discriminate H | intros H; lra].
    + assert (Hq : ~ (p <= 30 + (1 # 2))%Q).
      { intros H. apply H70 in H. discriminate H. }
      split; [|split].
      * split; [intros H; vm_compute in H; discriminate H | intros H; lra].
      * split; [intros H; vm_compute in H; discriminate H
               | intros [_ H]; lra].
      * split; [intros _; lra | reflexivity].
Qed.

(** X7. The colour of the score badge is decided by the total penalty p
    of the closed formula: green when p <= 10.5, yellow when
    10.5 < p <= 30.5, red when p > 30.5. *)
Theorem scoreColor_by_penalty (toLowerCase : jsstring -> jsstring)
  (m : ImageMetadata) :
  let p := penalty_formula toLowerCase m in
  let colour := MetadataPanel.scoreColor (validateMetadata toLowerCase m) in
  (colour = js "text-green-400 border-green-500/30 bg-green-500/10"
   <-> (p <= 10.5)%Q) /\
  (colour = js "text-yellow-400 border-yellow-500/30 bg-yellow-500/10"
   <-> (10.5 < p)%Q /\ (p <= 30.5)%Q) /\
  (colour = js "text-red-400 border-red-500/30 bg-red-500/10"
   <-> (30.5 < p)%Q).
Proof. exact (scoreColor_cases toLowerCase m). Qed.

(** X8. A green badge does not mean that nothing blocks submission: with
    fewer than 30 keywords and a total penalty of at most 10.5 (up to 7
    missing keywords and nothing else) the badge is green although the
    issue list holds the keyword-count error. *)
Theorem green_badge_with_error (toLowerCase : jsstring -> jsstring)
  (m : ImageMetadata) :
  len (keywords m) < 30 ->
  (penalty_formula toLowerCase m <= 10.5)%Q ->
  MetadataPanel.scoreColor (validateMetadata toLowerCase m)
  = js "text-green-400 border-green-500/30 bg-green-500/10" /\
  (90 <= score (validateMetadata toLowerCase m))%Q /\
  exists i, In i (issues (validateMetadata toLowerCase m)) /\
            type i = error /\ field i = Some key_keywords.
Proof.
  intros HK Hp. split; [|split].
  - now apply (scoreColor_cases toLowerCase m).
  - apply Qle_bool_iff. change 90%Q with (inject_Z 90).
    apply score_ge_iff; [lia|]. change (inject_Z (100 - 90)) with 10%Q. lra.
  - destruct (keyword_count_emits m) as [(_ & E & _) | [(H & _) | (H & _)]];
      try lia.
    eexists. split.
    + apply (emitted_in_issues toLowerCase m _ _
               (keyword_count_check_in_checks toLowerCase m)).
      rewrite E. now left.
    + split; reflexivity.
Qed.

Lemma green_badge_with_error_witness :
  len (keywords keywords_29) < 30 /\
  (penalty_formula toLowerCase_ascii keywords_29 <= 10.5)%Q /\
  MetadataPanel.scoreColor (validateMetadata toLowerCase_ascii keywords_29)
  = js "text-green-400 border-green-500/30 bg-green-500/10".
Proof.
  assert (HK : len (keywords keywords_29) < 30) by reflexivity.
  assert (Hp : (penalty_formula toLowerCase_ascii keywords_29 <= 10.5)%Q)
    by (vm_compute; discriminate).
  split; [exact HK|]. split; [exact Hp|].
  apply (green_badge_with_error toLowerCase_ascii keywords_29 HK Hp).
Defined.

(** X9. A record with a denylisted term never gets the green badge, and
    with two or more denylisted terms the badge is red; a title longer
    than 70 code units excludes the green badge as well. *)
Theorem brands_exclude_green (toLowerCase : jsstring -> jsstring)
  (m : ImageMetadata) :
  let colour := MetadataPanel.scoreColor (validateMetadata toLowerCase m) in
  (1 <= len (foundBanned toLowerCase m) ->
   colour <> js "text-green-400 border-green-500/30 bg-green-500/10") /\
  (2 <= len (foundBanned toLowerCase m) ->
   colour = js "text-red-400 border-red-500/30 bg-red-500/10") /\
  (len (title m) > 70 ->
   colour <> js "text-green-400 border-green-500/30 bg-green-500/10").
Proof.
  intros colour. subst colour.
  destruct (scoreColor_cases toLowerCase m) as (G & _ & R).
  assert (E := total_penalty_formula toLowerCase m).
  assert (Hnn := penalties_nonneg toLowerCase m).
  assert (Hc := total_penalty_ge _ _ Hnn
                  (compliance_check_in_checks toLowerCase m)).
  assert (Ht := total_penalty_ge _ (title_length_check m) Hnn
                  ltac:(unfold checks; simpl; tauto)).
  rewrite E in Hc, Ht.
  assert (HP : (penalty (compliance_check toLowerCase m)
                == 25 * inject_Z (len (foundBanned toLowerCase m)))%Q).
  { destruct (compliance_emits toLowerCase m)
      as [(_ & _ & _ & P) | (H & _ & _ & P)]; rewrite P; [reflexivity|].
    rewrite H. reflexivity. }
  split; [|split].
  - intros H Hg. apply G in Hg. rewrite Zle_Qle in H.
    change (inject_Z 1) with 1%Q in H. lra.
  - intros H. apply R. rewrite Zle_Qle in H.
    change (inject_Z 2) with 2%Q in H. lra.
  - intros H Hg. apply G in Hg.
    destruct (title_length_emits m)
      as [(_ & _ & P) | [(H' & _) | (H' & _)]]; try lia.
    rewrite P in Ht. lra.
Qed.

Lemma brands_exclude_green_witness :
  2 <= len (foundBanned toLowerCase_ascii two_brands_title) /\
  MetadataPanel.scoreColor (validateMetadata toLowerCase_ascii two_brands_title)
  = js "text-red-400 border-red-500/30 bg-red-500/10".
Proof.
  assert (H : 2 <= len (foundBanned toLowerCase_ascii two_brands_title))
    by (vm_compute; discriminate).
  split; [exact H|].
  apply (proj1 (proj2 (brands_exclude_green toLowerCase_ascii
                         two_brands_title)) H).
Defined.

(** X10. The panel renders the first three issues only.  When the
    title-length check, the word-count check and the description check
    all fire, these are the three issues shown: no issue on the keywords
    field is rendered, and a trademark error, if there is one, is in the
    result but not on the screen. *)
Theorem shown_issues_hide_later_checks (toLowerCase : jsstring -> jsstring)
  (m : ImageMetadata) :
  let r := validateMetadata toLowerCase m in
  (length (MetadataPanel.shownIssues r) <= 3)%nat /\
  (len (title m) > 70 \/ len (title m) < 20 ->
   len (split_ws (title m)) < 5 ->
   len (split_ws (description m)) < 10 ->
   MetadataPanel.shownIssues r =
     emitted (title_length_check m) ++ emitted (title_words_check m)
     ++ emitted (description_check m) /\
   Forall (fun i => field i <> Some key_keywords)
          (MetadataPanel.shownIssues r) /\
   (foundBanned toLowerCase m <> [] ->
    exists i, In i (issues r) /\ type i = error /\
              field i = Some key_keywords /\
              ~ In i (MetadataPanel.shownIssues r))).
Proof.
  intros r. subst r. unfold MetadataPanel.shownIssues. split.
  { rewrite length_firstn. lia. }
  intros HL HW HD.
  assert (E : firstn 3 (issues (validateMetadata toLowerCase m)) =
              emitted (title_length_check m)
              ++ emitted (title_words_check m)
              ++ emitted (description_check m)).
  { rewrite validate_issues_split. cbn [flat_map].
    destruct (title_length_emits m)
      as [(_ & -> & _) | [(_ & -> & _) | (H & _)]]; try lia;
    destruct (title_words_emits m) as [(_ & -> & _) | (H & _)]; try lia;
    destruct (description_emits m) as [(_ & -> & _) | (H & _)]; try lia;
    reflexivity. }
  assert (F : Forall (fun i => field i <> Some key_keywords)
                (firstn 3 (issues (validateMetadata toLowerCase m)))).
  { rewrite E.
    destruct (title_length_emits m)
      as [(_ & -> & _) | [(_ & -> & _) | (_ & -> & _)]];
    destruct (title_words_emits m) as [(_ & -> & _) | (_ & -> & _)];
    destruct (description_emits m) as [(_ & -> & _) | (_ & -> & _)];
    repeat constructor; discriminate. }
  split; [exact E|]. split; [exact F|].
  intros Hne. apply len_pos_iff in Hne.
  destruct (compliance_emits toLowerCase m) as [(_ & Ec & _) | (H & _)];
    [|lia].
  eexists. split; [|split; [|split]].
  - apply (emitted_in_issues toLowerCase m _ _
             (compliance_check_in_checks toLowerCase m)).
    rewrite Ec. now left.
  - reflexivity.
  - reflexivity.
  - intros Hin. rewrite Forall_forall in F. now apply (F _ Hin).
Qed.

Lemma shown_issues_hide_later_checks_witness :
  len (title (with_title (js "iPhone") hostile)) < 20 /\
  len (split_ws (title (with_title (js "iPhone") hostile))) < 5 /\
  len (split_ws (description (with_title (js "iPhone") hostile))) < 10 /\
  Forall (fun i => field i <> Some key_keywords)
    (MetadataPanel.shownIssues
       (validateMetadata toLowerCase_ascii (with_title (js "iPhone") hostile))).
Proof.
  assert (H1 : len (title (with_title (js "iPhone") hostile)) < 20)
    by reflexivity.
  assert (H2 : len (split_ws (title (with_title (js "iPhone") hostile))) < 5)
    by reflexivity.
  assert (H3 : len (split_ws
                      (description (with_title (js "iPhone") hostile))) < 10)
    by reflexivity.
  split; [exact H1|]. split; [exact H2|]. split; [exact H3|].
  apply (proj2 (shown_issues_hide_later_checks toLowerCase_ascii
                  (with_title (js "iPhone") hostile))
           (or_intror H1) H2 H3).
Defined.

Lemma toLowerCase_ascii_app (a b : jsstring) :
  toLowerCase_ascii (a ++ b) = toLowerCase_ascii a ++ toLowerCase_ascii b.
Proof. apply map_app. Qed.

Lemma toLowerCase_ascii_idempotent (a : jsstring) :
  toLowerCase_ascii (toLowerCase_ascii a) = toLowerCase_ascii a.
Proof.
  unfold toLowerCase_ascii. rewrite map_map. apply map_ext. intros c.
  destruct ((65 <=? c) && (c <=? 90))%N eqn:U; [|now rewrite U].
  apply andb_true_iff in U. destruct U as [U1 U2].
  apply N.leb_le in U1, U2.
  assert (H : ((c + 32 <=? 90) = false)%N) by (apply N.leb_gt; lia).
  now rewrite H, andb_false_r.
Qed.

(* ===================================================================== *)
(** ** Data URLs: from [generateImage] to the metadata and quality calls  *)
(* ===================================================================== *)

Lemma after_spec (p s r : jsstring) :
  GenaiClient.after p s = Some r <-> s = p ++ r.
Proof.
  unfold GenaiClient.after. destruct (startsWith s p) eqn:E.
  - apply startsWith_spec in E. destruct E as [post ->].
    rewrite skipn_app, skipn_all, Nat.sub_diag. cbn [skipn app].
    split; [intros H; now injection H as -> | intros H].
    apply app_inv_head in H. now subst.
  - split; [discriminate|]. intros ->.
    assert (H : startsWith (p ++ r) p = true)
      by (apply startsWith_spec; now exists r).
    congruence.
Qed.

Lemma skipLetters_suffix (s : jsstring) :
  exists letters, s = letters ++ GenaiClient.skipLetters s.
Proof.
  induction s as [|c s [l IH]]; [now exists []|].
  cbn [GenaiClient.skipLetters]. destruct (GenaiClient.isLetter c).
  - exists (c :: l). cbn [app]. now rewrite <- IH.
  - now exists [].
Qed.

(** X12. Round trip of the client: stripping the prefix from the data URL
    that [generateImage] returns gives back the payload, whatever the
    payload is.  In general the result is a suffix of the argument, and
    an argument that does not begin with "data:image/" is returned
    unchanged. *)
Theorem client_base64Data_round_trip :
  (forall b64, GenaiClient.base64Data (dataUrl b64) = b64) /\
  (forall s, exists prefix, s = prefix ++ GenaiClient.base64Data s) /\
  (forall s, startsWith s (js "data:image/") = false ->
             GenaiClient.base64Data s = s).
Proof.
  split; [|split].
  - intros b64. unfold GenaiClient.base64Data, dataUrl.
    assert (E1 : GenaiClient.after (js "data:image/")
                   (js "data:image/png;base64," ++ b64)
                 = Some (js "png;base64," ++ b64)) by (now apply after_spec).
    rewrite E1. cbv zeta.
    assert (E2 : GenaiClient.skipLetters (js "png;base64," ++ b64)
                 = js ";base64," ++ b64) by reflexivity.
    rewrite E2.
    assert (E3 : (len (js ";base64," ++ b64) <? len (js "png;base64," ++ b64))
                 = true).
    { apply Z.ltb_lt. unfold len. rewrite !length_app. simpl. lia. }
    rewrite E3.
    assert (E4 : GenaiClient.after (js ";base64,") (js ";base64," ++ b64)
                 = Some b64) by (now apply after_spec).
    now rewrite E4.
  - intros s. unfold GenaiClient.base64Data.
    destruct (GenaiClient.after (js "data:image/") s) as [rest|] eqn:E1;
      [|now exists []].
    cbv zeta.
    destruct (len (GenaiClient.skipLetters rest) <? len rest);
      [|now exists []].
    destruct (GenaiClient.after (js ";base64,")
                (GenaiClient.skipLetters rest)) as [payload|] eqn:E2;
      [|now exists []].
    apply after_spec in E1. apply after_spec in E2.
    destruct (skipLetters_suffix rest) as [letters Hl].
    exists (js "data:image/" ++ letters ++ js ";base64,").
    rewrite E1 at 1. rewrite Hl at 1. rewrite E2.
    now rewrite <- !app_assoc.
  - intros s H. unfold GenaiClient.base64Data, GenaiClient.after.
    now rewrite H.
Qed.

Lemma client_base64Data_round_trip_witness :
  startsWith (js "QUJD") (js "data:image/") = false /\
  GenaiClient.base64Data (js "QUJD") = js "QUJD".
Proof.
  assert (H : startsWith (js "QUJD") (js "data:image/") = false)
    by reflexivity.
  split; [exact H|].
  apply (proj2 (proj2 client_base64Data_round_trip) (js "QUJD") H).
Defined.

Lemma split_at_no_sep (sep : N) (cur s : jsstring) :
  Forall (fun c => c <> sep) s -> split_at sep cur s = [rev cur ++ s].
Proof.
  intros H. revert cur. induction H as [|c s Hc Hs IH]; intros cur.
  - cbn. now rewrite app_nil_r.
  - cbn [split_at]. apply N.eqb_neq in Hc. rewrite Hc, IH. cbn [rev].
    now rewrite <- app_assoc.
Qed.

Lemma split_at_first (sep : N) (cur a b : jsstring) :
  Forall (fun c => c <> sep) a ->
  split_at sep cur (a ++ sep :: b) = (rev cur ++ a) :: split_at sep [] b.
Proof.
  intros H. revert cur. induction H as [|c s Hc Hs IH]; intros cur.
  - cbn. now rewrite N.eqb_refl, app_nil_r.
  - cbn [split_at app]. apply N.eqb_neq in Hc. rewrite Hc, IH. cbn [rev].
    now rewrite <- app_assoc.
Qed.

(** X13. Round trip of [geminiService.ts]: [split(',')[1] || imageBase64]
    gives back the payload of a data URL when the payload is not empty
    and has no comma, as base64 text has none.  For an empty payload it
    returns the whole data URL, and a string without a comma is returned
    unchanged. *)
Theorem service_base64Data_round_trip :
  (forall b64, b64 <> [] -> Forall (fun c => c <> 44%N) b64 ->
     GeminiService.base64Data (dataUrl b64) = b64) /\
  GeminiService.base64Data (dataUrl []) = dataUrl [] /\
  (forall s, Forall (fun c => c <> 44%N) s ->
     GeminiService.base64Data s = s).
Proof.
  split; [|split].
  - intros b64 Hne Hc. unfold GeminiService.base64Data, dataUrl, split_comma.
    change (js "data:image/png;base64," ++ b64)
      with (js "data:image/png;base64" ++ 44%N :: b64).
    rewrite split_at_first by (vm_compute; repeat constructor; discriminate).
    rewrite (split_at_no_sep _ _ _ Hc). cbn [nth_error rev app or_else].
    destruct b64; [congruence | reflexivity].
  - reflexivity.
  - intros s Hc. unfold GeminiService.base64Data, split_comma.
    rewrite (split_at_no_sep _ _ _ Hc). reflexivity.
Qed.

Lemma service_base64Data_round_trip_witness :
  js "QUJD" <> [] /\
  Forall (fun c => c <> 44%N) (js "QUJD") /\
  GeminiService.base64Data (dataUrl (js "QUJD")) = js "QUJD".
Proof.
  assert (H1 : js "QUJD" <> []) by discriminate.
  assert (H2 : Forall (fun c => c <> 44%N) (js "QUJD"))
    by (repeat constructor; discriminate).
  split; [exact H1|]. split; [exact H2|].
  apply (proj1 service_base64Data_round_trip (js "QUJD") H1 H2).
Defined.

(* ===================================================================== *)
(** ** The sanitization of [generateMetadata]                            *)
(* ===================================================================== *)

Lemma or_else_truthy (x : option jsstring) (y : jsstring) :
  y <> [] -> or_else x y <> [].
Proof.
  intros Hy. destruct x as [[|c s]|]; cbn; try assumption. discriminate.
Qed.

Lemma or_else_some (s : jsstring) : or_else (Some s) [] = s.
Proof. now destruct s. Qed.

Lemma NoDup_firstn_list {A : Type} (n : nat) (l : list A) :
  NoDup l -> NoDup (firstn n l).
Proof.
  intros H. rewrite <- (firstn_skipn n l) in H.
  now apply NoDup_app_remove_r in H.
Qed.

Lemma fold_Set_add_fresh (xs acc : list jsstring) :
  NoDup (acc ++ xs) -> fold_left Set_add xs acc = acc ++ xs.
Proof.
  revert acc. induction xs as [|x xs IH]; intros acc H; cbn [fold_left].
  - now rewrite app_nil_r.
  - assert (Hx : ~ In x acc).
    { intros Hin. apply NoDup_remove_2 in H. apply H.
      apply in_or_app. now left. }
    assert (E : Set_add acc x = acc ++ [x]).
    { unfold Set_add. destruct (existsb (jsstring_eqb x) acc) eqn:B;
        [|reflexivity]. apply existsb_eqb_In in B. contradiction. }
    rewrite E, IH; rewrite <- app_assoc; [reflexivity | exact H].
Qed.

Lemma new_Set_fresh (xs : list jsstring) : NoDup xs -> new_Set xs = xs.
Proof. intros H. unfold new_Set. now rewrite fold_Set_add_fresh. Qed.

Lemma sanitize_invariants_keywords (parsed : GenaiClient.Parsed)
  (params_author : option jsstring) :
  NoDup (keywords (GenaiClient.sanitize parsed params_author)) /\
  len (keywords (GenaiClient.sanitize parsed params_author)) <= 50.
Proof.
  unfold GenaiClient.sanitize. cbn [keywords]. split.
  - apply NoDup_firstn_list. exact (proj1 (new_Set_spec _)).
  - unfold len. rewrite length_firstn. lia.
Qed.

(** X14. Whatever the model answers, the record that [generateMetadata]
    returns has pairwise distinct keywords, at most 50 of them, a title of
    at most 140 code units and a non-empty author; and it is marked as AI
    content only if the answer said [true] or ["true"]. *)
Theorem sanitize_invariants (parsed : GenaiClient.Parsed)
  (params_author : option jsstring) :
  let m := GenaiClient.sanitize parsed params_author in
  NoDup (keywords m) /\
  len (keywords m) <= 50 /\
  len (title m) <= 140 /\
  author m <> [] /\
  (isAI m = true <->
   GenaiClient.parsed_isAI parsed = GenaiClient.isAI_boolean true \/
   GenaiClient.parsed_isAI parsed = GenaiClient.isAI_string (js "true")).
Proof.
  intros m. subst m. unfold GenaiClient.sanitize.
  cbn [keywords title author isAI].
  split; [|split; [|split; [|split]]].
  - apply NoDup_firstn_list. exact (proj1 (new_Set_spec _)).
  - unfold len. rewrite length_firstn. lia.
  - unfold len. rewrite length_firstn. lia.
  - apply or_else_truthy, or_else_truthy. discriminate.
  - destruct (GenaiClient.parsed_isAI parsed) as [b | s |].
    + split; [intros ->; now left | intros [H | H]; congruence].
    + rewrite jsstring_eqb_eq. split; [intros ->; now right|].
      intros [H | H]; congruence.
    + split; [discriminate | intros [H | H]; discriminate].
Qed.

(** X15. The validator on a record from [generateMetadata]: the
    keyword-count check can only report a shortfall, never more than 50
    keywords; when the answer does not say that the content is AI the
    disclosure warning is reported and the score is at most 90; and when
    neither the answer nor the parameters name an author, the author
    check is silent. *)
Theorem validate_after_sanitize (toLowerCase : jsstring -> jsstring)
  (parsed : GenaiClient.Parsed) (params_author : option jsstring) :
  let m := GenaiClient.sanitize parsed params_author in
  (emitted (keyword_count_check m) = [] \/ len (keywords m) < 30) /\
  (GenaiClient.parsed_isAI parsed = GenaiClient.isAI_other ->
   In (issue warning
         (js "isAI flag is false. Most platforms now require marking AI content explicitly.")
         key_isAI)
      (issues (validateMetadata toLowerCase m)) /\
   (score (validateMetadata toLowerCase m) <= 90)%Q) /\
  (GenaiClient.parsed_author parsed = None -> params_author = None ->
   emitted (author_check m) = []).
Proof.
  intros m.
  destruct (sanitize_invariants_keywords parsed params_author) as [_ HK].
  fold m in HK. split; [|split].
  - destruct (keyword_count_emits m) as [(H & _) | [(H & _) | (_ & E & _)]];
      [now right | lia | now left].
  - intros HA.
    assert (Hai : isAI m = false).
    { subst m. unfold GenaiClient.sanitize. cbn [isAI]. now rewrite HA. }
    destruct (ai_emits m) as [(_ & E & _ & P) | (H & _)]; [|congruence].
    assert (Hin : In (ai_check m) (checks toLowerCase m))
      by (unfold checks; simpl; tauto).
    split.
    + apply (emitted_in_issues toLowerCase m _ _ Hin). rewrite E. now left.
    + change 90%Q with (inject_Z (100 - 10)). apply score_upper; [|lia].
      assert (Hge := total_penalty_ge _ _ (penalties_nonneg toLowerCase m)
                       Hin).
      change (inject_Z 10) with 10%Q. lra.
  - intros H1 H2.
    assert (Hau : author m = js "{{author}}").
    { subst m. unfold GenaiClient.sanitize. cbn [author].
      now rewrite H1, H2. }
    destruct (author_emits m) as [(H & _) | (_ & E & _)]; [|exact E].
    rewrite Hau in H. vm_compute in H. discriminate H.
Qed.

Lemma validate_after_sanitize_witness :
  GenaiClient.parsed_isAI
    {| GenaiClient.parsed_title := None;
       GenaiClient.parsed_description := None;
       GenaiClient.parsed_keywords :=
         GenaiClient.keywords_string (js "lake, Lake ,lake");
       GenaiClient.parsed_keywordAnalysis := None;
       GenaiClient.parsed_category := [];
       GenaiClient.parsed_contentType := Photography;
       GenaiClient.parsed_author := None;
       GenaiClient.parsed_isAI := GenaiClient.isAI_other |}
  = GenaiClient.isAI_other /\
  (score (validateMetadata toLowerCase_ascii
            (GenaiClient.sanitize
               {| GenaiClient.parsed_title := None;
                  GenaiClient.parsed_description := None;
                  GenaiClient.parsed_keywords :=
                    GenaiClient.keywords_string (js "lake, Lake ,lake");
                  GenaiClient.parsed_keywordAnalysis := None;
                  GenaiClient.parsed_category := [];
                  GenaiClient.parsed_contentType := Photography;
                  GenaiClient.parsed_author := None;
                  GenaiClient.parsed_isAI := GenaiClient.isAI_other |}
               None)) <= 90)%Q.
Proof.
  split; [reflexivity|].
  apply (proj1 (proj2 (validate_after_sanitize toLowerCase_ascii _ None))).
  reflexivity.
Defined.

(** X16. A record that already has pairwise distinct keywords, at most 50
    of them, a title of at most 140 code units and a non-empty author is
    returned unchanged when it comes back as the model's answer; so
    sanitizing twice is the same as sanitizing once. *)
Theorem sanitize_fixed_point :
  (forall (m : ImageMetadata) (params_author : option jsstring),
     NoDup (keywords m) -> len (keywords m) <= 50 ->
     len (title m) <= 140 -> author m <> [] ->
     GenaiClient.sanitize (response_of m) params_author = m) /\
  (forall (parsed : GenaiClient.Parsed) (a a' : option jsstring),
     GenaiClient.sanitize (response_of (GenaiClient.sanitize parsed a)) a'
     = GenaiClient.sanitize parsed a).
Proof.
  assert (Hfix : forall (m : ImageMetadata) (params_author : option jsstring),
             NoDup (keywords m) -> len (keywords m) <= 50 ->
             len (title m) <= 140 -> author m <> [] ->
             GenaiClient.sanitize (response_of m) params_author = m).
  { intros m pa Hnd Hk Ht Ha. destruct m as [t d ks c ct ai au ka].
    unfold GenaiClient.sanitize, response_of.
    cbn [GenaiClient.parsed_title GenaiClient.parsed_description
         GenaiClient.parsed_keywords GenaiClient.parsed_keywordAnalysis
         GenaiClient.parsed_category GenaiClient.parsed_contentType
         GenaiClient.parsed_author GenaiClient.parsed_isAI
         title description keywords category contentType isAI author
         keywordAnalysis] in *.
    rewrite !or_else_some, (new_Set_fresh _ Hnd).
    unfold len in Hk, Ht.
    rewrite !firstn_all2 by lia.
    destruct au as [|x au]; [congruence | reflexivity]. }
  split; [exact Hfix|].
  intros parsed a a'.
  destruct (sanitize_invariants_keywords parsed a) as [Hnd Hk].
  apply Hfix; try assumption.
  - unfold GenaiClient.sanitize. cbn [title]. unfold len.
    rewrite length_firstn. lia.
  - unfold GenaiClient.sanitize. cbn [author].
    apply or_else_truthy, or_else_truthy. discriminate.
Qed.

Lemma sanitize_fixed_point_witness :
  NoDup (keywords clean) /\ len (keywords clean) <= 50 /\
  len (title clean) <= 140 /\ author clean <> [] /\
  GenaiClient.sanitize (response_of clean) None = clean.
Proof.
  assert (H1 : NoDup (keywords clean))
    by (apply new_Set_spec; vm_compute; reflexivity).
  assert (H2 : len (keywords clean) <= 50) by (vm_compute; discriminate).
  assert (H3 : len (title clean) <= 140) by (vm_compute; discriminate).
  assert (H4 : author clean <> []) by discriminate.
  split; [exact H1|]. split; [exact H2|]. split; [exact H3|].
  split; [exact H4|].
  apply (proj1 sanitize_fixed_point clean None H1 H2 H3 H4).
Defined.

(* ===================================================================== *)
(** ** [buildEnhancedPrompt], in both services                           *)
(* ===================================================================== *)

(** X17. The client version of [buildEnhancedPrompt] is the service
    version applied to the trimmed prompt.  Its result starts with the
    trimmed prompt, and is the trimmed prompt alone exactly when the style
    is None and the microstock optimization is off. *)
Theorem buildEnhancedPrompt_client_vs_service (params : GenerationParams) :
  GenaiClient.buildEnhancedPrompt params
  = GeminiService.buildEnhancedPrompt (with_trimmed_prompt params) /\
  exists suffix,
    GenaiClient.buildEnhancedPrompt params = trim (prompt params) ++ suffix /\
    (suffix = [] <->
     style params = NONE /\ optimizeForMicrostock params = false).
Proof.
  assert (Hc : forall st,
             truthy (StylePreset_value st)
             && negb (jsstring_eqb (StylePreset_value st)
                                   (StylePreset_value NONE))
             = match st with NONE => false | _ => true end)
    by (intros []; vm_compute; reflexivity).
  assert (Hs : forall st,
             negb (jsstring_eqb (StylePreset_value st)
                                (StylePreset_value NONE))
             = match st with NONE => false | _ => true end)
    by (intros []; vm_compute; reflexivity).
  destruct params as [p ar q st opt].
  unfold GenaiClient.buildEnhancedPrompt, GeminiService.buildEnhancedPrompt,
    with_trimmed_prompt.
  cbn [prompt style optimizeForMicrostock]. rewrite or_else_some, Hc, Hs.
  split; [reflexivity|].
  destruct st, opt; cbv zeta iota.
  2: { exists []. rewrite app_nil_r. split; [reflexivity|].
       split; [intros _; split; reflexivity | reflexivity]. }
  all: eexists; split;
    [ rewrite <- ?app_assoc; reflexivity
    | split; [intros H; vm_compute in H; discriminate H
             | intros [H1 H2]; discriminate ] ].
Qed.

(* ===================================================================== *)
(** ** [App]: history and current image                                  *)
(* ===================================================================== *)

Lemma jsstring_eqb_refl (s : jsstring) : jsstring_eqb s s = true.
Proof. now apply jsstring_eqb_eq. Qed.

Lemma jsstring_eqb_neq (s t : jsstring) : jsstring_eqb s t = false <-> s <> t.
Proof.
  rewrite <- jsstring_eqb_eq. destruct (jsstring_eqb s t); split; congruence.
Qed.

(** X18. Every handler keeps the image on display among the entries of
    the history: generating, selecting an entry, attaching metadata or a
    quality assessment, and deleting. *)
Theorem current_image_stays_in_history (st : App.State) :
  consistent st ->
  (forall img, consistent (App.handleGenerate img st)) /\
  (forall img, In img (App.history st) -> consistent (App.select img st)) /\
  (forall i m, consistent (App.updateImageMetadata i m st)) /\
  (forall i a, consistent (App.updateImageAssessment i a st)) /\
  (forall i, consistent (App.handleDelete i st)).
Proof.
  unfold consistent. intros H. split; [|split; [|split; [|split]]].
  - intros img. cbn. now left.
  - intros img Hin. exact Hin.
  - intros i m. cbn [App.updateImageMetadata App.currentImage App.history].
    destruct (App.currentImage st) as [prev|]; [|exact I].
    destruct (jsstring_eqb (App.id prev) i) eqn:E.
    + apply in_map_iff. exists prev. now rewrite E.
    + apply in_map_iff. exists prev. now rewrite E.
  - intros i a. cbn [App.updateImageAssessment App.currentImage App.history].
    destruct (App.currentImage st) as [prev|]; [|exact I].
    destruct (jsstring_eqb (App.id prev) i) eqn:E.
    + apply in_map_iff. exists prev. now rewrite E.
    + apply in_map_iff. exists prev. now rewrite E.
  - intros i. cbn [App.handleDelete App.currentImage App.history].
    destruct (App.currentImage st) as [cur|]; [|exact I].
    destruct (jsstring_eqb (App.id cur) i) eqn:E; [exact I|].
    apply filter_In. now rewrite E.
Qed.

Lemma current_image_stays_in_history_witness :
  consistent (App.handleGenerate (sample_image (js "a"))
                {| App.history := []; App.currentImage := None |}) /\
  consistent
    (App.handleDelete (js "a")
       (App.handleGenerate (sample_image (js "a"))
          {| App.history := []; App.currentImage := None |})).
Proof.
  assert (H0 : consistent {| App.history := []; App.currentImage := None |})
    by exact I.
  assert (H1 := proj1 (current_image_stays_in_history _ H0)
                  (sample_image (js "a"))).
  split; [exact H1|].
  apply (current_image_stays_in_history _ H1).
Defined.

(** X19. Metadata or an assessment that arrives for an image that has
    been deleted in the meantime changes nothing. *)
Theorem late_update_after_delete (st : App.State) (i : jsstring)
  (m : ImageMetadata) (a : App.QualityAssessment) :
  App.updateImageMetadata i m (App.handleDelete i st)
  = App.handleDelete i st /\
  App.updateImageAssessment i a (App.handleDelete i st)
  = App.handleDelete i st.
Proof.
  assert (Hid : forall f : App.GeneratedImage -> App.GeneratedImage,
             (forall img, jsstring_eqb (App.id img) i = false ->
                          f img = img) ->
             map f (filter (fun img => negb (jsstring_eqb (App.id img) i))
                      (App.history st))
             = filter (fun img => negb (jsstring_eqb (App.id img) i))
                 (App.history st)).
  { intros f Hf. rewrite <- (map_id (filter _ _)) at 2.
    apply map_ext_in. intros img Hin. apply filter_In in Hin.
    destruct Hin as [_ Hne]. apply negb_true_iff in Hne. now apply Hf. }
  split.
  - unfold App.updateImageMetadata, App.handleDelete.
    cbn [App.history App.currentImage]. f_equal.
    + apply Hid. intros img E. now rewrite E.
    + destruct (App.currentImage st) as [cur|]; [|reflexivity].
      destruct (jsstring_eqb (App.id cur) i) eqn:E; [reflexivity|].
      now rewrite E.
  - unfold App.updateImageAssessment, App.handleDelete.
    cbn [App.history App.currentImage]. f_equal.
    + apply Hid. intros img E. now rewrite E.
    + destruct (App.currentImage st) as [cur|]; [|reflexivity].
      destruct (jsstring_eqb (App.id cur) i) eqn:E; [reflexivity|].
      now rewrite E.
Qed.

(** X20. Deleting removes every entry with the given identifier and keeps
    the other entries; the image on display is cleared exactly when it
    has that identifier; deleting twice is deleting once. *)
Theorem handleDelete_removes (st : App.State) (i : jsstring) :
  (forall img, In img (App.history (App.handleDelete i st)) <->
               In img (App.history st) /\ App.id img <> i) /\
  (App.currentImage (App.handleDelete i st) = None <->
   App.currentImage st = None \/
   exists cur, App.currentImage st = Some cur /\ App.id cur = i) /\
  App.handleDelete i (App.handleDelete i st) = App.handleDelete i st.
Proof.
  split; [|split].
  - intros img. cbn [App.handleDelete App.history].
    now rewrite filter_In, negb_true_iff, jsstring_eqb_neq.
  - cbn [App.handleDelete App.currentImage].
    destruct (App.currentImage st) as [cur|]; [|tauto].
    destruct (jsstring_eqb (App.id cur) i) eqn:E.
    + apply jsstring_eqb_eq in E. split; [|reflexivity].
      intros _. right. now exists cur.
    + apply jsstring_eqb_neq in E. split; [discriminate|].
      intros [H | (c & H & Hc)]; [discriminate|]. congruence.
  - unfold App.handleDelete. cbn [App.history App.currentImage]. f_equal.
    + induction (App.history st) as [|img l IH]; [reflexivity|].
      cbn [filter]. destruct (jsstring_eqb (App.id img) i) eqn:E;
        cbn [negb]; [exact IH|].
      cbn [filter]. rewrite E. cbn [negb]. now rewrite IH.
    + destruct (App.currentImage st) as [cur|]; [|reflexivity].
      destruct (jsstring_eqb (App.id cur) i) eqn:E; [reflexivity|].
      now rewrite E.
Qed.

(** X21. Attaching metadata keeps the identifiers of the history in their
    order; a second result for the same image replaces the first; and
    attaching metadata and attaching an assessment commute, whatever the
    two identifiers. *)
Theorem updates_compose (st : App.State) (i j : jsstring)
  (m1 m2 : ImageMetadata) (a : App.QualityAssessment) :
  map App.id (App.history (App.updateImageMetadata i m1 st))
  = map App.id (App.history st) /\
  App.updateImageMetadata i m2 (App.updateImageMetadata i m1 st)
  = App.updateImageMetadata i m2 st /\
  App.updateImageMetadata i m1 (App.updateImageAssessment j a st)
  = App.updateImageAssessment j a (App.updateImageMetadata i m1 st).
Proof.
  split; [|split].
  - cbn [App.updateImageMetadata App.history]. rewrite map_map.
    apply map_ext. intros img.
    now destruct (jsstring_eqb (App.id img) i).
  - unfold App.updateImageMetadata. cbn [App.history App.currentImage].
    f_equal.
    + rewrite map_map. apply map_ext. intros img.
      destruct (jsstring_eqb (App.id img) i) eqn:E.
      * cbn [App.with_metadata App.id]. now rewrite E.
      * now rewrite E.
    + destruct (App.currentImage st) as [prev|]; [|reflexivity].
      destruct (jsstring_eqb (App.id prev) i) eqn:E.
      * cbn [App.with_metadata App.id]. now rewrite E.
      * now rewrite E.
  - unfold App.updateImageMetadata, App.updateImageAssessment.
    cbn [App.history App.currentImage]. f_equal.
    + rewrite !map_map. apply map_ext. intros img.
      destruct (jsstring_eqb (App.id img) i) eqn:E,
               (jsstring_eqb (App.id img) j) eqn:F;
        cbn [App.with_metadata App.with_assessment App.id];
        rewrite ?E, ?F; reflexivity.
    + destruct (App.currentImage st) as [prev|]; [|reflexivity].
      destruct (jsstring_eqb (App.id prev) i) eqn:E,
               (jsstring_eqb (App.id prev) j) eqn:F;
        cbn [App.with_metadata App.with_assessment App.id];
        rewrite ?E, ?F; reflexivity.
Qed.

(** X22. When metadata arrives for the image on display, the panel shows
    the validation of exactly that metadata; when it arrives for another
    image, the image on display is untouched. *)
Theorem panel_validates_arrived_metadata
  (toLowerCase : jsstring -> jsstring) (st : App.State)
  (cur : App.GeneratedImage) (i : jsstring) (m : ImageMetadata) :
  App.currentImage st = Some cur ->
  (App.id cur = i ->
   exists shown,
     App.currentImage (App.updateImageMetadata i m st) = Some shown /\
     App.id shown = i /\
     MetadataPanel.validation toLowerCase (App.metadata shown)
     = Some (validateMetadata toLowerCase m)) /\
  (App.id cur <> i ->
   App.currentImage (App.updateImageMetadata i m st) = Some cur).
Proof.
  intros Hc. cbn [App.updateImageMetadata App.currentImage]. rewrite Hc.
  split.
  - intros E. apply jsstring_eqb_eq in E. rewrite E.
    exists (App.with_metadata cur m). split; [reflexivity|].
    split; [now apply jsstring_eqb_eq | reflexivity].
  - intros E. apply jsstring_eqb_neq in E. now rewrite E.
Qed.

Lemma panel_validates_arrived_metadata_witness :
  App.currentImage
    (App.handleGenerate (sample_image (js "a"))
       {| App.history := []; App.currentImage := None |})
  = Some (sample_image (js "a")) /\
  exists shown,
    App.currentImage
      (App.updateImageMetadata (js "a") clean
         (App.handleGenerate (sample_image (js "a"))
            {| App.history := []; App.currentImage := None |}))
    = Some shown /\
    App.id shown = js "a" /\
    MetadataPanel.validation toLowerCase_ascii (App.metadata shown)
    = Some (validateMetadata toLowerCase_ascii clean).
Proof.
  split; [reflexivity|].
  apply (proj1 (panel_validates_arrived_metadata toLowerCase_ascii
                  (App.handleGenerate (sample_image (js "a"))
                     {| App.history := []; App.currentImage := None |})
                  (sample_image (js "a")) (js "a") clean eq_refl)).
  reflexivity.
Defined.

(* ===================================================================== *)
(** ** Keywords as comma-separated text                                  *)
(* ===================================================================== *)

Lemma split_comma_join (pre k : jsstring) (rest : list jsstring) :
  Forall (fun c => c <> 44%N) pre ->
  Forall (fun x => Forall (fun c => c <> 44%N) x) (k :: rest) ->
  split_at 44%N [] (pre ++ join (js ", ") (k :: rest))
  = (pre ++ k) :: map (fun x => 32%N :: x) rest.
Proof.
  revert pre k. induction rest as [|k2 rest IH]; intros pre k Hpre Hks.
  - cbn [join map]. rewrite split_at_no_sep; [reflexivity|].
    apply Forall_app. split; [exact Hpre | now inversion Hks].
  - change (join (js ", ") (k :: k2 :: rest))
      with (k ++ 44%N :: [32%N] ++ join (js ", ") (k2 :: rest)).
    rewrite app_assoc, split_at_first.
    + cbn [rev app].
      change (32%N :: join (js ", ") (k2 :: rest))
        with ([32%N] ++ join (js ", ") (k2 :: rest)).
      rewrite IH.
      * reflexivity.
      * repeat constructor. discriminate.
      * now inversion Hks.
    + apply Forall_app. split; [exact Hpre | now inversion Hks].
Qed.

Lemma trim_leading_space (s : jsstring) : trim (32%N :: s) = trim s.
Proof. reflexivity. Qed.

(** X23. The comma-separated text that the panel's "Copy CSV" produces
    is read back by the string branch of the sanitization: for a
    non-empty list of at most 50 distinct keywords without commas and
    without white space at their ends, the keywords come back as they
    were. *)
Theorem csv_keywords_round_trip (ks : list jsstring)
  (parsed : GenaiClient.Parsed) (params_author : option jsstring) :
  ks <> [] ->
  NoDup ks ->
  (length ks <= 50)%nat ->
  Forall (fun k => Forall (fun c => c <> 44%N) k /\ trim k = k) ks ->
  GenaiClient.parsed_keywords parsed
  = GenaiClient.keywords_string (MetadataPanel.formatKeywords ks) ->
  GenaiClient.parsed_keywordAnalysis parsed = None ->
  keywords (GenaiClient.sanitize parsed params_author) = ks.
Proof.
  intros Hne Hnd Hlen Hks Hp Hka.
  unfold GenaiClient.sanitize. cbn [keywords]. rewrite Hp, Hka.
  unfold MetadataPanel.formatKeywords, split_comma.
  destruct ks as [|k rest]; [congruence|].
  assert (Hc : Forall (fun x => Forall (fun c => c <> 44%N) x) (k :: rest)).
  { revert Hks. apply Forall_impl. tauto. }
  assert (Ht : Forall (fun x => trim x = x) (k :: rest)).
  { revert Hks. apply Forall_impl. tauto. }
  change (join (js ", ") (k :: rest))
    with ([] ++ join (js ", ") (k :: rest)).
  rewrite (split_comma_join [] k rest (Forall_nil _) Hc).
  cbn [app map]. rewrite map_map.
  assert (E : map (fun x => trim (32%N :: x)) rest = rest).
  { inversion Ht as [|? ? _ Hr]; subst. clear -Hr.
    induction Hr as [|x l Hx Hl IH]; [reflexivity|].
    cbn [map]. now rewrite trim_leading_space, Hx, IH. }
  rewrite E. inversion Ht as [|? ? Hk _]; subst. rewrite Hk.
  rewrite (new_Set_fresh _ Hnd). apply firstn_all2. exact Hlen.
Qed.

Lemma csv_keywords_round_trip_witness :
  keywords
    (GenaiClient.sanitize
       {| GenaiClient.parsed_title := None;
          GenaiClient.parsed_description := None;
          GenaiClient.parsed_keywords :=
            GenaiClient.keywords_string
              (MetadataPanel.formatKeywords thirty_keywords);
          GenaiClient.parsed_keywordAnalysis := None;
          GenaiClient.parsed_category := [];
          GenaiClient.parsed_contentType := Photography;
          GenaiClient.parsed_author := None;
          GenaiClient.parsed_isAI := GenaiClient.isAI_other |} None)
  = thirty_keywords.
Proof.
  apply (csv_keywords_round_trip thirty_keywords).
  - discriminate.
  - apply new_Set_spec. vm_compute. reflexivity.
  - vm_compute. repeat constructor.
  - repeat constructor; try discriminate; vm_compute; reflexivity.
  - reflexivity.
  - reflexivity.
Defined.

(* ===================================================================== *)
(** ** The result, check by check                                        *)
(* ===================================================================== *)

Lemma validate_issues_by_block (toLowerCase : jsstring -> jsstring)
  (m : ImageMetadata) :
  issues (validateMetadata toLowerCase m) =
    emitted (title_length_check m) ++ emitted (title_words_check m)
    ++ emitted (description_check m) ++ emitted (keyword_count_check m)
    ++ emitted (duplicate_check toLowerCase m)
    ++ emitted (short_keywords_check m)
    ++ emitted (compliance_check toLowerCase m)
    ++ emitted (ai_check m) ++ emitted (author_check m).
Proof.
  destruct (validate_assembled toLowerCase m) as (Hi & _ & _).
  rewrite Hi. unfold checks. cbn [flat_map]. rewrite app_nil_r. reflexivity.
Qed.

Lemma flat_map_step {A B : Type} (f : A -> list B) (x : A) (l : list A) :
  flat_map f (x :: l) = f x ++ flat_map f l.
Proof. reflexivity. Qed.

Lemma validate_recommendations_by_block (toLowerCase : jsstring -> jsstring)
  (m : ImageMetadata) :
  recommendations (validateMetadata toLowerCase m) =
    advised (keyword_count_check m)
    ++ advised (duplicate_check toLowerCase m)
    ++ advised (short_keywords_check m)
    ++ advised (compliance_check toLowerCase m).
Proof.
  destruct (validate_assembled toLowerCase m) as (_ & Hr & _).
  assert (A3 : advised (description_check m) = [])
    by (destruct (description_emits m) as [(_ & _ & A & _) | (_ & _ & A & _)];
        exact A).
  assert (A8 : advised (ai_check m) = [])
    by (destruct (ai_emits m) as [(_ & _ & A & _) | (_ & _ & A & _)];
        exact A).
  assert (A9 : advised (author_check m) = [])
    by (destruct (author_emits m) as [(_ & _ & A & _) | (_ & _ & A & _)];
        exact A).
  rewrite Hr. unfold checks. rewrite !flat_map_step.
  rewrite title_length_advises_nothing, title_words_advises_nothing,
    A3, A8, A9.
  change (flat_map advised []) with (@nil jsstring).
  rewrite !app_nil_l, !app_nil_r. reflexivity.
Qed.

Lemma validate_raw_score_by_block (toLowerCase : jsstring -> jsstring)
  (m : ImageMetadata) :
  (cur_score (body toLowerCase m)
   == 100 - block_penalties toLowerCase m)%Q.
Proof.
  assert (E : (total_penalty (checks toLowerCase m)
               == block_penalties toLowerCase m)%Q)
    by apply total_penalty_checks.
  rewrite body_score, E. reflexivity.
Qed.

Lemma validate_score_by_block (toLowerCase : jsstring -> jsstring)
  (m : ImageMetadata) :
  score (validateMetadata toLowerCase m) =
    Math_max 0 (Math_min 100
      (Math_round (100 - block_penalties toLowerCase m))).
Proof.
  destruct (validate_assembled toLowerCase m) as (_ & _ & Hs).
  assert (E : (total_penalty (checks toLowerCase m)
               == block_penalties toLowerCase m)%Q)
    by apply total_penalty_checks.
  rewrite Hs. f_equal. f_equal. apply Math_round_compat. rewrite E.
  reflexivity.
Qed.

Lemma validate_from_blocks (toLowerCase : jsstring -> jsstring)
  (m : ImageMetadata) : from_blocks toLowerCase m.
Proof.
  exact (conj (validate_issues_by_block toLowerCase m)
          (conj (validate_recommendations_by_block toLowerCase m)
             (conj (validate_raw_score_by_block toLowerCase m)
                (validate_score_by_block toLowerCase m)))).
Qed.

Lemma exactly_one_intro (P : ValidationIssue -> bool) (i : ValidationIssue)
  (pre post l : list ValidationIssue) :
  l = pre ++ [i] ++ post -> P i = true ->
  Forall (fun x => P x = false) pre ->
  Forall (fun x => P x = false) post ->
  exactly_one P i l.
Proof. intros E Hi Hpre Hpost. split; [exact Hi|]. now exists pre, post. Qed.

(** Decides the tests of a check and evaluates a classifier on what each
    branch emits. *)
Ltac other_kind :=
  cbv zeta;
  repeat match goal with
         | |- context [if ?c then _ else _] => destruct c
         end;
  unfold emitted, seq, skip, issues_push, recommendations_push,
    score_minus, entry;
  cbn [cur_issues app];
  repeat constructor.

Section Kinds.

Variable toLowerCase : jsstring -> jsstring.
Variable m : ImageMetadata.
Variable P : ValidationIssue -> bool.

(** A classifier of issues on the keywords field rejects what the checks
    on the other fields emit. *)
Hypothesis P_keywords : forall i, field i <> Some key_keywords -> P i = false.

Lemma other_fields_before :
  Forall (fun x => P x = false)
    (emitted (title_length_check m) ++ emitted (title_words_check m)
     ++ emitted (description_check m)).
Proof.
  apply Forall_app; split; [|apply Forall_app; split].
  - unfold title_length_check; other_kind; apply P_keywords; discriminate.
  - unfold title_words_check; other_kind; apply P_keywords; discriminate.
  - unfold description_check; other_kind; apply P_keywords; discriminate.
Qed.

Lemma other_fields_after :
  Forall (fun x => P x = false)
    (emitted (ai_check m) ++ emitted (author_check m)).
Proof.
  apply Forall_app; split.
  - unfold ai_check; other_kind; apply P_keywords; discriminate.
  - unfold author_check; other_kind; apply P_keywords; discriminate.
Qed.

End Kinds.

Lemma keywords_issue_field (t : IssueType) (start : jsstring)
  (i : ValidationIssue) :
  field i <> Some key_keywords -> keywords_issue t start i = false.
Proof.
  intros H. unfold keywords_issue.
  destruct (type i), t; try reflexivity;
    destruct (field i) as [[]|]; try reflexivity; congruence.
Qed.

Lemma keywords_issue_type (t : IssueType) (start : jsstring)
  (i : ValidationIssue) :
  type i <> t -> keywords_issue t start i = false.
Proof.
  intros H. unfold keywords_issue.
  destruct (type i), t; try reflexivity; congruence.
Qed.

Section KeywordKinds.

Variable toLowerCase : jsstring -> jsstring.
Variable m : ImageMetadata.

Lemma keyword_count_emits_no_other_kind :
  Forall (fun x => is_compliance_error x = false)
    (emitted (keyword_count_check m)) /\
  Forall (fun x => is_duplicate_warning x = false)
    (emitted (keyword_count_check m)) /\
  Forall (fun x => is_short_keywords_info x = false)
    (emitted (keyword_count_check m)).
Proof.
  repeat split; unfold keyword_count_check; other_kind.
Qed.

Lemma duplicate_emits_no_other_kind :
  Forall (fun x => is_keyword_count_error x = false)
    (emitted (duplicate_check toLowerCase m)) /\
  Forall (fun x => is_compliance_error x = false)
    (emitted (duplicate_check toLowerCase m)) /\
  Forall (fun x => is_short_keywords_info x = false)
    (emitted (duplicate_check toLowerCase m)).
Proof.
  repeat split; unfold duplicate_check; other_kind.
Qed.

Lemma short_keywords_emits_no_other_kind :
  Forall (fun x => is_keyword_count_error x = false)
    (emitted (short_keywords_check m)) /\
  Forall (fun x => is_compliance_error x = false)
    (emitted (short_keywords_check m)) /\
  Forall (fun x => is_duplicate_warning x = false)
    (emitted (short_keywords_check m)).
Proof.
  repeat split; unfold short_keywords_check; other_kind.
Qed.

Lemma compliance_emits_no_other_kind :
  Forall (fun x => is_keyword_count_error x = false)
    (emitted (compliance_check toLowerCase m)) /\
  Forall (fun x => is_duplicate_warning x = false)
    (emitted (compliance_check toLowerCase m)) /\
  Forall (fun x => is_short_keywords_info x = false)
    (emitted (compliance_check toLowerCase m)).
Proof.
  repeat split; unfold compliance_check; other_kind.
Qed.

End KeywordKinds.

(* ===================================================================== *)
(** ** The keyword rules, on the result of [validateMetadata]            *)
(* ===================================================================== *)

(** C4 (amended). With K the number of keywords: when K < 30 the result
    of [validateMetadata] holds exactly one keyword-count error, whose
    message gives K and the minimum 30, its raw score is lowered by
    (30 - K) * 1.5 and its recommendations tell to add 30 - K keywords;
    when K > 50 it holds exactly one keyword-count error, whose message
    gives K and the maximum 50, its raw score is lowered by (K - 50) * 2
    and its recommendations tell to remove K - 50 keywords; when
    30 <= K <= 50 it holds no keyword-count error.  The shortfall and the
    excess are cited by the recommendation, not by the error.  K = 29
    costs 1.5 and K = 51 costs 2. *)
Theorem keyword_count_rule (toLowerCase : jsstring -> jsstring)
  (m : ImageMetadata) :
  let K := len (keywords m) in
  let r := validateMetadata toLowerCase m in
  let kc := keyword_count_check m in
  let others := (block_penalties toLowerCase m - penalty kc)%Q in
  (K < 30 ->
   exactly_one is_keyword_count_error
     (issue error
        (js "Found only " ++ Number_toString K
         ++ js " keywords. Minimum 30 required for optimal visibility.")
        key_keywords)
     (issues r) /\
   In (js "Add " ++ Number_toString (30 - K)
       ++ js " more keywords to reach the minimum of 30.")
      (recommendations r) /\
   (cur_score (body toLowerCase m)
    == 100 - others - inject_Z (30 - K) * 1.5)%Q /\
   (penalty kc == inject_Z (30 - K) * 1.5)%Q) /\
  (K > 50 ->
   exactly_one is_keyword_count_error
     (issue error
        (js "Found " ++ Number_toString K
         ++ js " keywords. Max 50 allowed on most platforms.")
        key_keywords)
     (issues r) /\
   In (js "Remove " ++ Number_toString (K - 50)
       ++ js " least relevant keywords.")
      (recommendations r) /\
   (cur_score (body toLowerCase m)
    == 100 - others - inject_Z (K - 50) * 2)%Q /\
   (penalty kc == inject_Z (K - 50) * 2)%Q) /\
  (30 <= K <= 50 ->
   Forall (fun i => is_keyword_count_error i = false) (issues r) /\
   advised kc = [] /\
   (cur_score (body toLowerCase m) == 100 - others)%Q /\
   (penalty kc == 0)%Q) /\
  (K = 29 ->
   (cur_score (body toLowerCase m) == 100 - others - 1.5)%Q /\
   (penalty kc == 1.5)%Q) /\
  (K = 51 ->
   (cur_score (body toLowerCase m) == 100 - others - 2)%Q /\
   (penalty kc == 2)%Q) /\
  from_blocks toLowerCase m.
Proof.
  intros K r kc others. subst r kc others.
  destruct (validate_from_blocks toLowerCase m) as (Hi & Hr & Hs & Hc).
  assert (Hpre := other_fields_before m is_keyword_count_error
                    (keywords_issue_field error (js "Found "))).
  assert (Hpost := other_fields_after m is_keyword_count_error
                     (keywords_issue_field error (js "Found "))).
  destruct (duplicate_emits_no_other_kind toLowerCase m) as (Hd & _).
  destruct (short_keywords_emits_no_other_kind m) as (Hsk & _).
  destruct (compliance_emits_no_other_kind toLowerCase m) as (Hco & _).
  assert (Hafter :
            Forall (fun x => is_keyword_count_error x = false)
              (emitted (duplicate_check toLowerCase m)
               ++ emitted (short_keywords_check m)
               ++ emitted (compliance_check toLowerCase m)
               ++ emitted (ai_check m) ++ emitted (author_check m))).
  { apply Forall_app; split; [exact Hd|].
    apply Forall_app; split; [exact Hsk|].
    apply Forall_app; split; [exact Hco | exact Hpost]. }
  assert (B1 : K < 30 ->
            emitted (keyword_count_check m) =
              [issue error
                 (js "Found only " ++ Number_toString K
                  ++ js " keywords. Minimum 30 required for optimal visibility.")
                 key_keywords] /\
            (penalty (keyword_count_check m) == inject_Z (30 - K) * 1.5)%Q /\
            advised (keyword_count_check m) =
              [js "Add " ++ Number_toString (30 - K)
               ++ js " more keywords to reach the minimum of 30."]).
  { intros HK. unfold keyword_count_check. fold K. split_tests.
    repeat split; contribution. }
  assert (B2 : K > 50 ->
            emitted (keyword_count_check m) =
              [issue error
                 (js "Found " ++ Number_toString K
                  ++ js " keywords. Max 50 allowed on most platforms.")
                 key_keywords] /\
            (penalty (keyword_count_check m) == inject_Z (K - 50) * 2)%Q /\
            advised (keyword_count_check m) =
              [js "Remove " ++ Number_toString (K - 50)
               ++ js " least relevant keywords."]).
  { intros HK. unfold keyword_count_check. fold K. split_tests.
    repeat split; contribution. }
  assert (B3 : 30 <= K <= 50 ->
            emitted (keyword_count_check m) = [] /\
            (penalty (keyword_count_check m) == 0)%Q /\
            advised (keyword_count_check m) = []).
  { intros HK. unfold keyword_count_check. fold K. split_tests.
    repeat split; contribution. }
  split; [|split; [|split; [|split; [|split]]]].
  - intros HK. destruct (B1 HK) as (E & P & A).
    split; [|split; [|split]].
    + eapply exactly_one_intro; [| reflexivity | exact Hpre | exact Hafter].
      rewrite Hi, E, <- !app_assoc. reflexivity.
    + rewrite Hr, A. now left.
    + rewrite Hs. lra.
    + exact P.
  - intros HK. destruct (B2 HK) as (E & P & A).
    split; [|split; [|split]].
    + eapply exactly_one_intro; [| reflexivity | exact Hpre | exact Hafter].
      rewrite Hi, E, <- !app_assoc. reflexivity.
    + rewrite Hr, A. now left.
    + rewrite Hs. lra.
    + exact P.
  - intros HK. destruct (B3 HK) as (E & P & A).
    split; [|split; [|split]].
    + rewrite Hi, E. rewrite !Forall_app in *.
      repeat split; try tauto. constructor.
    + exact A.
    + rewrite Hs. lra.
    + exact P.
  - intros HK. assert (H30 : K < 30) by lia.
    destruct (B1 H30) as (_ & P & _).
    assert (P' : (penalty (keyword_count_check m) == 1.5)%Q)
      by (rewrite P, HK; reflexivity).
    split; [rewrite Hs; lra | exact P'].
  - intros HK. assert (H50 : K > 50) by lia.
    destruct (B2 H50) as (_ & P & _).
    assert (P' : (penalty (keyword_count_check m) == 2)%Q)
      by (rewrite P, HK; reflexivity).
    split; [rewrite Hs; lra | exact P'].
  - exact (validate_from_blocks toLowerCase m).
Qed.

Lemma keyword_count_rule_witness :
  len (keywords keywords_29) < 30 /\
  In (js "Add 1 more keywords to reach the minimum of 30.")
     (recommendations (validateMetadata toLowerCase_ascii keywords_29)) /\
  len (keywords keywords_51) > 50 /\
  In (js "Remove 1 least relevant keywords.")
     (recommendations (validateMetadata toLowerCase_ascii keywords_51)).
Proof.
  assert (H1 : len (keywords keywords_29) < 30) by reflexivity.
  assert (H2 : len (keywords keywords_51) > 50) by reflexivity.
  split; [exact H1|]. split; [|split; [exact H2|]].
  - exact (proj1 (proj2 (proj1 (keyword_count_rule toLowerCase_ascii
                                  keywords_29) H1))).
  - exact (proj1 (proj2 (proj1 (proj2 (keyword_count_rule toLowerCase_ascii
                                         keywords_51)) H2))).
Defined.

(** C5. A denylist term is found exactly when it occurs as a substring of
    the lower-cased title, of the lower-cased description or of some
    lower-cased keyword.  When at least one term is found the result of
    [validateMetadata] holds exactly one compliance error, whose message
    lists every found term, its raw score is lowered by 25 for each
    distinct found term and its recommendations tell to remove them;
    otherwise it holds no compliance error.  The title "Amazing iPhone
    photo" yields one compliance error listing "iphone" at a cost of 25,
    and a title with the two terms "nike" and "adidas" yields one error
    at a cost of 50. *)
Theorem compliance_rule :
  (forall (toLowerCase : jsstring -> jsstring) (m : ImageMetadata),
     let found := foundBanned toLowerCase m in
     let r := validateMetadata toLowerCase m in
     let cc := compliance_check toLowerCase m in
     let others := (block_penalties toLowerCase m - penalty cc)%Q in
     let listing := join (js ", ") found in
     let violation :=
       issue error
         (js "Potential Trademark/Brand Violation: " ++ listing
          ++ js ". Commercial stock must be free of brands.")
         key_keywords in
     (forall t, In t found <->
                In t BANNED_KEYWORDS /\ found_in toLowerCase m t) /\
     NoDup found /\
     (found <> [] ->
      exactly_one is_compliance_error violation (issues r) /\
      (forall t, In t found -> occurs_in t (message violation)) /\
      In (js "Remove all instances of: " ++ listing ++ js ".")
         (recommendations r) /\
      (cur_score (body toLowerCase m)
       == 100 - others - 25 * inject_Z (len found))%Q /\
      (penalty cc == 25 * inject_Z (len found))%Q) /\
     (found = [] ->
      Forall (fun i => is_compliance_error i = false) (issues r) /\
      advised cc = [] /\
      (cur_score (body toLowerCase m) == 100 - others)%Q /\
      (penalty cc == 0)%Q) /\
     from_blocks toLowerCase m) /\
  (foundBanned toLowerCase_ascii iphone_title = [js "iphone"] /\
   issues (validateMetadata toLowerCase_ascii iphone_title) =
     [title_few_words;
      issue error
        (js "Potential Trademark/Brand Violation: iphone. Commercial stock must be free of brands.")
        key_keywords] /\
   (cur_score (body toLowerCase_ascii iphone_title) == 100 - 5 - 25)%Q /\
   score (validateMetadata toLowerCase_ascii iphone_title) = 70%Q) /\
  (foundBanned toLowerCase_ascii two_brands_title = [js "nike"; js "adidas"] /\
   issues (validateMetadata toLowerCase_ascii two_brands_title) =
     [issue error
        (js "Potential Trademark/Brand Violation: nike, adidas. Commercial stock must be free of brands.")
        key_keywords] /\
   (cur_score (body toLowerCase_ascii two_brands_title) == 100 - 50)%Q /\
   score (validateMetadata toLowerCase_ascii two_brands_title) = 50%Q).
Proof.
  split; [|split; repeat split; vm_compute; reflexivity].
  intros toLowerCase m found r cc others listing violation.
  subst r cc others violation.
  destruct (validate_from_blocks toLowerCase m) as (Hi & Hr & Hs & Hc).
  assert (Hpre := other_fields_before m is_compliance_error
                    (keywords_issue_field error _)).
  assert (Hpost := other_fields_after m is_compliance_error
                     (keywords_issue_field error _)).
  destruct (keyword_count_emits_no_other_kind m) as (Hk & _).
  destruct (duplicate_emits_no_other_kind toLowerCase m) as (_ & Hd & _).
  destruct (short_keywords_emits_no_other_kind m) as (_ & Hsk & _).
  assert (Hbefore :
            Forall (fun x => is_compliance_error x = false)
              (emitted (title_length_check m)
               ++ emitted (title_words_check m)
               ++ emitted (description_check m)
               ++ emitted (keyword_count_check m)
               ++ emitted (duplicate_check toLowerCase m)
               ++ emitted (short_keywords_check m))).
  { rewrite !Forall_app in *. tauto. }
  split; [apply foundBanned_spec|].
  split; [apply foundBanned_NoDup|].
  split; [|split; [|exact (validate_from_blocks toLowerCase m)]].
  - intros Hne. apply len_pos_iff in Hne.
    assert (B : emitted (compliance_check toLowerCase m) =
                [issue error
                   (js "Potential Trademark/Brand Violation: " ++ listing
                    ++ js ". Commercial stock must be free of brands.")
                   key_keywords] /\
                (penalty (compliance_check toLowerCase m)
                 == 25 * inject_Z (len found))%Q /\
                advised (compliance_check toLowerCase m) =
                  [js "Remove all instances of: " ++ listing ++ js "."]).
    { unfold compliance_check. fold found. fold listing. split_tests.
      repeat split; contribution. }
    destruct B as (E & P & A).
    split; [|split; [|split; [|split]]].
    + eapply exactly_one_intro; [| reflexivity | exact Hbefore | exact Hpost].
      rewrite Hi, E, <- !app_assoc. reflexivity.
    + intros t Ht. cbn [message issue].
      now apply occurs_in_app, occurs_in_join.
    + rewrite Hr, A, !in_app_iff. right. right. right. now left.
    + rewrite Hs. lra.
    + exact P.
  - intros E0.
    assert (B : emitted (compliance_check toLowerCase m) = [] /\
                (penalty (compliance_check toLowerCase m) == 0)%Q /\
                advised (compliance_check toLowerCase m) = []).
    { unfold compliance_check. fold found. rewrite E0.
      repeat split; contribution. }
    destruct B as (E & P & A).
    split; [|split; [|split]].
    + rewrite Hi, E. rewrite !Forall_app in *.
      repeat split; try tauto. constructor.
    + exact A.
    + rewrite Hs. lra.
    + exact P.
Qed.

Lemma compliance_rule_witness :
  foundBanned toLowerCase_ascii two_brands_title <> [] /\
  In (js "Remove all instances of: nike, adidas.")
     (recommendations (validateMetadata toLowerCase_ascii two_brands_title)).
Proof.
  assert (H : foundBanned toLowerCase_ascii two_brands_title <> [])
    by (vm_compute; discriminate).
  split; [exact H|].
  exact (proj1 (proj2 (proj2
    (proj1 (proj2 (proj2
      (proj1 compliance_rule toLowerCase_ascii two_brands_title))) H)))).
Defined.

(** C6. With D the number of keywords minus the number of distinct
    lower-cased, trimmed keywords: when D > 0 the result of
    [validateMetadata] holds exactly one duplicate-keywords warning, which
    cites D, its raw score is lowered by D * 3 and its recommendations
    tell to remove duplicates; when D = 0 it holds no such warning.  The
    keywords "cat", "Cat " and "dog" give D = 1 at a cost of 3. *)
Theorem duplicate_rule :
  (forall (toLowerCase : jsstring -> jsstring) (m : ImageMetadata),
     let unique := uniqueKeywords toLowerCase m in
     let D := len (keywords m) - len unique in
     let r := validateMetadata toLowerCase m in
     let dc := duplicate_check toLowerCase m in
     let others := (block_penalties toLowerCase m - penalty dc)%Q in
     NoDup unique /\
     (forall k, In k unique <->
                In k (map (normalized toLowerCase) (keywords m))) /\
     0 <= D /\
     (D > 0 ->
      exactly_one is_duplicate_warning
        (issue warning
           (js "Found " ++ Number_toString D ++ js " duplicate keywords.")
           key_keywords)
        (issues r) /\
      In (js "Remove duplicate keywords to save space for unique terms.")
         (recommendations r) /\
      (cur_score (body toLowerCase m) == 100 - others - inject_Z D * 3)%Q /\
      (penalty dc == inject_Z D * 3)%Q) /\
     (D = 0 ->
      Forall (fun i => is_duplicate_warning i = false) (issues r) /\
      advised dc = [] /\
      (cur_score (body toLowerCase m) == 100 - others)%Q /\
      (penalty dc == 0)%Q) /\
     from_blocks toLowerCase m) /\
  (len (keywords cat_cat_dog)
   - len (uniqueKeywords toLowerCase_ascii cat_cat_dog) = 1 /\
   issues (validateMetadata toLowerCase_ascii cat_cat_dog) =
     [issue error
        (js "Found only 3 keywords. Minimum 30 required for optimal visibility.")
        key_keywords;
      issue warning (js "Found 1 duplicate keywords.") key_keywords] /\
   (cur_score (body toLowerCase_ascii cat_cat_dog) == 100 - 40.5 - 3)%Q /\
   score (validateMetadata toLowerCase_ascii cat_cat_dog) = 57%Q).
Proof.
  split; [|repeat split; vm_compute; reflexivity].
  intros toLowerCase m unique D r dc others. subst r dc others.
  destruct (uniqueKeywords_spec toLowerCase m) as [Hnd [Hin [Hle Heq]]].
  fold unique in Hnd, Hin, Hle, Heq.
  destruct (validate_from_blocks toLowerCase m) as (Hi & Hr & Hs & Hc).
  assert (Hpre := other_fields_before m is_duplicate_warning
                    (keywords_issue_field warning _)).
  assert (Hpost := other_fields_after m is_duplicate_warning
                     (keywords_issue_field warning _)).
  destruct (keyword_count_emits_no_other_kind m) as (_ & Hk & _).
  destruct (short_keywords_emits_no_other_kind m) as (_ & _ & Hsk).
  destruct (compliance_emits_no_other_kind toLowerCase m) as (_ & Hco & _).
  assert (Hbefore :
            Forall (fun x => is_duplicate_warning x = false)
              (emitted (title_length_check m)
               ++ emitted (title_words_check m)
               ++ emitted (description_check m)
               ++ emitted (keyword_count_check m))).
  { rewrite !Forall_app in *. tauto. }
  assert (Hafter :
            Forall (fun x => is_duplicate_warning x = false)
              (emitted (short_keywords_check m)
               ++ emitted (compliance_check toLowerCase m)
               ++ emitted (ai_check m) ++ emitted (author_check m))).
  { rewrite !Forall_app in *. tauto. }
  split; [exact Hnd|]. split; [exact Hin|]. split; [subst D; lia|].
  split; [|split; [|exact (validate_from_blocks toLowerCase m)]].
  - intros HD.
    assert (B : emitted (duplicate_check toLowerCase m) =
                [issue warning
                   (js "Found " ++ Number_toString D
                    ++ js " duplicate keywords.") key_keywords] /\
                (penalty (duplicate_check toLowerCase m)
                 == inject_Z D * 3)%Q /\
                advised (duplicate_check toLowerCase m) =
                  [js "Remove duplicate keywords to save space for unique terms."]).
    { unfold duplicate_check. fold unique. fold D. subst D. split_tests.
      repeat split; contribution. }
    destruct B as (E & P & A).
    split; [|split; [|split]].
    + eapply exactly_one_intro; [| reflexivity | exact Hbefore | exact Hafter].
      rewrite Hi, E, <- !app_assoc. reflexivity.
    + rewrite Hr, A, !in_app_iff. right. left. now left.
    + rewrite Hs. lra.
    + exact P.
  - intros HD.
    assert (B : emitted (duplicate_check toLowerCase m) = [] /\
                (penalty (duplicate_check toLowerCase m) == 0)%Q /\
                advised (duplicate_check toLowerCase m) = []).
    { unfold duplicate_check. fold unique. subst D. split_tests.
      repeat split; contribution. }
    destruct B as (E & P & A).
    split; [|split; [|split]].
    + rewrite Hi, E. rewrite !Forall_app in *.
      repeat split; try tauto. constructor.
    + exact A.
    + rewrite Hs. lra.
    + exact P.
Qed.

Lemma duplicate_rule_witness :
  len (keywords cat_cat_dog)
  - len (uniqueKeywords toLowerCase_ascii cat_cat_dog) > 0 /\
  In (js "Remove duplicate keywords to save space for unique terms.")
     (recommendations (validateMetadata toLowerCase_ascii cat_cat_dog)).
Proof.
  assert (H : len (keywords cat_cat_dog)
              - len (uniqueKeywords toLowerCase_ascii cat_cat_dog) > 0)
    by (vm_compute; reflexivity).
  split; [exact H|].
  exact (proj1 (proj2
    (proj1 (proj2 (proj2 (proj2
      (proj1 duplicate_rule toLowerCase_ascii cat_cat_dog)))) H))).
Defined.

(** C9 (amended). With S the keywords whose length, as given and without
    trimming, is below 3 code units: when S has more than 3 members the
    result of [validateMetadata] holds exactly one info issue on the
    keywords, which cites the size of S and, as its example, the first
    such keyword in input order; its recommendations tell to replace the
    short terms and its raw score is not lowered by it.  When S has 3
    members or fewer, and so whenever at most 3 keywords have a trimmed
    length below 3, the result holds no such issue. *)
Theorem short_keywords_rule (toLowerCase : jsstring -> jsstring)
  (m : ImageMetadata) :
  let S := tooShortKeywords m in
  let r := validateMetadata toLowerCase m in
  let sc := short_keywords_check m in
  let others := (block_penalties toLowerCase m - penalty sc)%Q in
  (forall k, In k S <-> In k (keywords m) /\ len k < 3) /\
  (len S > 3 ->
   exists first pre post,
     keywords m = pre ++ first :: post /\
     len first < 3 /\
     Forall (fun k => 3 <= len k) pre /\
     exactly_one is_short_keywords_info
       (issue info
          (Number_toString (len S)
           ++ js " keywords are very short/generic (e.g. " ++ dquote
           ++ first ++ dquote ++ js ").") key_keywords)
       (issues r) /\
     In (js "Replace short 2-letter keywords with more specific terms.")
        (recommendations r)) /\
  (len S <= 3 ->
   Forall (fun i => is_short_keywords_info i = false) (issues r) /\
   advised sc = []) /\
  (len (short_after_trim m) <= 3 ->
   Forall (fun i => is_short_keywords_info i = false) (issues r) /\
   advised sc = []) /\
  (cur_score (body toLowerCase m) == 100 - others)%Q /\
  (penalty sc == 0)%Q /\
  from_blocks toLowerCase m.
Proof.
  intros S r sc others. subst r others.
  destruct (validate_from_blocks toLowerCase m) as (Hi & Hr & Hs & Hc).
  assert (Hpre := other_fields_before m is_short_keywords_info
                    (keywords_issue_field info _)).
  assert (Hpost := other_fields_after m is_short_keywords_info
                     (keywords_issue_field info _)).
  destruct (keyword_count_emits_no_other_kind m) as (_ & _ & Hk).
  destruct (duplicate_emits_no_other_kind toLowerCase m) as (_ & _ & Hd).
  destruct (compliance_emits_no_other_kind toLowerCase m) as (_ & _ & Hco).
  assert (Hbefore :
            Forall (fun x => is_short_keywords_info x = false)
              (emitted (title_length_check m)
               ++ emitted (title_words_check m)
               ++ emitted (description_check m)
               ++ emitted (keyword_count_check m)
               ++ emitted (duplicate_check toLowerCase m))).
  { rewrite !Forall_app in *. tauto. }
  assert (Hafter :
            Forall (fun x => is_short_keywords_info x = false)
              (emitted (compliance_check toLowerCase m)
               ++ emitted (ai_check m) ++ emitted (author_check m))).
  { rewrite !Forall_app in *. tauto. }
  assert (P0 : (penalty sc == 0)%Q).
  { subst sc. unfold short_keywords_check.
    destruct (len (tooShortKeywords m) >? 3); contribution. }
  assert (Hquiet : len S <= 3 ->
            Forall (fun i => is_short_keywords_info i = false)
              (issues (validateMetadata toLowerCase m)) /\
            advised sc = []).
  { intros HS. subst sc. rewrite Hi.
    rewrite short_keywords_quiet by assumption.
    split; [|contribution].
    change (emitted skip) with (@nil ValidationIssue).
    rewrite !Forall_app in *. repeat split; try tauto. constructor. }
  split; [|split; [|split; [exact Hquiet|split; [|split; [|split;
    [exact P0|exact (validate_from_blocks toLowerCase m)]]]]]].
  - intros k. subst S. unfold tooShortKeywords.
    rewrite filter_In, Z.ltb_lt. tauto.
  - intros HS. subst S sc.
    destruct (tooShortKeywords m) as [|first rest] eqn:ES;
      [vm_compute in HS; discriminate|].
    destruct (filter_head _ _ _ _ ES) as (pre & post & Hkw & Hf & Hp).
    exists first, pre, post.
    split; [exact Hkw|]. split; [now apply Z.ltb_lt|]. split.
    { revert Hp. apply Forall_impl. intros k Hlt. now apply Z.ltb_ge. }
    assert (B : emitted (short_keywords_check m) =
                [issue info
                   (Number_toString (len (first :: rest))
                    ++ js " keywords are very short/generic (e.g. "
                    ++ dquote ++ first ++ dquote ++ js ").")
                   key_keywords] /\
                advised (short_keywords_check m) =
                  [js "Replace short 2-letter keywords with more specific terms."]).
    { unfold short_keywords_check. rewrite ES.
      cbn [first_or_undefined]. split_tests.
      repeat split; contribution. }
    destruct B as (E & A).
    split.
    + eapply exactly_one_intro; [| reflexivity | exact Hbefore | exact Hafter].
      rewrite Hi, E, <- !app_assoc. reflexivity.
    + rewrite Hr, A, !in_app_iff. right. right. left. now left.
  - intros HT. apply Hquiet. subst S.
    assert (Hle : len (tooShortKeywords m) <= len (short_after_trim m)).
    { apply filter_length_le. intros k Hk'. apply Z.ltb_lt in Hk'.
      apply Z.ltb_lt. assert (Hlen := trim_length k). lia. }
    lia.
  - rewrite Hs. lra.
Qed.

Lemma short_keywords_rule_witness :
  len (tooShortKeywords clean) <= 3 /\
  Forall (fun i => is_short_keywords_info i = false)
    (issues (validateMetadata toLowerCase_ascii clean)) /\
  len (tooShortKeywords four_short_keywords) > 3 /\
  In (js "Replace short 2-letter keywords with more specific terms.")
     (recommendations (validateMetadata toLowerCase_ascii four_short_keywords)).
Proof.
  assert (H : len (tooShortKeywords clean) <= 3)
    by (vm_compute; discriminate).
  assert (H4 : len (tooShortKeywords four_short_keywords) > 3)
    by reflexivity.
  split; [exact H|]. split; [|split; [exact H4|]].
  - exact (proj1 (proj1 (proj2 (proj2
             (short_keywords_rule toLowerCase_ascii clean))) H)).
  - destruct (proj1 (proj2
               (short_keywords_rule toLowerCase_ascii four_short_keywords)) H4)
      as (first & pre & post & _ & _ & _ & _ & A).
    exact A.
Defined.

(* ===================================================================== *)
(** ** The scenario, as the specification states it                      *)
(* ===================================================================== *)

Lemma keywords_clean_by_computation (toLowerCase : jsstring -> jsstring)
  (ks : list jsstring) :
  forallb (fun k =>
             forallb (fun t => negb (includes (toLowerCase k) t))
                     BANNED_KEYWORDS) ks = true ->
  Forall (fun k =>
            Forall (fun t => ~ occurs_in t (toLowerCase k)) BANNED_KEYWORDS)
         ks.
Proof.
  rewrite forallb_forall, Forall_forall. intros H k Hk.
  specialize (H k Hk). rewrite forallb_forall in H.
  apply Forall_forall. intros t Ht Hocc.
  apply includes_spec in Hocc. specialize (H t Ht).
  rewrite Hocc in H. discriminate H.
Qed.

(** Two records meet every condition that the scenario lists and yet give
    five issues.  With four two-letter keywords among the 25, the
    short-keyword check adds an info issue; the score is still 68.  With
    the title "Affordable ...", of 80 code units and 8 words, the
    denylisted term "ford" is found in the title although no keyword is
    denylisted; the compliance check adds an error and the score is 43. *)
Lemma scenario_with_five_issues :
  (scenario_as_stated toLowerCase_ascii scenario_short_keywords /\
   issues (validateMetadata toLowerCase_ascii scenario_short_keywords) =
     [ title_too_long 80;
       issue error
         (js "Found only 25 keywords. Minimum 30 required for optimal visibility.")
         key_keywords;
       issue info
         (js "4 keywords are very short/generic (e.g. " ++ dquote ++ js "am"
          ++ dquote ++ js ").") key_keywords;
       issue warning
         (js "isAI flag is false. Most platforms now require marking AI content explicitly.")
         key_isAI;
       issue info (js "Author field does not contain dynamic placeholder.")
         key_author ] /\
   length (issues (validateMetadata toLowerCase_ascii
                     scenario_short_keywords)) = 5%nat /\
   score (validateMetadata toLowerCase_ascii scenario_short_keywords)
   = 68%Q) /\
  (scenario_as_stated toLowerCase_ascii scenario_brand_title /\
   issues (validateMetadata toLowerCase_ascii scenario_brand_title) =
     [ title_too_long 80;
       issue error
         (js "Found only 25 keywords. Minimum 30 required for optimal visibility.")
         key_keywords;
       issue error
         (js "Potential Trademark/Brand Violation: ford. Commercial stock must be free of brands.")
         key_keywords;
       issue warning
         (js "isAI flag is false. Most platforms now require marking AI content explicitly.")
         key_isAI;
       issue info (js "Author field does not contain dynamic placeholder.")
         key_author ] /\
   length (issues (validateMetadata toLowerCase_ascii
                     scenario_brand_title)) = 5%nat /\
   (cur_score (body toLowerCase_ascii scenario_brand_title) == 42.5)%Q /\
   score (validateMetadata toLowerCase_ascii scenario_brand_title) = 43%Q).
Proof.
  split; (split; [|repeat split; vm_compute; reflexivity]).
  - unfold scenario_as_stated.
    split; [reflexivity|]. split; [reflexivity|]. split; [reflexivity|].
    split; [reflexivity|]. split; [|split; [|split; reflexivity]].
    + apply (uniqueKeywords_spec toLowerCase_ascii scenario_short_keywords).
      vm_compute. reflexivity.
    + apply keywords_clean_by_computation. vm_compute. reflexivity.
  - unfold scenario_as_stated.
    split; [reflexivity|]. split; [reflexivity|]. split; [reflexivity|].
    split; [reflexivity|]. split; [|split; [|split; reflexivity]].
    + apply (uniqueKeywords_spec toLowerCase_ascii scenario_brand_title).
      vm_compute. reflexivity.
    + apply keywords_clean_by_computation. vm_compute. reflexivity.
Qed.

(* ===================================================================== *)
(** ** The title word count, on the result of [validateMetadata]         *)
(* ===================================================================== *)

(** The word-count warning is among the issues of the result exactly when
    the title splits into fewer than 5 pieces. *)
Lemma few_words_reported_iff (toLowerCase : jsstring -> jsstring)
  (m : ImageMetadata) :
  In title_few_words (issues (validateMetadata toLowerCase m)) <->
  len (split_ws (title m)) < 5.
Proof.
  split.
  - intros H. apply title_issue_origin in H; [|reflexivity].
    destruct H as [H | H].
    + destruct (title_length_emits m)
        as [(_ & E & _) | [(_ & E & _) | (_ & E & _)]];
        rewrite E in H; [| |destruct H]; destruct H as [H | []].
      * discriminate H.
      * vm_compute in H. discriminate H.
    + destruct (title_words_emits m) as [(L & _) | (_ & E & _)];
        [exact L|]. rewrite E in H. destruct H.
  - intros L. rewrite validate_issues_by_block, !in_app_iff.
    right. left.
    destruct (title_words_emits m) as [(_ & E & _) | (G & _)]; [|lia].
    rewrite E. now left.
Qed.

(** X6. The word count of the title check counts white space at either
    end of the title as a word: the result of [validateMetadata] for an
    empty title always holds the word-count warning, and for any other
    title it holds that warning exactly when the number of words of the
    title, plus one for leading and one for trailing white space, is
    below 5. *)
Theorem title_word_count_includes_padding
  (toLowerCase : jsstring -> jsstring) (m : ImageMetadata) :
  (title m = [] ->
   In title_few_words (issues (validateMetadata toLowerCase m))) /\
  (title m <> [] ->
   (In title_few_words (issues (validateMetadata toLowerCase m)) <->
    count_words true (title m) + b2z (starts_with_space (title m))
    + b2z (ends_with_space (title m)) < 5)).
Proof.
  assert (E0 : title m = [] -> len (split_ws (title m)) = 1).
  { intros Ht. now rewrite Ht. }
  assert (E1 : title m <> [] ->
               len (split_ws (title m)) =
               count_words true (title m)
               + b2z (starts_with_space (title m))
               + b2z (ends_with_space (title m))).
  { generalize (word_count_counts_padding (title m)).
    destruct (title m); [congruence|]. intros (E & _) _. exact E. }
  split.
  - intros Ht. apply few_words_reported_iff. rewrite (E0 Ht). lia.
  - intros Hne. rewrite few_words_reported_iff, (E1 Hne). reflexivity.
Qed.

Lemma title_word_count_includes_padding_witness :
  title (with_title (js " calm mountain lake ") clean) <> [] /\
  count_words true (title (with_title (js " calm mountain lake ") clean)) = 3 /\
  ~ In title_few_words
      (issues (validateMetadata toLowerCase_ascii
                 (with_title (js " calm mountain lake ") clean))).
Proof.
  assert (Hne : title (with_title (js " calm mountain lake ") clean) <> [])
    by discriminate.
  split; [exact Hne|]. split; [reflexivity|].
  intros H.
  assert (H' := proj1 (proj2 (title_word_count_includes_padding
                                toLowerCase_ascii
                                (with_title (js " calm mountain lake ") clean))
                         Hne) H).
  vm_compute in H'. discriminate H'.
Defined.

(* ===================================================================== *)
(** ** Denylisted keywords in the panel                                  *)
(* ===================================================================== *)

Lemma is_ascii_by_computation (s : jsstring) :
  forallb (fun c => (c <? 128)%N) s = true -> is_ascii s.
Proof.
  rewrite forallb_forall. intros H. apply Forall_forall.
  intros c Hc. apply N.ltb_lt. now apply H.
Qed.

Lemma is_ascii_app (a b : jsstring) :
  is_ascii (a ++ b) <-> is_ascii a /\ is_ascii b.
Proof. apply Forall_app. Qed.

Lemma is_ascii_join (sep : jsstring) (xs : list jsstring) :
  is_ascii sep -> Forall is_ascii xs -> is_ascii (join sep xs).
Proof.
  intros Hsep. induction xs as [|x xs IH]; intros Hxs.
  - apply Forall_nil.
  - inversion Hxs as [|? ? Hx Hrest]; subst.
    destruct xs as [|y xs]; [exact Hx|].
    change (join sep (x :: y :: xs)) with (x ++ sep ++ join sep (y :: xs)).
    apply is_ascii_app. split; [exact Hx|].
    apply is_ascii_app. split; [exact Hsep|]. now apply IH.
Qed.

(** Every term of the denylist is ASCII and in lower case. *)
Lemma BANNED_KEYWORDS_lower_ascii (t : jsstring) :
  In t BANNED_KEYWORDS -> is_ascii t /\ toLowerCase_ascii t = t.
Proof.
  intros Ht. vm_compute in Ht.
  repeat (destruct Ht as [<- | Ht];
          [split; [apply is_ascii_by_computation|]; reflexivity|]).
  destruct Ht.
Qed.

(** X11. A keyword whose lower-case form is a denylisted term is rendered
    in red by the panel, for any case mapping that lowers ASCII strings
    as [toLowerCase_ascii] does, whatever it does to other strings. *)
Theorem denylisted_keyword_is_highlighted
  (toLowerCase : jsstring -> jsstring) (m : ImageMetadata) (kw : jsstring) :
  (forall s, is_ascii s -> toLowerCase s = toLowerCase_ascii s) ->
  In kw (keywords m) ->
  In (toLowerCase kw) BANNED_KEYWORDS ->
  MetadataPanel.isWarning toLowerCase (validateMetadata toLowerCase m) kw
  = true.
Proof.
  intros Hascii Hkw Hb.
  destruct (BANNED_KEYWORDS_lower_ascii _ Hb) as [Hta Htl].
  assert (Hf : In (toLowerCase kw) (foundBanned toLowerCase m)).
  { apply foundBanned_spec. split; [exact Hb|]. right. right.
    exists kw. split; [exact Hkw|]. exists [], [].
    now rewrite app_nil_r. }
  assert (Hfa : Forall is_ascii (foundBanned toLowerCase m)).
  { apply Forall_forall. intros t Ht. apply foundBanned_spec in Ht.
    now apply BANNED_KEYWORDS_lower_ascii. }
  assert (Hpos : 0 < len (foundBanned toLowerCase m)).
  { destruct (foundBanned toLowerCase m); [destruct Hf|].
    unfold len. simpl. lia. }
  destruct (compliance_emits toLowerCase m) as [(_ & E & _) | (H & _)];
    [|lia].
  unfold MetadataPanel.isWarning. apply existsb_exists.
  eexists. split.
  - rewrite validate_issues_by_block, E, !in_app_iff.
    do 6 right. left. now left.
  - apply andb_true_iff. split; [reflexivity|].
    apply includes_spec. cbn [message issue].
    assert (Hj := is_ascii_join (js ", ") _
                    ltac:(apply is_ascii_by_computation; reflexivity) Hfa).
    match goal with
    | |- occurs_in _ (toLowerCase ?s) => rewrite (Hascii s)
    end.
    2:{ apply is_ascii_app. split;
          [apply is_ascii_by_computation; reflexivity|].
        apply is_ascii_app. split; [exact Hj|].
        apply is_ascii_by_computation; reflexivity. }
    destruct (occurs_in_join (js ", ") _ _ Hf) as (a & b & Hsplit).
    rewrite Hsplit, !toLowerCase_ascii_app, Htl.
    exists (toLowerCase_ascii (js "Potential Trademark/Brand Violation: ")
            ++ toLowerCase_ascii a),
           (toLowerCase_ascii b
            ++ toLowerCase_ascii
                 (js ". Commercial stock must be free of brands.")).
    now rewrite <- !app_assoc.
Qed.

Lemma denylisted_keyword_is_highlighted_witness :
  (forall s, is_ascii s -> toLowerCase_ascii s = toLowerCase_ascii s) /\
  In (js "Nike") (keywords (with_keywords (js "Nike" :: thirty_keywords) clean))
  /\
  In (toLowerCase_ascii (js "Nike")) BANNED_KEYWORDS /\
  MetadataPanel.isWarning toLowerCase_ascii
    (validateMetadata toLowerCase_ascii
       (with_keywords (js "Nike" :: thirty_keywords) clean))
    (js "Nike") = true.
Proof.
  assert (H0 : forall s, is_ascii s ->
                         toLowerCase_ascii s = toLowerCase_ascii s)
    by (intros s _; reflexivity).
  assert (H1 : In (js "Nike")
                 (keywords (with_keywords (js "Nike" :: thirty_keywords)
                              clean))) by (now left).
  assert (H2 : In (toLowerCase_ascii (js "Nike")) BANNED_KEYWORDS)
    by (vm_compute; tauto).
  split; [exact H0|]. split; [exact H1|]. split; [exact H2|].
  apply (denylisted_keyword_is_highlighted toLowerCase_ascii _ (js "Nike")
           H0 H1 H2).
Defined.
